(** * Fast-path planner: point-get plans (planner/core/point_get_plan.go)

    A shallow embedding of the point-get fast path of the planner and the
    properties of its specification.  Go values are modelled as follows:

    - integers ([int64], [uint], [byte]) are [Z];
    - a nilable pointer or interface is an [option];
    - a slice is a [list] (a nil slice that the code tests with [== nil]
      is an [option (list _)]);
    - a Go panic (failed type assertion, index out of range, nil
      dereference) is the outcome [Panicked];
    - the session context that every function receives is threaded
      explicitly through a small state monad [M]. *)

From Stdlib Require Import ZArith String Ascii List Bool Lia Permutation.
From Stdlib Require DecimalString.
Import ListNotations.
Open Scope string_scope.
Open Scope list_scope.
Open Scope Z_scope.

Set Implicit Arguments.
Set Warnings "-register-all".

(** ** Identifiers and schema metadata (package model) *)

Module model.

(** [CIStr] is a case-insensitive string: the original and its lower
    case form. *)
Record CIStr := mkCIStr { O : string; L : string }.

Definition lowerAscii (c : ascii) : ascii :=
  let n := nat_of_ascii c in
  if andb (Nat.leb 65 n) (Nat.leb n 90) then ascii_of_nat (n + 32) else c.

Fixpoint toLower (s : string) : string :=
  match s with
  | EmptyString => EmptyString
  | String c r => String (lowerAscii c) (toLower r)
  end.

Definition NewCIStr (s : string) : CIStr := mkCIStr s (toLower s).

Inductive SchemaState :=
| StateNone | StateDeleteOnly | StateWriteOnly
| StateWriteReorganization | StateDeleteReorganization | StatePublic.

Definition isPublic (s : SchemaState) : bool :=
  match s with StatePublic => true | _ => false end.

(** Partitioning metadata of a table: the partitioning type and the
    number of partitions. *)
Record PartitionInfo := mkPartitionInfo { partType : Z; partNum : Z }.

End model.
Import model.

(** ** Field types and flags (packages types and mysql) *)

Module mysql.
(** The column flags of the MySQL protocol that the planner tests. *)
Definition PriKeyFlag : Z := 2.
Definition UnsignedFlag : Z := 32.
Definition HasPriKeyFlag (flag : Z) : bool := negb (Z.land flag PriKeyFlag =? 0).
Definition HasUnsignedFlag (flag : Z) : bool := negb (Z.land flag UnsignedFlag =? 0).

Inductive PrivilegeType := SelectPriv | UpdatePriv | DeletePriv | InsertPriv.
End mysql.

Record FieldType := mkFieldType { Tp : Z; Flag : Z }.

(** A [types.Datum]: its kind tag, its integer payload and its byte
    payload.  The zero value has kind [KindNull]. *)
Inductive DatumKind :=
| KindNull | KindInt64 | KindUint64 | KindString | KindBytes | KindInterface.

Record Datum := mkDatum { k : DatumKind; i : Z; b : string }.

Definition zeroDatum : Datum := mkDatum KindNull 0 "".

Definition kindIsNull (kd : DatumKind) : bool :=
  match kd with KindNull => true | _ => false end.

Definition IsNull (d : Datum) : bool := kindIsNull (k d).
Definition GetInt64 (d : Datum) : Z := i d.

(** Go errors.  The planner tells two errors of the types package apart
    ([terror.ErrorEqual]); every other error is [ErrOther]. *)
Inductive error := ErrOverflow | ErrTruncatedWrongVal | ErrOther (msg : string).

Definition isErrOverflow (e : error) : bool :=
  match e with ErrOverflow => true | _ => false end.
Definition isErrTruncatedWrongVal (e : error) : bool :=
  match e with ErrTruncatedWrongVal => true | _ => false end.

Record ColumnInfo := mkColumnInfo {
  colID : Z;
  colName_ : CIStr;
  colOffset : Z;
  colFieldType : FieldType;
  colState : SchemaState;
  GeneratedExprString : string
}.

(** Modelled from the spec: [ColumnInfo.IsGenerated] belongs to the
    parser's model package; a computed (generated) column is one that
    carries a generation expression. *)
Definition IsGenerated (c : ColumnInfo) : bool :=
  negb (String.eqb (GeneratedExprString c) "").

Definition UnspecifiedLength : Z := -1.

Record IndexColumn := mkIndexColumn {
  idxColName : CIStr;
  idxColOffset : Z;
  idxColLength : Z
}.

Record IndexInfo := mkIndexInfo {
  idxID : Z;
  idxName : CIStr;
  idxColumns : list IndexColumn;
  Unique : bool;
  idxState : SchemaState
}.

(** Modelled from the spec: [IndexInfo.HasPrefixIndex] belongs to the
    parser's model package; an index has a prefix-length restriction when
    the length of one of its columns is specified. *)
Definition HasPrefixIndex (idx : IndexInfo) : bool :=
  existsb (fun ic => negb (idxColLength ic =? UnspecifiedLength)) (idxColumns idx).

Record TableInfo := mkTableInfo {
  tblID : Z;
  tblName_ : CIStr;
  Columns : list ColumnInfo;
  Indices : list IndexInfo;
  PKIsHandle : bool;
  Partition : option PartitionInfo
}.

(** Modelled from the spec: [TableInfo.GetPartitionInfo] belongs to the
    parser's model package; it answers the partitioning metadata of the
    table, nil when the table has none. *)
Definition GetPartitionInfo (t : TableInfo) : option PartitionInfo := Partition t.

(** ** The syntax tree (package ast) *)

Module opcode.
Inductive Op := LogicAnd | LogicOr | EQ | NE | LT | LE | GT | GE | Plus | NullEQ.
Definition isLogicAnd (o : Op) : bool := match o with LogicAnd => true | _ => false end.
Definition isEQ (o : Op) : bool := match o with EQ => true | _ => false end.
End opcode.

Module ast.

Record ColumnName := mkColumnName {
  cnSchema : CIStr; cnTable : CIStr; cnName : CIStr
}.

(** A parameter marker [?] with the datum bound to it. *)
Record ParamMarker := mkParamMarker { pmDatum : Datum; pmOrder : Z }.

Inductive ExprNode :=
| BinaryOperationExpr (Op : opcode.Op) (L R : ExprNode)
| ColumnNameExpr (Name : ColumnName)
| ValueExpr (d : Datum)
| ParamMarkerExpr (p : ParamMarker)
| PatternInExpr (Expr : ExprNode) (List : list ExprNode) (Not : bool)
| RowExpr (Values : list ExprNode)
| FuncCallExpr (FnName : string) (Args : list ExprNode)
| UnaryOperationExpr (V : ExprNode).

Record TableName := mkTableName {
  tnSchema : CIStr;
  tnName : CIStr;
  tnTableInfo : option TableInfo
}.

Inductive ResultSetNode :=
| TableSource (Source : ResultSetNode) (AsName : CIStr)
| TableNameNode (tn : TableName)
| JoinNode
| SubqueryNode.

Record Join := mkJoin { Left : option ResultSetNode; Right : option ResultSetNode }.

Record TableRefsClause := mkTableRefsClause { TableRefs : option Join }.

Record WildCardField := mkWildCardField { wcTable : CIStr; wcSchema : CIStr }.

Record SelectField := mkSelectField {
  WildCard : option WildCardField;
  fieldExpr : option ExprNode;
  AsName : CIStr
}.

Record Limit := mkLimit { Count : option ExprNode; Offset : option ExprNode }.

Inductive SelectLockType :=
| SelectLockNone | SelectLockForUpdate | SelectLockInShareMode.

Definition isLockNone (l : SelectLockType) : bool :=
  match l with SelectLockNone => true | _ => false end.
Definition isLockForUpdate (l : SelectLockType) : bool :=
  match l with SelectLockForUpdate => true | _ => false end.

Record SelectStmt := mkSelectStmt {
  SelectStmtOpts : option Z;
  Distinct : bool;
  From : option TableRefsClause;
  Where : option ExprNode;
  Fields : list SelectField;
  GroupBy : option (list ExprNode);
  Having : option ExprNode;
  WindowSpecs : list string;
  OrderBy : option (list ExprNode);
  stmtLimit : option Limit;
  LockTp : SelectLockType
}.

Record Assignment := mkAssignment { asgColumn : ColumnName; asgExpr : ExprNode }.

Record UpdateStmt := mkUpdateStmt {
  updTableRefs : option TableRefsClause;
  updList : list Assignment;
  updWhere : option ExprNode;
  updOrder : option (list ExprNode);
  updLimit : option Limit
}.

Record DeleteStmt := mkDeleteStmt {
  delTableRefs : option TableRefsClause;
  delWhere : option ExprNode;
  delOrder : option (list ExprNode);
  delLimit : option Limit;
  IsMultiTable : bool
}.

Inductive Node :=
| NSelect (x : SelectStmt)
| NUpdate (x : UpdateStmt)
| NDelete (x : DeleteStmt)
| NOther.

End ast.
Import ast.

(** ** Expressions and schemas (package expression) *)

Module expression.

Record Column := mkColumn {
  ColName : CIStr;
  OrigTblName : CIStr;
  DBName : CIStr;
  TblName : CIStr;
  RetType : FieldType;
  ID : Z;
  UniqueID : Z;
  Index : Z
}.

(** A [*Schema] is its ordered column slice. *)
Definition Schema := list Column.

Definition Len (s : Schema) : Z := Z.of_nat (length s).

Inductive Expression :=
| ColumnExpr (c : Column)
| Constant (d : Datum)
| CastFunction (e : Expression) (t : FieldType)
| Rewritten (n : ExprNode).

Record Assignment := mkAssignment { Col : Column; Expr : Expression }.

End expression.
Import expression.

(** ** Session context *)

Module stmtctx.
Record TableEntry := mkTableEntry { DB : string; Table : string }.
Record StatementContext := mkStatementContext { Tables : list TableEntry }.
End stmtctx.
Import stmtctx.

(** Session variables read by the planner.  [IsAutocommit] and [InTxn]
    are the two status flags of the session. *)
Record SessionVars := mkSessionVars {
  CurrentDB : string;
  ActiveRoles : list string;
  IsAutocommit : bool;
  InTxn : bool;
  TxnCtxIsPessimistic : bool;
  StmtCtx : StatementContext
}.

(** One call of [Manager.RequestVerification]. *)
Record Verification := mkVerification {
  vRoles : list string;
  vDB : string;
  vTable : string;
  vColumn : string;
  vPriv : mysql.PrivilegeType
}.

(** The privilege manager bound to a session: the answer to a request. *)
Definition Manager := Verification -> bool.

(** The session context: the session variables, the privilege manager
    registered in it (if any), and the trace of verification requests the
    manager has received so far (most recent last). *)
Record Context := mkContext {
  GetSessionVars : SessionVars;
  GetPrivilegeManager : option Manager;
  requests : list Verification
}.

Definition setTables (ctx : Context) (ts : list TableEntry) : Context :=
  let sv := GetSessionVars ctx in
  mkContext
    (mkSessionVars (CurrentDB sv) (ActiveRoles sv) (IsAutocommit sv) (InTxn sv)
                   (TxnCtxIsPessimistic sv) (mkStatementContext ts))
    (GetPrivilegeManager ctx) (requests ctx).

Definition logRequest (ctx : Context) (v : Verification) : Context :=
  mkContext (GetSessionVars ctx) (GetPrivilegeManager ctx) (requests ctx ++ [v]).

(** ** Outcomes and the planner monad *)

Inductive outcome (A : Type) :=
| Returned (a : A) (ctx : Context)
| Panicked
| OutOfFuel.
Arguments Panicked {A}.
Arguments OutOfFuel {A}.

Definition M (A : Type) := Context -> outcome A.

Definition ret {A} (a : A) : M A := fun ctx => Returned a ctx.
Definition panic {A} : M A := fun _ => Panicked.
Definition bind {A B} (m : M A) (f : A -> M B) : M B :=
  fun ctx => match m ctx with
             | Returned a ctx' => f a ctx'
             | Panicked => Panicked
             | OutOfFuel => OutOfFuel
             end.
Definition getCtx : M Context := fun ctx => Returned ctx ctx.
Definition putCtx (c : Context) : M unit := fun _ => Returned tt c.

Notation "x <- m ;; k" := (bind m (fun x => k))
  (at level 61, m at next level, right associativity).
Notation "' pat <- m ;; k" := (bind m (fun x => match x with pat => k end))
  (at level 61, pat pattern, m at next level, right associativity).

(** ** Plans *)

Record StatsInfo := mkStatsInfo { RowCount : Z }.

(** [StatsInfo.Scale]: the row count multiplied by a factor. *)
Definition Scale (s : StatsInfo) (factor : Z) : StatsInfo :=
  mkStatsInfo (RowCount s * factor).

Record PhysicalProperty := mkPhysicalProperty { ExpectedCnt : Z }.

Record PointGetPlan := mkPointGetPlan {
  tp : string;
  stats : option StatsInfo;
  schema : Schema;
  pDBName : CIStr;
  TblInfo : TableInfo;
  IndexInfo_ : option IndexInfo;
  Handle : Z;
  HandleParam : option ParamMarker;
  IndexValues : list Datum;
  IndexValueParams : list (option ParamMarker);
  UnsignedHandle : bool;
  IsTableDual : bool;
  Lock : bool;
  IsForUpdate : bool
}.

Record TblColPosInfo := mkTblColPosInfo {
  TblID : Z; Start : Z; End_ : Z; HandleOrdinal : Z
}.

Record PhysicalUnionAll := mkPhysicalUnionAll {
  IsPointGetUnion : bool;
  uaStats : StatsInfo;
  uaChildReqProps : list PhysicalProperty;
  uaSchema : Schema;
  uaChildren : list PointGetPlan
}.

Record Update := mkUpdate {
  updSelectPlan : PointGetPlan;
  OrderedList : list expression.Assignment;
  updTblColPosInfos : list TblColPosInfo
}.

Record Delete := mkDelete {
  delSelectPlan : PointGetPlan;
  delTblColPosInfos : list TblColPosInfo
}.

(** The plans [TryFastPlan] can return.  A table-dual plan carries the
    schema set on it, if any. *)
Inductive Plan :=
| PlanPointGet (p : PointGetPlan)
| PlanTableDual (sch : option Schema)
| PlanUnionAll (ua : PhysicalUnionAll)
| PlanUpdate (u : Update)
| PlanDelete (d : Delete).

Record nameValuePair := mkNameValuePair {
  colName : string;
  value : Datum;
  param : option ParamMarker
}.

Definition zeroPair : nameValuePair := mkNameValuePair "" zeroDatum None.

(** ** Collaborators outside this file

    Functions of other packages that the planner calls: datum conversion
    and comparison (types), evaluation of a LIMIT clause (planner/core),
    and the expression builder used for UPDATE assignments (expression).
    They are functions of their arguments: the warnings that a conversion
    may leave in the statement context are not modelled.  The planner is
    verified for every behaviour of these. *)
Record Externals := mkExternals {
  ConvertTo : StatementContext -> Datum -> FieldType -> Datum * option error;
  CompareDatum : StatementContext -> Datum -> Datum -> Z * option error;
  extractLimitCountOffset : SessionVars -> Limit -> Z * Z * option error;
  FindColumn : Schema -> ColumnName -> option Column * option error;
  RewriteSimpleExprWithSchema :
    SessionVars -> ExprNode -> Schema -> Expression * option error;
  BuildCastFunction : SessionVars -> Expression -> FieldType -> Expression;
  ResolveIndices : Expression -> Schema -> Expression * option error
}.

(** ** The planner *)

Definition emptyCIStr : CIStr := mkCIStr "" "".

(** [getSingleTableNameAndAlias]: the queried table name and its alias;
    the name is [None] when the FROM clause is not a single table. *)
Definition getSingleTableNameAndAlias (tableRefs : option TableRefsClause)
  : option TableName * CIStr :=
  match tableRefs with
  | None => (None, emptyCIStr)
  | Some refs =>
    match TableRefs refs with
    | None => (None, emptyCIStr)
    | Some j =>
      match Right j with
      | Some _ => (None, emptyCIStr)
      | None =>
        match Left j with
        | Some (TableSource (TableNameNode tblName) asName) =>
          (Some tblName,
           if String.eqb (L asName) "" then tnName tblName else asName)
        | _ => (None, emptyCIStr)
        end
      end
    end
  end.

(** The value side of [column = value]: a literal, a parameter marker, or
    anything else, which leaves the zero datum. *)
Definition valueSide (e : ExprNode) : Datum * option ParamMarker :=
  match e with
  | ValueExpr d => (d, None)
  | ParamMarkerExpr x => (pmDatum x, Some x)
  | _ => (zeroDatum, None)
  end.

(** [getNameValuePairs] on a non-nil expression. *)
Fixpoint getNameValuePairsOf (nvPairs : list nameValuePair) (tblName : CIStr)
  (expr : ExprNode) : option (list nameValuePair) :=
  match expr with
  | BinaryOperationExpr opcode.LogicAnd l r =>
    match getNameValuePairsOf nvPairs tblName l with
    | None => None
    | Some nvPairs1 => getNameValuePairsOf nvPairs1 tblName r
    end
  | BinaryOperationExpr opcode.EQ l r =>
    let side :=
      match l with
      | ColumnNameExpr cn => Some (cn, valueSide r)
      | _ => match r with
             | ColumnNameExpr cn => Some (cn, valueSide l)
             | _ => None
             end
      end in
    match side with
    | None => None
    | Some (cn, (d, prm)) =>
      if IsNull d then None
      else if negb (String.eqb (L (cnTable cn)) "")
              && negb (String.eqb (L (cnTable cn)) (L tblName)) then None
      else Some (nvPairs ++ [mkNameValuePair (L (cnName cn)) d prm])
    end
  | _ => None
  end.

(** [getNameValuePairs]: the [column = constant/paramMarker] conditions of
    [expr]; [None] is the nil slice. *)
Definition getNameValuePairs (nvPairs : list nameValuePair) (tblName : CIStr)
  (expr : option ExprNode) : option (list nameValuePair) :=
  match expr with
  | None => None
  | Some e => getNameValuePairsOf nvPairs tblName e
  end.

Fixpoint findInPairsFrom (n : Z) (name : string) (pairs : list nameValuePair) : Z :=
  match pairs with
  | [] => -1
  | nv :: rest =>
    if String.eqb (colName nv) name then n
    else findInPairsFrom (n + 1) name rest
  end.

Definition findInPairs (name : string) (pairs : list nameValuePair) : Z :=
  findInPairsFrom 0 name pairs.

(** [pairs[i]] for an index returned by [findInPairs]. *)
Definition pairAt (pairs : list nameValuePair) (n : Z) : nameValuePair :=
  nth (Z.to_nat n) pairs zeroPair.

Fixpoint findPKHandleIn (cols : list ColumnInfo) (pairs : list nameValuePair)
  : nameValuePair * option FieldType :=
  match cols with
  | [] => (zeroPair, None)
  | col :: rest =>
    if mysql.HasPriKeyFlag (Flag (colFieldType col)) then
      let n := findInPairs (L (colName_ col)) pairs in
      if n =? -1 then (zeroPair, None)
      else (pairAt pairs n, Some (colFieldType col))
    else findPKHandleIn rest pairs
  end.

Definition findPKHandle (tblInfo : TableInfo) (pairs : list nameValuePair)
  : nameValuePair * option FieldType :=
  if negb (PKIsHandle tblInfo) then (zeroPair, None)
  else findPKHandleIn (Columns tblInfo) pairs.

Fixpoint getIndexValuesLoop (cols : list IndexColumn) (pairs : list nameValuePair)
  (idxValues : list Datum) (idxValueParams : list (option ParamMarker))
  : option (list Datum * list (option ParamMarker)) :=
  match cols with
  | [] => Some (idxValues, idxValueParams)
  | idxCol :: rest =>
    let n := findInPairs (L (idxColName idxCol)) pairs in
    if n =? -1 then None
    else getIndexValuesLoop rest pairs
           (idxValues ++ [value (pairAt pairs n)])
           (idxValueParams ++ [param (pairAt pairs n)])
  end.

Definition getIndexValues (idxInfo : IndexInfo) (pairs : list nameValuePair)
  : option (list Datum * list (option ParamMarker)) :=
  if negb (Nat.eqb (length (idxColumns idxInfo)) (length pairs)) then None
  else if HasPrefixIndex idxInfo then None
  else match getIndexValuesLoop (idxColumns idxInfo) pairs [] [] with
       | None => None
       | Some (idxValues, idxValueParams) =>
         if Nat.ltb 0 (length idxValues) then Some (idxValues, idxValueParams)
         else None
       end.

Definition findCol (tbl : TableInfo) (cn : ColumnName) : option ColumnInfo :=
  find (fun col => String.eqb (L (colName_ col)) (L (cnName cn))) (Columns tbl).

Definition colInfoToColumn (db origTblName tblName asName : CIStr)
  (col : ColumnInfo) (idx : Z) : Column :=
  mkColumn asName origTblName db tblName (colFieldType col) (colID col)
           (colOffset col) idx.

(** The loop that appends every column of the table to [columns]. *)
Definition appendTableColumns (dbName : CIStr) (tbl : TableInfo) (tblName : CIStr)
  (columns : list Column) : list Column :=
  fold_left
    (fun cols col =>
       cols ++ [colInfoToColumn dbName (tblName_ tbl) tblName (colName_ col) col
                                (Z.of_nat (length cols))])
    (Columns tbl) columns.

Fixpoint buildSchemaFields (dbName : CIStr) (tbl : TableInfo) (tblName : CIStr)
  (fields : list SelectField) (columns : list Column) : option Schema :=
  match fields with
  | [] => Some columns
  | field :: rest =>
    match WildCard field with
    | Some wc =>
      if negb (String.eqb (L (wcTable wc)) "")
         && negb (String.eqb (L (wcTable wc)) (L tblName)) then None
      else buildSchemaFields dbName tbl tblName rest
             (appendTableColumns dbName tbl tblName columns)
    | None =>
      match fieldExpr field with
      | Some (ColumnNameExpr cn) =>
        if negb (String.eqb (L (cnTable cn)) "")
           && negb (String.eqb (L (cnTable cn)) (L tblName)) then None
        else match findCol tbl cn with
             | None => None
             | Some col =>
               let asName :=
                 if negb (String.eqb (L (AsName field)) "") then AsName field
                 else colName_ col in
               buildSchemaFields dbName tbl tblName rest
                 (columns ++ [colInfoToColumn dbName (tblName_ tbl) tblName asName col
                                              (Z.of_nat (length columns))])
             end
      | _ => None
      end
    end
  end.

Definition buildSchemaFromFields (sv : SessionVars) (dbName : CIStr)
  (tbl : TableInfo) (tblName : CIStr) (fields : list SelectField) : option Schema :=
  let dbName := if String.eqb (L dbName) "" then NewCIStr (CurrentDB sv) else dbName in
  match fields with
  | [] => Some (appendTableColumns dbName tbl tblName [])
  | _ => buildSchemaFields dbName tbl tblName fields []
  end.

(** *** Field updates of a [PointGetPlan] *)

Definition withTableDual (p : PointGetPlan) : PointGetPlan :=
  mkPointGetPlan (tp p) (stats p) (schema p) (pDBName p) (TblInfo p) (IndexInfo_ p)
    (Handle p) (HandleParam p) (IndexValues p) (IndexValueParams p)
    (UnsignedHandle p) true (Lock p) (IsForUpdate p).

Definition withHandle (p : PointGetPlan) (h : Z) (unsigned : bool)
  (prm : option ParamMarker) : PointGetPlan :=
  mkPointGetPlan (tp p) (stats p) (schema p) (pDBName p) (TblInfo p) (IndexInfo_ p)
    h prm (IndexValues p) (IndexValueParams p)
    unsigned (IsTableDual p) (Lock p) (IsForUpdate p).

Definition withIndex (p : PointGetPlan) (idxInfo : IndexInfo)
  (idxValues : list Datum) (idxValueParams : list (option ParamMarker)) : PointGetPlan :=
  mkPointGetPlan (tp p) (stats p) (schema p) (pDBName p) (TblInfo p) (Some idxInfo)
    (Handle p) (HandleParam p) idxValues idxValueParams
    (UnsignedHandle p) (IsTableDual p) (Lock p) (IsForUpdate p).

Definition withLock (p : PointGetPlan) (lock forUpdate : bool) : PointGetPlan :=
  mkPointGetPlan (tp p) (stats p) (schema p) (pDBName p) (TblInfo p) (IndexInfo_ p)
    (Handle p) (HandleParam p) (IndexValues p) (IndexValueParams p)
    (UnsignedHandle p) (IsTableDual p) lock forUpdate.

Definition withSchema (p : PointGetPlan) (sch : Schema) : PointGetPlan :=
  mkPointGetPlan (tp p) (stats p) sch (pDBName p) (TblInfo p) (IndexInfo_ p)
    (Handle p) (HandleParam p) (IndexValues p) (IndexValueParams p)
    (UnsignedHandle p) (IsTableDual p) (Lock p) (IsForUpdate p).

Definition withStats (p : PointGetPlan) (st : StatsInfo) : PointGetPlan :=
  mkPointGetPlan (tp p) (Some st) (schema p) (pDBName p) (TblInfo p) (IndexInfo_ p)
    (Handle p) (HandleParam p) (IndexValues p) (IndexValueParams p)
    (UnsignedHandle p) (IsTableDual p) (Lock p) (IsForUpdate p).

(** [PointGetPlan.statsInfo]: the row count of the plan is fixed to 1; the
    plan with its statistics filled in is returned with them. *)
Definition statsInfo (p : PointGetPlan) : StatsInfo * PointGetPlan :=
  (mkStatsInfo 1, withStats p (mkStatsInfo 1)).

Definition isSome {A} (o : option A) : bool :=
  match o with Some _ => true | None => false end.

(** [newPointGetPlan] allocates the plan and records the table in the
    statement context of the session. *)
Definition newPointGetPlan (sch : Schema) (dbName : CIStr) (tbl : TableInfo)
  : M PointGetPlan :=
  fun ctx =>
    Returned
      (mkPointGetPlan "Point_Get" None sch dbName tbl None 0 None [] []
                      false false false false)
      (setTables ctx
         [mkTableEntry (CurrentDB (GetSessionVars ctx)) (L (tblName_ tbl))]).

Fixpoint requestVerifications (pm : Manager) (table : string)
  (checkTypes : list mysql.PrivilegeType) : M (option error) :=
  match checkTypes with
  | [] => ret None
  | checkType :: rest =>
    fun ctx =>
      let sv := GetSessionVars ctx in
      let v := mkVerification (ActiveRoles sv) (CurrentDB sv) table "" checkType in
      if pm v then requestVerifications pm table rest (logRequest ctx v)
      else Returned (Some (ErrOther "privilege check fail")) (logRequest ctx v)
  end.

Definition checkFastPlanPrivilege (fastPlan : PointGetPlan)
  (checkTypes : list mysql.PrivilegeType) : M (option error) :=
  fun ctx =>
    match GetPrivilegeManager ctx with
    | None => Returned None ctx
    | Some pm => requestVerifications pm (L (tblName_ (TblInfo fastPlan))) checkTypes ctx
    end.

Fixpoint findHandleColLoop (cols : list ColumnInfo) (n : nat) (sch : Schema)
  (handleCol : option Column) : option (option Column) :=
  match cols with
  | [] => Some handleCol
  | col :: rest =>
    if mysql.HasPriKeyFlag (Flag (colFieldType col)) then
      match nth_error sch n with
      | None => None
      | Some c => findHandleColLoop rest (S n) sch (Some c)
      end
    else findHandleColLoop rest (S n) sch handleCol
  end.

Definition ExtraHandleID : Z := -1.
Definition ExtraHandleName : CIStr := NewCIStr "_tidb_rowid".
Definition TypeLonglong : Z := 8.

(** [model.NewExtraHandleColInfo]: the hidden row-identity column. *)
Definition NewExtraHandleColInfo : ColumnInfo :=
  mkColumnInfo ExtraHandleID ExtraHandleName 0
               (mkFieldType TypeLonglong mysql.PriKeyFlag) StateNone "".

(** [PointGetPlan.findHandleCol]: the handle column of the plan's schema
    and the plan, whose schema gains the hidden handle column when the
    table has no primary-key handle.  [None] inside the loop result is an
    index out of range. *)
Definition findHandleCol (p : PointGetPlan) : M (Column * PointGetPlan) :=
  let tbl := TblInfo p in
  let found :=
    if PKIsHandle tbl then findHandleColLoop (Columns tbl) 0 (schema p) None
    else Some None in
  match found with
  | None => panic
  | Some (Some handleCol) => ret (handleCol, p)
  | Some None =>
    match schema p with
    | [] => panic
    | oneCol :: _ =>
      let handleCol :=
        colInfoToColumn (DBName oneCol) (OrigTblName oneCol) (TblName oneCol)
                        ExtraHandleName NewExtraHandleColInfo (Len (schema p)) in
      ret (handleCol, withSchema p (schema p ++ [handleCol]))
    end
  end.

Section Planner.

Variable X : Externals.

(** The LIMIT test of [tryPointGetPlan]: the count must be at least 1
    and the offset 0. *)
Definition limitRejects (sv : SessionVars) (limit : option Limit) : bool :=
  match limit with
  | None => false
  | Some lim =>
    let '(count, offset, err) := extractLimitCountOffset X sv lim in
    isSome err || (count =? 0) || (0 <? offset)
  end.

(** A column bars the table: generated, or not public. *)
Definition columnBars (col : ColumnInfo) : bool :=
  IsGenerated col || negb (isPublic (colState col)).

(** Lines 328-350 of [tryPointGetPlan]: the plan for a primary-key
    handle [handlePair] of declared type [fieldType]. *)
Definition handlePlan (sch : Schema) (dbName : CIStr) (tbl : TableInfo)
  (handlePair : nameValuePair) (fieldType : FieldType) : M (option PointGetPlan) :=
  p <- newPointGetPlan sch dbName tbl ;;
  ctx <- getCtx ;;
  let sc := StmtCtx (GetSessionVars ctx) in
  let '(intDatum, err) := ConvertTo X sc (value handlePair) fieldType in
  let afterConvert :=
    match err with
    | None => None
    | Some e =>
      if isErrOverflow e then Some (Some (withTableDual p))
      else if negb (isErrTruncatedWrongVal e) then Some None
      else None
    end in
  match afterConvert with
  | Some r => ret r
  | None =>
    let '(cmp, err) := CompareDatum X sc intDatum (value handlePair) in
    match err with
    | Some _ => ret None
    | None =>
      if negb (cmp =? 0) then ret (Some (withTableDual p))
      else ret (Some (withHandle p (GetInt64 intDatum)
                                 (mysql.HasUnsignedFlag (Flag fieldType))
                                 (param handlePair)))
    end
  end.

(** Lines 353-373 of [tryPointGetPlan]: the unique public indices in
    table order; the first whose columns the pairs cover is taken. *)
Fixpoint indexPlan (indices : list IndexInfo) (pairs : list nameValuePair)
  (tblName : TableName) (tbl : TableInfo) (tblAlias dbName : CIStr)
  (fields : list SelectField) : M (option PointGetPlan) :=
  match indices with
  | [] => ret None
  | idxInfo :: rest =>
    if negb (Unique idxInfo) then
      indexPlan rest pairs tblName tbl tblAlias dbName fields
    else if negb (isPublic (idxState idxInfo)) then
      indexPlan rest pairs tblName tbl tblAlias dbName fields
    else
      match getIndexValues idxInfo pairs with
      | None => indexPlan rest pairs tblName tbl tblAlias dbName fields
      | Some (idxValues, idxValueParams) =>
        ctx <- getCtx ;;
        match buildSchemaFromFields (GetSessionVars ctx) (tnSchema tblName)
                                    tbl tblAlias fields with
        | None => ret None
        | Some sch =>
          p <- newPointGetPlan sch dbName tbl ;;
          ret (Some (withIndex p idxInfo idxValues idxValueParams))
        end
      end
  end.

(** [tryPointGetPlan]: the point-get plan of a SELECT, or [None]. *)
Definition tryPointGetPlan (selStmt : SelectStmt) : M (option PointGetPlan) :=
  ctx <- getCtx ;;
  let sv := GetSessionVars ctx in
  if isSome (Having selStmt) then ret None
  else if limitRejects sv (stmtLimit selStmt) then ret None
  else
    let '(tblNameOpt, tblAlias) := getSingleTableNameAndAlias (From selStmt) in
    match tblNameOpt with
    | None => ret None
    | Some tblName =>
      match tnTableInfo tblName with
      | None => ret None
      | Some tbl =>
        let dbName :=
          if String.eqb (L (tnSchema tblName)) "" then NewCIStr (CurrentDB sv)
          else tnSchema tblName in
        if isSome (GetPartitionInfo tbl) then ret None
        else if existsb columnBars (Columns tbl) then ret None
        else
          match getNameValuePairs [] tblAlias (Where selStmt) with
          | None => ret None
          | Some pairs =>
            let '(handlePair, fieldType) := findPKHandle tbl pairs in
            if negb (kindIsNull (k (value handlePair)))
               && Nat.eqb (length pairs) 1 then
              match buildSchemaFromFields sv (tnSchema tblName) tbl tblAlias
                                          (Fields selStmt) with
              | None => ret None
              | Some sch =>
                match fieldType with
                | None => panic
                | Some ft => handlePlan sch dbName tbl handlePair ft
                end
              end
            else
              indexPlan (Indices tbl) pairs tblName tbl tblAlias dbName
                        (Fields selStmt)
          end
      end
    end.

Fixpoint buildOrderedList (sv : SessionVars) (fastSelect : PointGetPlan)
  (assigns : list ast.Assignment) (orderedList : list expression.Assignment)
  : option (list expression.Assignment) :=
  match assigns with
  | [] => Some orderedList
  | assign :: rest =>
    match FindColumn X (schema fastSelect) (asgColumn assign) with
    | (_, Some _) => None
    | (None, None) => None
    | (Some col, None) =>
      match RewriteSimpleExprWithSchema X sv (asgExpr assign) (schema fastSelect) with
      | (_, Some _) => None
      | (expr, None) =>
        let expr := BuildCastFunction X sv expr (RetType col) in
        match ResolveIndices X expr (schema fastSelect) with
        | (_, Some _) => None
        | (resolved, None) =>
          buildOrderedList sv fastSelect rest
            (orderedList ++ [expression.mkAssignment col resolved])
        end
      end
    end
  end.

Definition selectOfMutation (tableRefs : option TableRefsClause)
  (where_ : option ExprNode) (order : option (list ExprNode))
  (limit : option Limit) : SelectStmt :=
  mkSelectStmt None false tableRefs where_ [] None None [] order limit
               SelectLockNone.

Definition tryUpdatePointPlan (updateStmt : UpdateStmt) : M (option Plan) :=
  let selStmt := selectOfMutation (updTableRefs updateStmt) (updWhere updateStmt)
                                  (updOrder updateStmt) (updLimit updateStmt) in
  fastSelectOpt <- tryPointGetPlan selStmt ;;
  match fastSelectOpt with
  | None => ret None
  | Some fastSelect =>
    err <- checkFastPlanPrivilege fastSelect [mysql.SelectPriv; mysql.UpdatePriv] ;;
    if isSome err then ret None
    else if IsTableDual fastSelect then ret (Some (PlanTableDual None))
    else
      ctx <- getCtx ;;
      let fastSelect :=
        if TxnCtxIsPessimistic (GetSessionVars ctx)
        then withLock fastSelect true (IsForUpdate fastSelect)
        else fastSelect in
      match buildOrderedList (GetSessionVars ctx) fastSelect (updList updateStmt) [] with
      | None => ret None
      | Some orderedList =>
        '(handleCol, fastSelect) <- findHandleCol fastSelect ;;
        ret (Some (PlanUpdate
               (mkUpdate fastSelect orderedList
                  [mkTblColPosInfo (tblID (TblInfo fastSelect)) 0
                                   (Len (schema fastSelect)) (Index handleCol)])))
      end
  end.

Definition tryDeletePointPlan (delStmt : DeleteStmt) : M (option Plan) :=
  if IsMultiTable delStmt then ret None
  else
    let selStmt := selectOfMutation (delTableRefs delStmt) (delWhere delStmt)
                                    (delOrder delStmt) (delLimit delStmt) in
    fastSelectOpt <- tryPointGetPlan selStmt ;;
    match fastSelectOpt with
    | None => ret None
    | Some fastSelect =>
      err <- checkFastPlanPrivilege fastSelect [mysql.SelectPriv; mysql.DeletePriv] ;;
      if isSome err then ret None
      else if IsTableDual fastSelect then ret (Some (PlanTableDual None))
      else
        ctx <- getCtx ;;
        let fastSelect :=
          if TxnCtxIsPessimistic (GetSessionVars ctx)
          then withLock fastSelect true (IsForUpdate fastSelect)
          else fastSelect in
        '(handleCol, fastSelect) <- findHandleCol fastSelect ;;
        ret (Some (PlanDelete
               (mkDelete fastSelect
                  [mkTblColPosInfo (tblID (TblInfo fastSelect)) 0
                                   (Len (schema fastSelect)) (Index handleCol)])))
    end.

(** The statement reused for every candidate of an IN list: options,
    DISTINCT, FROM and the field list of the original, the candidate's
    WHERE clause, and nothing else. *)
Definition reusedStmt (selStmt : SelectStmt) (where_ : ExprNode) : SelectStmt :=
  mkSelectStmt (SelectStmtOpts selStmt) (Distinct selStmt) (From selStmt)
               (Some where_) (Fields selStmt) None None [] None None
               SelectLockNone.

Definition equality (l r : ExprNode) : ExprNode :=
  BinaryOperationExpr opcode.EQ l r.

(** The conjunction of per-position equalities of two row tuples (lines
    234-250); the tuples are not empty and have the same length. *)
Definition rowEqualities (leftValues rightValues : list ExprNode) : option ExprNode :=
  match leftValues, rightValues with
  | l0 :: ls, r0 :: rs =>
    Some (fold_left
            (fun where_ lr =>
               BinaryOperationExpr opcode.LogicAnd where_
                                   (equality (fst lr) (snd lr)))
            (combine ls rs) (equality l0 r0))
  | _, _ => None
  end.

(** The WHERE clause of one candidate when the left side is a column. *)
Definition columnCandidate (left_ : ExprNode) (row : ExprNode) : option ExprNode :=
  Some (equality left_ row).

(** The WHERE clause of one candidate when the left side is a row
    tuple; [None] when the candidate is not a row of the same arity. *)
Definition rowCandidate (leftValues : list ExprNode) (row : ExprNode)
  : option ExprNode :=
  match row with
  | RowExpr rightValues =>
    if negb (Nat.eqb (length rightValues) (length leftValues)) then None
    else rowEqualities leftValues rightValues
  | _ => None
  end.

(** The body shared by the two loops over the IN list (lines 208-221 and
    229-258): the candidate is rewritten, planned by [tryFast], and the
    plan asserted to be a [*PointGetPlan].  The assertion panics on any
    other plan. *)
Fixpoint batchChildren (tryFast : Node -> M (option Plan))
  (candidate : ExprNode -> option ExprNode) (selStmt : SelectStmt)
  (rows : list ExprNode) (chReqProps : list PhysicalProperty)
  (children : list PointGetPlan)
  : M (option (list PhysicalProperty * list PointGetPlan)) :=
  match rows with
  | [] => ret (Some (chReqProps, children))
  | row :: rest =>
    match candidate row with
    | None => ret None
    | Some where_ =>
      fpOpt <- tryFast (NSelect (reusedStmt selStmt where_)) ;;
      match fpOpt with
      | None => ret None
      | Some (PlanPointGet fp) =>
        batchChildren tryFast candidate selStmt rest
                      (chReqProps ++ [mkPhysicalProperty 1]) (children ++ [fp])
      | Some _ => panic
      end
    end
  end.

(** [tryWhereIn2BatchPointGet]; [tryFast] is the recursive call of
    [TryFastPlan]. *)
Definition tryWhereIn2BatchPointGet (tryFast : Node -> M (option Plan))
  (selStmt : SelectStmt) : M (option Plan) :=
  if isSome (OrderBy selStmt) || isSome (GroupBy selStmt)
     || isSome (stmtLimit selStmt) || isSome (Having selStmt)
     || Nat.ltb 0 (length (WindowSpecs selStmt))
     || negb (isLockNone (LockTp selStmt)) then ret None
  else
    match Where selStmt with
    | Some (PatternInExpr inExpr inList inNot) =>
      if inNot || Nat.ltb (length inList) 1 then ret None
      else
        let candidate :=
          match inExpr with
          | ColumnNameExpr _ => Some (columnCandidate inExpr)
          | RowExpr leftValues =>
            if Nat.ltb (length leftValues) 1 then None
            else Some (rowCandidate leftValues)
          | _ => None
          end in
        match candidate with
        | None => ret None
        | Some cand =>
          built <- batchChildren tryFast cand selStmt inList [] [] ;;
          match built with
          | None => ret None
          | Some (chReqProps, children) =>
            match children with
            | [] => panic
            | child0 :: others =>
              let '(st, child0) := statsInfo child0 in
              ret (Some (PlanUnionAll
                     (mkPhysicalUnionAll true
                        (Scale st (Z.of_nat (length children)))
                        chReqProps (schema child0) (child0 :: others))))
            end
          end
        end
    | _ => ret None
    end.

(** The SELECT case of [TryFastPlan]. *)
Definition trySelect (tryFast : Node -> M (option Plan)) (x : SelectStmt)
  : M (option Plan) :=
  batch <- tryWhereIn2BatchPointGet tryFast x ;;
  match batch with
  | Some fp => ret (Some fp)
  | None =>
    fpOpt <- tryPointGetPlan x ;;
    match fpOpt with
    | None => ret None
    | Some fp =>
      err <- checkFastPlanPrivilege fp [mysql.SelectPriv] ;;
      if isSome err then ret None
      else if IsTableDual fp then ret (Some (PlanTableDual (Some (schema fp))))
      else if isLockForUpdate (LockTp x) then
        ctx <- getCtx ;;
        let sessVars := GetSessionVars ctx in
        if negb (IsAutocommit sessVars) || InTxn sessVars
        then ret (Some (PlanPointGet (withLock fp true true)))
        else ret (Some (PlanPointGet fp))
      else ret (Some (PlanPointGet fp))
    end
  end.

(** [TryFastPlan]: the fast plan of a statement, or [None].  The
    recursion through [tryWhereIn2BatchPointGet] is bounded by [fuel]. *)
Fixpoint TryFastPlan (fuel : nat) (node : Node) : M (option Plan) :=
  match fuel with
  | 0%nat => fun _ => OutOfFuel
  | S fuel' =>
    match node with
    | NSelect x => trySelect (TryFastPlan fuel') x
    | NUpdate x => tryUpdatePointPlan x
    | NDelete x => tryDeletePointPlan x
    | NOther => ret None
    end
  end.

End Planner.

(** ** Sample schema objects, statements and collaborators *)

Module Sample.

Definition cis (s : string) : CIStr := NewCIStr s.

Definition maxInt64 : Z := 9223372036854775807.
Definition minInt64 : Z := -9223372036854775808.

Definition column (id : Z) (name : string) (offset flag : Z) : ColumnInfo :=
  mkColumnInfo id (cis name) offset (mkFieldType TypeLonglong flag) StatePublic "".

Definition indexOn (id : Z) (name : string) (cols : list (string * Z)) : IndexInfo :=
  mkIndexInfo id (cis name)
    (map (fun c => mkIndexColumn (cis (fst c)) (snd c) UnspecifiedLength) cols)
    true StatePublic.

(** [create table t1 (id bigint primary key, c2 bigint, c3 bigint)] *)
Definition t1 : TableInfo :=
  mkTableInfo 41 (cis "t1")
    [column 1 "id" 0 mysql.PriKeyFlag; column 2 "c2" 1 0; column 3 "c3" 2 0]
    [] true None.

(** [create table tu (a bigint, b bigint, c bigint,
     unique key ab (a, b), unique key ba (b, a), unique key uc (c))] *)
Definition ab : IndexInfo := indexOn 1 "ab" [("a", 0); ("b", 1)].
Definition ba : IndexInfo := indexOn 2 "ba" [("b", 1); ("a", 0)].
Definition uc : IndexInfo := indexOn 3 "uc" [("c", 2)].

Definition tu : TableInfo :=
  mkTableInfo 42 (cis "tu")
    [column 1 "a" 0 0; column 2 "b" 1 0; column 3 "c" 2 0]
    [ab; ba; uc] false None.

(** [tu] partitioned, and [tu] with a generated column. *)
Definition tuPartitioned : TableInfo :=
  mkTableInfo 43 (cis "tu") (Columns tu) (Indices tu) false
              (Some (mkPartitionInfo 1 4)).

Definition from_ (tbl : TableInfo) : option TableRefsClause :=
  Some (mkTableRefsClause
          (Some (mkJoin
                   (Some (TableSource
                            (TableNameNode (mkTableName emptyCIStr (tblName_ tbl) (Some tbl)))
                            emptyCIStr))
                   None))).

Definition star : SelectField :=
  mkSelectField (Some (mkWildCardField emptyCIStr emptyCIStr)) None emptyCIStr.

Definition col (name : string) : ExprNode :=
  ColumnNameExpr (mkColumnName emptyCIStr emptyCIStr (cis name)).

Definition int (z : Z) : ExprNode := ValueExpr (mkDatum KindInt64 z "").
Definition uint (z : Z) : ExprNode := ValueExpr (mkDatum KindUint64 z "").
Definition null : ExprNode := ValueExpr zeroDatum.

Definition eq_ (l r : ExprNode) : ExprNode := BinaryOperationExpr opcode.EQ l r.
Definition and_ (l r : ExprNode) : ExprNode := BinaryOperationExpr opcode.LogicAnd l r.

(** [select * from tbl where w] with lock type [lock]. *)
Definition selectStar (tbl : TableInfo) (w : ExprNode) (lock : SelectLockType)
  : SelectStmt :=
  mkSelectStmt None false (from_ tbl) (Some w) [star] None None [] None None lock.

(** [update tbl set c = 7 where w] and [delete from tbl where w]. *)
Definition updateWhere (tbl : TableInfo) (c : string) (w : ExprNode) : UpdateStmt :=
  mkUpdateStmt (from_ tbl)
               [ast.mkAssignment (mkColumnName emptyCIStr emptyCIStr (cis c)) (int 7)]
               (Some w) None None.

Definition deleteWhere (tbl : TableInfo) (w : ExprNode) : DeleteStmt :=
  mkDeleteStmt (from_ tbl) (Some w) None None false.

(** A session in database [test]: autocommit on, no open transaction,
    optimistic, with a privilege manager that approves every request. *)
Definition vars (autocommit inTxn pessimistic : bool) : SessionVars :=
  mkSessionVars "test" ["app"] autocommit inTxn pessimistic (mkStatementContext []).

Definition approveAll : Manager := fun _ => true.
Definition denyAll : Manager := fun _ => false.

Definition session : Context := mkContext (vars true false false) (Some approveAll) [].
Definition sessionInTxn : Context := mkContext (vars true true false) (Some approveAll) [].
Definition sessionPessimistic : Context :=
  mkContext (vars true true true) (Some approveAll) [].
Definition sessionDenied : Context := mkContext (vars true false false) (Some denyAll) [].

(** Integer conversion of the sample collaborators: an integer datum is
    kept when it lies in the range of the target type (signed or
    unsigned 64 bits) and overflows otherwise; a string converts to 0
    with a truncation error; a datum of any other kind is refused with
    an error that is neither overflow nor truncation. *)
Definition convertTo (sc : StatementContext) (d : Datum) (target : FieldType)
  : Datum * option error :=
  let unsigned := mysql.HasUnsignedFlag (Flag target) in
  match k d with
  | KindInt64 | KindUint64 =>
    if unsigned then
      if (i d <? 0) || (2 * maxInt64 + 1 <? i d) then (zeroDatum, Some ErrOverflow)
      else (mkDatum KindUint64 (i d) "", None)
    else
      if (i d <? minInt64) || (maxInt64 <? i d) then (zeroDatum, Some ErrOverflow)
      else (mkDatum KindInt64 (i d) "", None)
  | KindString => (mkDatum KindInt64 0 "", Some ErrTruncatedWrongVal)
  | _ => (zeroDatum, Some (ErrOther "cannot convert datum"))
  end.

(** Comparison of the sample collaborators: by integer payload. *)
Definition compareDatum (sc : StatementContext) (x y : Datum) : Z * option error :=
  (match Z.compare (i x) (i y) with Lt => -1 | Eq => 0 | Gt => 1 end, None).

Definition limitCountOffset (sv : SessionVars) (lim : Limit) : Z * Z * option error :=
  let num (e : option ExprNode) :=
    match e with
    | Some (ValueExpr d) => i d
    | _ => 0
    end in
  (num (Count lim), num (Offset lim), None).

Definition findColumn (sch : Schema) (cn : ColumnName) : option Column * option error :=
  (find (fun c => String.eqb (L (ColName c)) (L (cnName cn))) sch, None).

Definition collaborators : Externals :=
  mkExternals convertTo compareDatum limitCountOffset findColumn
    (fun _ e _ => (Rewritten e, None))
    (fun _ e t => CastFunction e t)
    (fun e _ => (e, None)).

(** [select * from t1 where id = 5] with lock type [lock]. *)
Definition selectById (lock : SelectLockType) : SelectStmt :=
  selectStar t1 (eq_ (col "id") (int 5)) lock.

(** 2^63, which no signed 64-bit key holds. *)
Definition tooBig : ExprNode := uint 9223372036854775808.

(** [select * from t1 where id in (9223372036854775808)] *)
Definition selectInOverflow : SelectStmt :=
  selectStar t1 (PatternInExpr (col "id") [tooBig] false) SelectLockNone.

(** [select * from t1 where id in (3, NULL)] *)
Definition selectInWithNull : SelectStmt :=
  selectStar t1 (PatternInExpr (col "id") [int 3; null] false) SelectLockNone.

(** [select * from tu where c in (1, 1)] *)
Definition selectInTwice : SelectStmt :=
  selectStar tu (PatternInExpr (col "c") [int 1; int 1] false) SelectLockNone.

(** [select * from tuPartitioned where c = 1] *)
Definition selectPartitioned : SelectStmt :=
  selectStar tuPartitioned (eq_ (col "c") (int 1)) SelectLockNone.

(** [update t1 set c3 = 7 where id = 5] and [delete from t1 where id = 5] *)
Definition updateById : UpdateStmt := updateWhere t1 "c3" (eq_ (col "id") (int 5)).
Definition deleteById : DeleteStmt := deleteWhere t1 (eq_ (col "id") (int 5)).

(** [update t1 set c3 = 7 where id = 9223372036854775808] and
    [update t1 set nosuch = 7 where id = 5] *)
Definition updateByTooBig : UpdateStmt := updateWhere t1 "c3" (eq_ (col "id") tooBig).
Definition updateNoSuchColumn : UpdateStmt :=
  updateWhere t1 "nosuch" (eq_ (col "id") (int 5)).

(** [update tu set a = 7 where c = 5] and [delete from tu where c = 5] *)
Definition updateByC : UpdateStmt := updateWhere tu "a" (eq_ (col "c") (int 5)).
Definition deleteByC : DeleteStmt := deleteWhere tu (eq_ (col "c") (int 5)).

(** [select * from t1 where id = v] for a value [v] that the datum holds
    as an uninterpreted interface value. *)
Definition opaque_ : ExprNode := ValueExpr (mkDatum KindInterface 0 "").
Definition selectByOpaque : SelectStmt :=
  selectStar t1 (eq_ (col "id") opaque_) SelectLockNone.

(** [select * from t1 where id = 'x'] *)
Definition selectByString : SelectStmt :=
  selectStar t1 (eq_ (col "id") (ValueExpr (mkDatum KindString 0 "x"))) SelectLockNone.

(** [select * from t1 where id = 9223372036854775808] *)
Definition selectByTooBig : SelectStmt :=
  selectStar t1 (eq_ (col "id") tooBig) SelectLockNone.

(** [select * from tu where a = 6 and b = 5] and the same statement with
    the conjuncts swapped. *)
Definition whereAB : ExprNode := and_ (eq_ (col "a") (int 6)) (eq_ (col "b") (int 5)).
Definition whereBA : ExprNode := and_ (eq_ (col "b") (int 5)) (eq_ (col "a") (int 6)).
Definition selectAB : SelectStmt := selectStar tu whereAB SelectLockNone.
Definition selectBA : SelectStmt := selectStar tu whereBA SelectLockNone.


End Sample.

(** ** Specification vocabulary *)

Definition sv (ctx : Context) : SessionVars := GetSessionVars ctx.

(** The database a point-get plan is built for: the schema written in the
    statement, or the current database. *)
Definition targetDB (s : SessionVars) (tblName : TableName) : CIStr :=
  if String.eqb (L (tnSchema tblName)) "" then NewCIStr (CurrentDB s)
  else tnSchema tblName.

(** The tests of [tryPointGetPlan] that precede the choice of an access
    path (lines 280-321): the table, its alias, its metadata and the
    extracted pairs when they all pass. *)
Definition preamble (X : Externals) (s : SessionVars) (selStmt : SelectStmt)
  : option (TableName * CIStr * TableInfo * list nameValuePair) :=
  if isSome (Having selStmt) then None
  else if limitRejects X s (stmtLimit selStmt) then None
  else
    match getSingleTableNameAndAlias (From selStmt) with
    | (Some tblName, tblAlias) =>
      match tnTableInfo tblName with
      | Some tbl =>
        if isSome (GetPartitionInfo tbl) then None
        else if existsb columnBars (Columns tbl) then None
        else match getNameValuePairs [] tblAlias (Where selStmt) with
             | Some pairs => Some (tblName, tblAlias, tbl, pairs)
             | None => None
             end
      | None => None
      end
    | (None, _) => None
    end.

(** The primary-key handle path is taken: the handle pair is not null and
    it is the only pair. *)
Definition takesHandlePath (tbl : TableInfo) (pairs : list nameValuePair) : bool :=
  negb (kindIsNull (k (value (fst (findPKHandle tbl pairs)))))
  && Nat.eqb (length pairs) 1.

(** Lines 322-374 of [tryPointGetPlan]: the access path for the pairs. *)
Definition accessPath (X : Externals) (selStmt : SelectStmt) (tblName : TableName)
  (tblAlias : CIStr) (tbl : TableInfo) (pairs : list nameValuePair)
  : M (option PointGetPlan) :=
  fun ctx =>
    if takesHandlePath tbl pairs then
      match buildSchemaFromFields (sv ctx) (tnSchema tblName) tbl tblAlias
                                  (Fields selStmt) with
      | None => Returned None ctx
      | Some sch =>
        match snd (findPKHandle tbl pairs) with
        | None => Panicked
        | Some ft =>
          handlePlan X sch (targetDB (sv ctx) tblName) tbl
                     (fst (findPKHandle tbl pairs)) ft ctx
        end
      end
    else
      indexPlan (Indices tbl) pairs tblName tbl tblAlias
                (targetDB (sv ctx) tblName) (Fields selStmt) ctx.

(** The session after [newPointGetPlan] for table [tbl]. *)
Definition recorded (ctx : Context) (tbl : TableInfo) : Context :=
  setTables ctx [mkTableEntry (CurrentDB (sv ctx)) (L (tblName_ tbl))].

(** What planning leaves alone in a session: everything but the table
    list of the statement context, which is kept or replaced by a single
    entry for the current database, and the trace of verification
    requests, which only grows. *)
Record frame (c c' : Context) : Prop := mkFrame {
  frame_db : CurrentDB (sv c') = CurrentDB (sv c);
  frame_roles : ActiveRoles (sv c') = ActiveRoles (sv c);
  frame_autocommit : IsAutocommit (sv c') = IsAutocommit (sv c);
  frame_intxn : InTxn (sv c') = InTxn (sv c);
  frame_pessimistic : TxnCtxIsPessimistic (sv c') = TxnCtxIsPessimistic (sv c);
  frame_manager : GetPrivilegeManager c' = GetPrivilegeManager c;
  frame_tables :
    Tables (StmtCtx (sv c')) = Tables (StmtCtx (sv c))
    \/ exists name, Tables (StmtCtx (sv c')) = [mkTableEntry (CurrentDB (sv c)) name];
  frame_requests : exists added, requests c' = requests c ++ added
}.

(** A computation keeps the frame on every run that returns. *)
Definition framed {A} (m : M A) : Prop :=
  forall ctx a ctx', m ctx = Returned a ctx' -> frame ctx ctx'.

(** The WHERE clause is an [IN] test. *)
Definition isPatternIn (w : option ExprNode) : bool :=
  match w with
  | Some (PatternInExpr _ _ _) => true
  | _ => false
  end.

(** The table of the statement is barred from the fast path: it has
    partitioning metadata, or one of its columns is generated or not
    public. *)
Definition tableBarred (selStmt : SelectStmt) : bool :=
  match getSingleTableNameAndAlias (From selStmt) with
  | (Some tblName, _) =>
    match tnTableInfo tblName with
    | Some tbl => isSome (GetPartitionInfo tbl) || existsb columnBars (Columns tbl)
    | None => false
    end
  | (None, _) => false
  end.

(** The outcome is a plan keyed by an index with a prefix length. *)
Definition keyedByPrefixIndex (r : outcome (option PointGetPlan)) : bool :=
  match r with
  | Returned (Some p) _ =>
    match IndexInfo_ p with
    | Some idxInfo => HasPrefixIndex idxInfo
    | None => false
    end
  | _ => false
  end.

(** A computation never runs out of fuel. *)
Definition fueled {A} (m : M A) : Prop := forall ctx, m ctx <> OutOfFuel.

(** The output schema that the field list of a statement projects from
    its single table, if both resolve. *)
Definition projection (s : SessionVars) (selStmt : SelectStmt) : option Schema :=
  match getSingleTableNameAndAlias (From selStmt) with
  | (Some tblName, tblAlias) =>
    match tnTableInfo tblName with
    | Some tbl =>
      buildSchemaFromFields s (tnSchema tblName) tbl tblAlias (Fields selStmt)
    | None => None
    end
  | (None, _) => None
  end.

Definition Datum_eq_dec : forall x y : Datum, {x = y} + {x <> y}.
Proof.
  decide equality; [apply string_dec | apply Z.eq_dec | decide equality].
Defined.

(** The value tuple of an IN-list candidate: the datums of a row, or the
    datum of a scalar. *)
Definition tupleValues (row : ExprNode) : list Datum :=
  match row with
  | RowExpr values => map (fun e => fst (valueSide e)) values
  | e => [fst (valueSide e)]
  end.

(** The number of distinct value tuples of an IN list. *)
Definition distinctTuples (rows : list ExprNode) : nat :=
  length (nodup (list_eq_dec Datum_eq_dec) (map tupleValues rows)).


(** The SELECT that a statement hands to [tryPointGetPlan]. *)
Definition lookupOf (node : Node) : SelectStmt :=
  match node with
  | NSelect x => x
  | NUpdate x => selectOfMutation (updTableRefs x) (updWhere x) (updOrder x) (updLimit x)
  | NDelete x => selectOfMutation (delTableRefs x) (delWhere x) (delOrder x) (delLimit x)
  | NOther => selectOfMutation None None None None
  end.

(** The table a statement reads or changes. *)
Definition targetTable (node : Node) : option TableInfo :=
  match getSingleTableNameAndAlias (From (lookupOf node)) with
  | (Some tblName, _) => tnTableInfo tblName
  | (None, _) => None
  end.





(** The first pair for a column name. *)
Definition lookup (name : string) (pairs : list nameValuePair) : option nameValuePair :=
  find (fun nv => String.eqb (colName nv) name) pairs.

(** The plan as [newPointGetPlan] allocates it. *)
Definition freshPlan (sch : Schema) (dbName : CIStr) (tbl : TableInfo) : PointGetPlan :=
  mkPointGetPlan "Point_Get" None sch dbName tbl None 0 None [] []
                 false false false false.

(** The outcome of the primary-key handle path after conversion and
    comparison: the converted datum and the error of [ConvertTo], then the
    order and the error of [CompareDatum], decide between an empty-result
    plan, a plan with the handle, and no plan. *)
Definition handleOutcome (p : PointGetPlan) (handlePair : nameValuePair)
  (fieldType : FieldType) (converted : Datum * option error)
  (compared : Z * option error) : option PointGetPlan :=
  let keep :=
    match snd compared with
    | Some _ => None
    | None =>
      if fst compared =? 0
      then Some (withHandle p (GetInt64 (fst converted))
                            (mysql.HasUnsignedFlag (Flag fieldType)) (param handlePair))
      else Some (withTableDual p)
    end in
  match snd converted with
  | Some ErrOverflow => Some (withTableDual p)
  | Some ErrTruncatedWrongVal => keep
  | Some (ErrOther _) => None
  | None => keep
  end.

(** The conjuncts of a WHERE clause: the leaves of its tree of ANDs, in
    written order. *)
Fixpoint conjuncts (e : ExprNode) : list ExprNode :=
  match e with
  | BinaryOperationExpr opcode.LogicAnd l r => conjuncts l ++ conjuncts r
  | _ => [e]
  end.

(** The pair of one conjunct: that of [column = value] when
    [getNameValuePairs] accepts it. *)
Definition pairOf (tblName : CIStr) (e : ExprNode) : option nameValuePair :=
  match e with
  | BinaryOperationExpr opcode.EQ l r =>
    let side :=
      match l with
      | ColumnNameExpr cn => Some (cn, valueSide r)
      | _ => match r with
             | ColumnNameExpr cn => Some (cn, valueSide l)
             | _ => None
             end
      end in
    match side with
    | None => None
    | Some (cn, (d, prm)) =>
      if IsNull d then None
      else if negb (String.eqb (L (cnTable cn)) "")
              && negb (String.eqb (L (cnTable cn)) (L tblName)) then None
      else Some (mkNameValuePair (L (cnName cn)) d prm)
    end
  | _ => None
  end.

(** The pairs of a list of conjuncts, if every one has a pair. *)
Fixpoint pairsOf (tblName : CIStr) (cs : list ExprNode) : option (list nameValuePair) :=
  match cs with
  | [] => Some []
  | c :: rest =>
    match pairOf tblName c, pairsOf tblName rest with
    | Some nv, Some nvs => Some (nv :: nvs)
    | _, _ => None
    end
  end.

(** The statement with another WHERE clause. *)
Definition withWhere (selStmt : SelectStmt) (w : option ExprNode) : SelectStmt :=
  mkSelectStmt (SelectStmtOpts selStmt) (Distinct selStmt) (From selStmt) w
               (Fields selStmt) (GroupBy selStmt) (Having selStmt)
               (WindowSpecs selStmt) (OrderBy selStmt) (stmtLimit selStmt)
               (LockTp selStmt).

(** The lower-case column names of an index, in declared order. *)
Definition indexColumnNames (idxInfo : IndexInfo) : list string :=
  map (fun ic => L (idxColName ic)) (idxColumns idxInfo).

Definition isPriKey (col : ColumnInfo) : bool :=
  mysql.HasPriKeyFlag (Flag (colFieldType col)).

(** The table has a primary-key handle column: the primary key is the
    handle and a column carries the primary-key flag. *)
Definition hasHandleColumn (tbl : TableInfo) : bool :=
  PKIsHandle tbl && existsb isPriKey (Columns tbl).

(** The columns of a table as schema columns numbered from [n]. *)
Fixpoint columnsFrom (n : nat) (db origTblName tblName : CIStr)
  (cols : list ColumnInfo) : list Column :=
  match cols with
  | [] => []
  | col :: rest =>
    colInfoToColumn db origTblName tblName (colName_ col) col (Z.of_nat n)
    :: columnsFrom (S n) db origTblName tblName rest
  end.

(** The data source [sel] of a mutation plan wraps the lookup plan [fs]:
    it is [fs] with its lock flag equal to [pess] and every other field
    but the schema as it was, and [ord] is the
    position of the handle column in its schema, which is the schema of
    [fs] when the table has a primary-key handle column (the handle
    column is then the column of a primary-key column of the table), and
    the schema of [fs] followed by the hidden row-identity column
    otherwise. *)
Definition wrapsLookup (pess : bool) (fs sel : PointGetPlan) (ord : Z) : Prop :=
  sel = withSchema (withLock fs pess (IsForUpdate fs)) (schema sel) /\
  Lock sel = pess /\ IsForUpdate sel = IsForUpdate fs /\
  TblInfo sel = TblInfo fs /\ pDBName sel = pDBName fs /\
  IndexInfo_ sel = IndexInfo_ fs /\ IndexValues sel = IndexValues fs /\
  Handle sel = Handle fs /\ UnsignedHandle sel = UnsignedHandle fs /\
  IsTableDual sel = false /\
  exists handleCol,
    nth_error (schema sel) (Z.to_nat ord) = Some handleCol /\
    Index handleCol = ord /\ 0 <= ord /\
    if hasHandleColumn (TblInfo fs)
    then schema sel = schema fs /\
         exists col, nth_error (Columns (TblInfo fs)) (Z.to_nat ord) = Some col /\
                     isPriKey col = true /\ ID handleCol = colID col
    else schema sel = schema fs ++ [handleCol] /\
         ColName handleCol = ExtraHandleName /\ ID handleCol = ExtraHandleID.

(** The handle of a point-get plan, the ordinal of a mutation plan, the
    number of children of a union; a short description of an outcome. *)
Inductive summary :=
| PointGet (handle : Z) (indexValues : list Z) (lock : bool)
| EmptyResult
| Union (children : nat)
| Mutation (handleOrdinal : list Z) (schemaLen : nat) (lock : bool)
| Fallback
| Panic.

Definition summarize (o : outcome (option Plan)) : summary :=
  match o with
  | Returned (Some (PlanPointGet p)) _ => PointGet (Handle p) (map i (IndexValues p)) (Lock p)
  | Returned (Some (PlanTableDual _)) _ => EmptyResult
  | Returned (Some (PlanUnionAll ua)) _ => Union (length (uaChildren ua))
  | Returned (Some (PlanUpdate u)) _ =>
    Mutation (map HandleOrdinal (updTblColPosInfos u))
             (length (schema (updSelectPlan u))) (Lock (updSelectPlan u))
  | Returned (Some (PlanDelete d)) _ =>
    Mutation (map HandleOrdinal (delTblColPosInfos d))
             (length (schema (delSelectPlan d))) (Lock (delSelectPlan d))
  | Returned None _ => Fallback
  | Panicked | OutOfFuel => Panic
  end.

(** ** The plan node: explain output *)

(** The verb [%d] of package fmt on an integer. *)
Definition formatInt (z : Z) : string :=
  DecimalString.NilZero.string_of_int (Z.to_int z).

(** The conversion [uint64(x)] of a 64-bit signed integer. *)
Definition uint64 (z : Z) : Z := z mod 18446744073709551616.

(** The loop of [ExplainInfo] over the index columns (lines 86-91): the
    name of each column, and a space after every column but the last. *)
Fixpoint explainIndexColumns (cols : list IndexColumn) (n : Z) (total : Z)
  (buffer : string) : string :=
  match cols with
  | [] => buffer
  | col :: rest =>
    let buffer := (buffer ++ O (idxColName col))%string in
    let buffer := if n <? total - 1 then (buffer ++ " ")%string else buffer in
    explainIndexColumns rest (n + 1) total buffer
  end.

(** [PointGetPlan.ExplainInfo]: the operator information of the plan. *)
Definition ExplainInfo (p : PointGetPlan) : string :=
  let buffer := ("" ++ "table:" ++ O (tblName_ (TblInfo p)))%string in
  let buffer :=
    match IndexInfo_ p with
    | Some idxInfo =>
      explainIndexColumns (idxColumns idxInfo) 0
                          (Z.of_nat (length (idxColumns idxInfo)))
                          (buffer ++ ", index:")%string
    | None =>
      if UnsignedHandle p
      then (buffer ++ ", handle:" ++ formatInt (uint64 (Handle p)))%string
      else (buffer ++ ", handle:" ++ formatInt (Handle p))%string
    end in
  if Lock p then (buffer ++ ", lock")%string else buffer.

(** The plans a statement of each kind can get: a SELECT a point get, an
    empty result with a schema or a union; an UPDATE an update plan or a
    bare empty result; a DELETE a delete plan or a bare empty result. *)
Definition planFits (node : Node) (plan : Plan) : bool :=
  match node, plan with
  | NSelect _, PlanPointGet _ => true
  | NSelect _, PlanTableDual (Some _) => true
  | NSelect _, PlanUnionAll _ => true
  | NUpdate _, PlanUpdate _ => true
  | NUpdate _, PlanTableDual None => true
  | NDelete _, PlanDelete _ => true
  | NDelete _, PlanTableDual None => true
  | _, _ => false
  end.

(** The request for one privilege kind in a session. *)
Definition requestFor (ctx : Context) (table : string) (kd : mysql.PrivilegeType)
  : Verification :=
  mkVerification (ActiveRoles (sv ctx)) (CurrentDB (sv ctx)) table "" kd.

(** The statement is an UPDATE or a DELETE. *)
Definition isMutation (node : Node) : bool :=
  match node with
  | NUpdate _ | NDelete _ => true
  | _ => false
  end.

(** A manager that grants SELECT and nothing else, and a session bound to
    it. *)
Definition grantsSelectOnly : Manager :=
  fun v => match vPriv v with mysql.SelectPriv => true | _ => false end.

Definition sessionReadOnly : Context :=
  mkContext (GetSessionVars Sample.session) (Some grantsSelectOnly) [].

(** One turn of the loop of [buildOrderedList] (lines 610-630): the
    assignment of the plan for one assignment of the statement, if its
    column is found and its expression rewrites and resolves. *)
Definition assignmentOf (X : Externals) (s : SessionVars) (sch : Schema)
  (assign : ast.Assignment) : option expression.Assignment :=
  match FindColumn X sch (asgColumn assign) with
  | (Some col, None) =>
    match RewriteSimpleExprWithSchema X s (asgExpr assign) sch with
    | (expr, None) =>
      match ResolveIndices X (BuildCastFunction X s expr (RetType col)) sch with
      | (resolved, None) => Some (expression.mkAssignment col resolved)
      | (_, Some _) => None
      end
    | (_, Some _) => None
    end
  | _ => None
  end.

(** The rewritten WHERE clause of one element of an IN list whose left
    side is [inExpr] (lines 209-213 and 230-250). *)
Definition candidateOf (inExpr : ExprNode) (row : ExprNode) : option ExprNode :=
  match inExpr with
  | ColumnNameExpr _ => columnCandidate inExpr row
  | RowExpr leftValues => rowCandidate leftValues row
  | _ => None
  end.

(** The elements [rows] of an IN list are re-run one after the other from
    the session [ctx] and every one is answered with a point-get plan:
    the plans in order and the session left behind.  [None] when some
    element has no candidate or its re-run is answered otherwise. *)
Fixpoint planned (tryFast : Node -> M (option Plan)) (x : SelectStmt)
  (inExpr : ExprNode) (rows : list ExprNode) (ctx : Context)
  : option (list PointGetPlan * Context) :=
  match rows with
  | [] => Some ([], ctx)
  | row :: rest =>
    match candidateOf inExpr row with
    | Some w =>
      match tryFast (NSelect (reusedStmt x w)) ctx with
      | Returned (Some (PlanPointGet p)) c =>
        match planned tryFast x inExpr rest c with
        | Some (ps, c') => Some (p :: ps, c')
        | None => None
        end
      | _ => None
      end
    | None => None
    end
  end.

(** The statement passes the first test of [tryWhereIn2BatchPointGet]
    (lines 181-185). *)
Definition onBatchPath (x : SelectStmt) : Prop :=
  OrderBy x = None /\ GroupBy x = None /\ stmtLimit x = None /\ Having x = None /\
  WindowSpecs x = [] /\ LockTp x = SelectLockNone.

(** The first child of a union carries the statistics that
    [statsInfo] fills in (line 266). *)
Definition withFirstStats (ps : list PointGetPlan) : list PointGetPlan :=
  match ps with
  | [] => []
  | p :: rest => withStats p (mkStatsInfo 1) :: rest
  end.

(** The end of [tryWhereIn2BatchPointGet] (lines 264-269): the union over
    the children that the loop has collected. *)
Definition unionOver (built : option (list PhysicalProperty * list PointGetPlan))
  : M (option Plan) :=
  match built with
  | None => ret None
  | Some (chReqProps, children) =>
    match children with
    | [] => panic
    | child0 :: others =>
      let '(st, child0) := statsInfo child0 in
      ret (Some (PlanUnionAll
             (mkPhysicalUnionAll true (Scale st (Z.of_nat (length children)))
                chReqProps (schema child0) (child0 :: others))))
    end
  end.

(** The table list of the statement context holds one entry, which names
    the table of the statement. *)
Definition listsTable (node : Node) (c : Context) : Prop :=
  exists tbl, targetTable node = Some tbl /\
              map Table (Tables (StmtCtx (sv c))) = [L (tblName_ tbl)].

(** What a planning step does to the table list: it keeps it, or leaves
    the single entry for the table of the statement; and a step that has
    something to return leaves that entry. *)
Definition writesTable {A} (node : Node) (c : Context) (r : option A) (c' : Context)
  : Prop :=
  (Tables (StmtCtx (sv c')) = Tables (StmtCtx (sv c)) \/ listsTable node c') /\
  (r <> None -> listsTable node c').

(** ** Basic facts *)

Lemma frame_refl : forall c, frame c c.
Proof.
  intro c; constructor; auto.
  exists []; now rewrite app_nil_r.
Qed.

Lemma frame_trans : forall a b c, frame a b -> frame b c -> frame a c.
Proof.
  intros a b c [d1 r1 a1 i1 p1 m1 t1 [l1 q1]] [d2 r2 a2 i2 p2 m2 t2 [l2 q2]].
  constructor; try congruence.
  - destruct t2 as [t2 | [name t2]].
    + destruct t1 as [t1 | [name t1]]; [left; congruence | right; exists name; congruence].
    + right; exists name. now rewrite t2, d1.
  - exists (l1 ++ l2). now rewrite q2, q1, app_assoc.
Qed.

Lemma frame_recorded : forall ctx tbl, frame ctx (recorded ctx tbl).
Proof.
  intros ctx tbl; constructor; simpl; auto.
  - right; eexists; reflexivity.
  - exists []; now rewrite app_nil_r.
Qed.

Lemma frame_logRequest : forall ctx v, frame ctx (logRequest ctx v).
Proof.
  intros ctx v; constructor; simpl; auto. now exists [v].
Qed.

Lemma framed_ret : forall A (a : A), framed (ret a).
Proof. intros A a ctx x ctx' H; inversion H; subst; apply frame_refl. Qed.

Lemma framed_panic : forall A, framed (@panic A).
Proof. intros A ctx x ctx' H; discriminate. Qed.

Lemma framed_bind : forall A B (m : M A) (f : A -> M B),
  framed m -> (forall a, framed (f a)) -> framed (bind m f).
Proof.
  intros A B m f Hm Hf ctx x ctx' H. unfold bind in H.
  destruct (m ctx) as [a c1| |] eqn:E; try discriminate.
  eapply frame_trans; [eapply Hm; eauto | eapply Hf; eauto].
Qed.

Lemma framed_getCtx : framed getCtx.
Proof. intros ctx x ctx' H; inversion H; subst; apply frame_refl. Qed.

Lemma framed_newPointGetPlan : forall sch db tbl, framed (newPointGetPlan sch db tbl).
Proof.
  intros sch db tbl ctx p ctx' H. unfold newPointGetPlan in H.
  inversion H; subst. apply frame_recorded.
Qed.

Lemma framed_requestVerifications : forall pm table kinds,
  framed (requestVerifications pm table kinds).
Proof.
  intros pm table kinds; induction kinds as [|kd rest IH]; intros ctx e ctx' H; simpl in H.
  - inversion H; subst; apply frame_refl.
  - destruct (pm _).
    + eapply frame_trans; [apply frame_logRequest | eapply IH; eauto].
    + inversion H; subst; apply frame_logRequest.
Qed.

Lemma framed_checkFastPlanPrivilege : forall fp kinds,
  framed (checkFastPlanPrivilege fp kinds).
Proof.
  intros fp kinds ctx e ctx' H. unfold checkFastPlanPrivilege in H.
  destruct (GetPrivilegeManager ctx).
  - eapply framed_requestVerifications; eauto.
  - inversion H; subst; apply frame_refl.
Qed.

Lemma framed_findHandleCol : forall p, framed (findHandleCol p).
Proof.
  intros p ctx r ctx' H. unfold findHandleCol in H.
  destruct (if PKIsHandle (TblInfo p) then _ else _) as [[c|]|]; try discriminate.
  - inversion H; subst; apply frame_refl.
  - destruct (schema p); try discriminate. inversion H; subst; apply frame_refl.
Qed.

(** ** The shape of [tryPointGetPlan] *)

Section PlannerFacts.

Variable X : Externals.

Lemma tryPointGetPlan_unfold : forall selStmt ctx,
  tryPointGetPlan X selStmt ctx =
  match preamble X (sv ctx) selStmt with
  | None => Returned None ctx
  | Some (tblName, tblAlias, tbl, pairs) =>
    accessPath X selStmt tblName tblAlias tbl pairs ctx
  end.
Proof.
  intros selStmt ctx.
  unfold tryPointGetPlan, preamble, accessPath, takesHandlePath, targetDB, sv,
    bind, getCtx, ret, panic.
  destruct (isSome (Having selStmt)); [reflexivity|].
  destruct (limitRejects X (GetSessionVars ctx) (stmtLimit selStmt)); [reflexivity|].
  destruct (getSingleTableNameAndAlias (From selStmt)) as [[tblName|] tblAlias];
    [|reflexivity].
  destruct (tnTableInfo tblName) as [tbl|]; [|reflexivity].
  destruct (isSome (GetPartitionInfo tbl)); [reflexivity|].
  destruct (existsb columnBars (Columns tbl)); [reflexivity|].
  destruct (getNameValuePairs [] tblAlias (Where selStmt)) as [pairs|]; [|reflexivity].
  destruct (findPKHandle tbl pairs) as [handlePair fieldType]; simpl.
  destruct (negb (kindIsNull (k (value handlePair))) && Nat.eqb (length pairs) 1);
    [|reflexivity].
  destruct (buildSchemaFromFields _ _ _ _ _); [|reflexivity].
  destruct fieldType; reflexivity.
Qed.

(** What [handlePlan] can return: nothing, or the new plan flagged empty
    or carrying a handle.  The session has the table recorded. *)
Lemma handlePlan_inv : forall sch db tbl hp ft ctx r ctx',
  handlePlan X sch db tbl hp ft ctx = Returned r ctx' ->
  ctx' = recorded ctx tbl /\
  (r = None \/
   exists p, r = Some p /\ schema p = sch /\ TblInfo p = tbl /\ pDBName p = db /\
             IndexInfo_ p = None /\ Lock p = false /\ IsForUpdate p = false).
Proof.
  intros sch db tbl hp ft ctx r ctx' H.
  unfold handlePlan, bind, newPointGetPlan, getCtx, ret in H.
  fold (sv ctx) in H. fold (recorded ctx tbl) in H.
  destruct (ConvertTo X _ (value hp) ft) as [intDatum [e|]].
  - destruct (isErrOverflow e).
    + inversion H; subst; split; [reflexivity|]. right; eexists; repeat split.
    + destruct (isErrTruncatedWrongVal e); simpl in H.
      * destruct (CompareDatum X _ intDatum (value hp)) as [cmp [e'|]].
        -- inversion H; subst; auto.
        -- destruct (negb (cmp =? 0)); inversion H; subst;
             (split; [reflexivity|]); right; eexists; repeat split.
      * inversion H; subst; auto.
  - destruct (CompareDatum X _ intDatum (value hp)) as [cmp [e'|]].
    + inversion H; subst; auto.
    + destruct (negb (cmp =? 0)); inversion H; subst;
        (split; [reflexivity|]); right; eexists; repeat split.
Qed.

(** What [indexPlan] can return: nothing and an untouched session, or a
    plan keyed by a unique public index of the list that the pairs
    cover. *)
Lemma indexPlan_inv : forall indices pairs tblName tbl tblAlias db fields ctx r ctx',
  indexPlan indices pairs tblName tbl tblAlias db fields ctx = Returned r ctx' ->
  (r = None /\ ctx' = ctx) \/
  exists p idxInfo idxValues idxValueParams,
    r = Some p /\ ctx' = recorded ctx tbl /\
    In idxInfo indices /\ Unique idxInfo = true /\ isPublic (idxState idxInfo) = true /\
    getIndexValues idxInfo pairs = Some (idxValues, idxValueParams) /\
    buildSchemaFromFields (sv ctx) (tnSchema tblName) tbl tblAlias fields
      = Some (schema p) /\
    TblInfo p = tbl /\ pDBName p = db /\ IndexInfo_ p = Some idxInfo /\
    IndexValues p = idxValues /\ IsTableDual p = false /\
    Lock p = false /\ IsForUpdate p = false.
Proof.
  induction indices as [|idxInfo rest IH]; intros pairs tblName tbl tblAlias db fields
    ctx r ctx' H; simpl in H.
  - inversion H; subst; auto.
  - assert (Hrest : forall r0 c0,
              indexPlan rest pairs tblName tbl tblAlias db fields ctx = Returned r0 c0 ->
              (r0 = None /\ c0 = ctx) \/
              exists p idx vs ps,
                r0 = Some p /\ c0 = recorded ctx tbl /\
                In idx (idxInfo :: rest) /\ Unique idx = true /\
                isPublic (idxState idx) = true /\
                getIndexValues idx pairs = Some (vs, ps) /\
                buildSchemaFromFields (sv ctx) (tnSchema tblName) tbl tblAlias fields
                  = Some (schema p) /\
                TblInfo p = tbl /\ pDBName p = db /\ IndexInfo_ p = Some idx /\
                IndexValues p = vs /\ IsTableDual p = false /\
                Lock p = false /\ IsForUpdate p = false).
    { intros r0 c0 H0. destruct (IH _ _ _ _ _ _ _ _ _ H0) as [?|(p & idx & vs & ps & ? & ? & ? & ?)];
        [left; assumption|].
      right; exists p, idx, vs, ps. repeat split; try tauto. now right. }
    destruct (Unique idxInfo) eqn:EU; simpl in H; [|now apply Hrest].
    destruct (isPublic (idxState idxInfo)) eqn:EP; simpl in H; [|now apply Hrest].
    destruct (getIndexValues idxInfo pairs) as [[idxValues idxValueParams]|] eqn:EG;
      [|now apply Hrest].
    unfold bind, getCtx, ret, newPointGetPlan in H. fold (sv ctx) in H.
    destruct (buildSchemaFromFields (sv ctx) (tnSchema tblName) tbl tblAlias fields)
      as [sch|] eqn:EB.
    + inversion H; subst. right.
      eexists; exists idxInfo, idxValues, idxValueParams.
      repeat split; simpl; auto.
    + inversion H; subst; auto.
Qed.

Lemma framed_handlePlan : forall sch db tbl hp ft, framed (handlePlan X sch db tbl hp ft).
Proof.
  intros sch db tbl hp ft ctx r ctx' H.
  destruct (handlePlan_inv _ _ _ _ _ _ H) as [-> _]. apply frame_recorded.
Qed.

Lemma framed_indexPlan : forall indices pairs tblName tbl tblAlias db fields,
  framed (indexPlan indices pairs tblName tbl tblAlias db fields).
Proof.
  intros indices pairs tblName tbl tblAlias db fields ctx r ctx' H.
  destruct (indexPlan_inv _ _ _ _ _ _ _ _ H) as [[_ ->]|(p & i0 & vs & ps & _ & -> & _)].
  - apply frame_refl.
  - apply frame_recorded.
Qed.

Lemma framed_accessPath : forall selStmt tblName tblAlias tbl pairs,
  framed (accessPath X selStmt tblName tblAlias tbl pairs).
Proof.
  intros selStmt tblName tblAlias tbl pairs ctx r ctx' H. unfold accessPath in H.
  destruct (takesHandlePath tbl pairs).
  - destruct (buildSchemaFromFields _ _ _ _ _).
    + destruct (snd (findPKHandle tbl pairs)); [|discriminate].
      eapply framed_handlePlan; eauto.
    + inversion H; subst; apply frame_refl.
  - eapply framed_indexPlan; eauto.
Qed.

Lemma framed_tryPointGetPlan : forall selStmt, framed (tryPointGetPlan X selStmt).
Proof.
  intros selStmt ctx r ctx' H. rewrite tryPointGetPlan_unfold in H.
  destruct (preamble X (sv ctx) selStmt) as [[[[tblName tblAlias] tbl] pairs]|].
  - eapply framed_accessPath; eauto.
  - inversion H; subst; apply frame_refl.
Qed.

End PlannerFacts.

(** ** Planning keeps the frame *)

Ltac framed_step :=
  match goal with
  | |- framed (ret _) => apply framed_ret
  | |- framed panic => apply framed_panic
  | |- framed getCtx => apply framed_getCtx
  | |- framed (bind _ _) => apply framed_bind; [|intro]
  | |- framed (checkFastPlanPrivilege _ _) => apply framed_checkFastPlanPrivilege
  | |- framed (findHandleCol _) => apply framed_findHandleCol
  | |- framed (tryPointGetPlan _ _) => apply framed_tryPointGetPlan
  | |- framed (match ?x with _ => _ end) => destruct x
  | |- framed (if ?x then _ else _) => destruct x
  | H : _ |- _ => solve [apply H]
  end.

Section Frame.

Variable X : Externals.

Lemma framed_tryUpdatePointPlan : forall x, framed (tryUpdatePointPlan X x).
Proof. intro x; unfold tryUpdatePointPlan; repeat framed_step. Qed.

Lemma framed_tryDeletePointPlan : forall x, framed (tryDeletePointPlan X x).
Proof. intro x; unfold tryDeletePointPlan; repeat framed_step. Qed.

Lemma framed_batchChildren : forall tryFast candidate selStmt rows props children,
  (forall node, framed (tryFast node)) ->
  framed (batchChildren tryFast candidate selStmt rows props children).
Proof.
  intros tryFast candidate selStmt rows; induction rows as [|row rest IH];
    intros props children Hrec; simpl.
  - apply framed_ret.
  - destruct (candidate row); [|apply framed_ret].
    apply framed_bind; [apply Hrec|]. intros [[p| | | |]|];
      first [apply framed_ret | apply framed_panic | now apply IH].
Qed.

Lemma framed_tryWhereIn2BatchPointGet : forall tryFast selStmt,
  (forall node, framed (tryFast node)) ->
  framed (tryWhereIn2BatchPointGet tryFast selStmt).
Proof.
  intros tryFast selStmt Hrec. unfold tryWhereIn2BatchPointGet.
  repeat first
    [ apply framed_batchChildren; assumption
    | match goal with
      | |- framed (let '(_, _) := ?x in _) => destruct x
      end
    | framed_step ].
Qed.

Lemma framed_trySelect : forall tryFast x,
  (forall node, framed (tryFast node)) -> framed (trySelect X tryFast x).
Proof.
  intros tryFast x Hrec. unfold trySelect.
  apply framed_bind; [now apply framed_tryWhereIn2BatchPointGet|].
  intros batch. repeat framed_step.
Qed.

Lemma framed_TryFastPlan : forall fuel node, framed (TryFastPlan X fuel node).
Proof.
  induction fuel as [|fuel IH]; intro node; simpl.
  - intros ctx r ctx' H; discriminate.
  - destruct node.
    + apply framed_trySelect; assumption.
    + apply framed_tryUpdatePointPlan.
    + apply framed_tryDeletePointPlan.
    + apply framed_ret.
Qed.

End Frame.

(** ** Plans returned by [tryPointGetPlan] *)

Section PointGetFacts.

Variable X : Externals.

(** A plan returned by [tryPointGetPlan] is built for the table of the
    statement, carries the schema projected from the field list, has no
    locking flag set, and is keyed by the handle or by a unique public
    index that the extracted pairs cover. *)
Lemma tryPointGetPlan_some : forall selStmt ctx p ctx',
  tryPointGetPlan X selStmt ctx = Returned (Some p) ctx' ->
  exists tblName tblAlias tbl pairs,
    preamble X (sv ctx) selStmt = Some (tblName, tblAlias, tbl, pairs) /\
    ctx' = recorded ctx tbl /\
    buildSchemaFromFields (sv ctx) (tnSchema tblName) tbl tblAlias (Fields selStmt)
      = Some (schema p) /\
    TblInfo p = tbl /\ pDBName p = targetDB (sv ctx) tblName /\
    Lock p = false /\ IsForUpdate p = false /\
    ((takesHandlePath tbl pairs = true /\ IndexInfo_ p = None) \/
     (takesHandlePath tbl pairs = false /\
      exists idxInfo idxValues idxValueParams,
        In idxInfo (Indices tbl) /\ Unique idxInfo = true /\
        isPublic (idxState idxInfo) = true /\
        getIndexValues idxInfo pairs = Some (idxValues, idxValueParams) /\
        IndexInfo_ p = Some idxInfo /\ IndexValues p = idxValues /\
        IsTableDual p = false)).
Proof.
  intros selStmt ctx p ctx' H. rewrite tryPointGetPlan_unfold in H.
  destruct (preamble X (sv ctx) selStmt) as [[[[tblName tblAlias] tbl] pairs]|] eqn:EP;
    [|discriminate].
  exists tblName, tblAlias, tbl, pairs. split; [reflexivity|].
  unfold accessPath in H. destruct (takesHandlePath tbl pairs) eqn:EH.
  - destruct (buildSchemaFromFields _ _ _ _ _) as [sch|] eqn:EB; [|discriminate].
    destruct (snd (findPKHandle tbl pairs)) as [ft|]; [|discriminate].
    destruct (handlePlan_inv _ _ _ _ _ _ _ H) as [-> [Hr|(q & Hq & ? & ? & ? & ? & ? & ?)]];
      [discriminate|].
    inversion Hq; subst q. repeat split; try assumption; try congruence.
    left; auto.
  - destruct (indexPlan_inv _ _ _ _ _ _ _ _ H)
      as [[Hr _]|(q & idx & vs & ps & Hq & -> & ? & ? & ? & ? & ? & ? & ? & ? & ? & ? & ? & ?)];
      [discriminate|].
    inversion Hq; subst q. repeat split; try assumption.
    right; split; [reflexivity|]. exists idx, vs, ps. repeat split; assumption.
Qed.

(** The batch path is closed to a statement that asks for a lock. *)
Lemma tryWhereIn2BatchPointGet_locked : forall tryFast x ctx,
  isLockNone (LockTp x) = false ->
  tryWhereIn2BatchPointGet tryFast x ctx = Returned None ctx.
Proof.
  intros tryFast x ctx H. unfold tryWhereIn2BatchPointGet.
  rewrite H; simpl. rewrite !orb_true_r. reflexivity.
Qed.

End PointGetFacts.

(** ** C6: locking flags of SELECT ... FOR UPDATE *)

(** C6.  When [TryFastPlan] returns a point-get plan for a SELECT ... FOR
    UPDATE, the plan's [Lock] and [IsForUpdate] flags are both equal to
    "autocommit is disabled or a transaction is open": set in that case,
    unset under autocommit with no open transaction. *)
Theorem C6_for_update_flags : forall X fuel x ctx p ctx',
  LockTp x = SelectLockForUpdate ->
  TryFastPlan X fuel (NSelect x) ctx = Returned (Some (PlanPointGet p)) ctx' ->
  Lock p = negb (IsAutocommit (sv ctx)) || InTxn (sv ctx) /\
  IsForUpdate p = negb (IsAutocommit (sv ctx)) || InTxn (sv ctx).
Proof.
  intros X fuel x ctx p ctx' HL H.
  destruct fuel as [|fuel]; [discriminate|]. simpl in H.
  unfold trySelect, bind in H.
  rewrite tryWhereIn2BatchPointGet_locked in H by (rewrite HL; reflexivity).
  destruct (tryPointGetPlan X x ctx) as [[fp|] ctx1| |] eqn:E1; try discriminate.
  destruct (tryPointGetPlan_some _ _ _ E1)
    as (tn & al & tbl & pairs & _ & _ & _ & _ & _ & Hlock & Hfu & _).
  pose proof (@framed_tryPointGetPlan X x _ _ _ E1) as F1.
  destruct (checkFastPlanPrivilege fp [mysql.SelectPriv] ctx1) as [err ctx2| |] eqn:E2;
    try discriminate.
  pose proof (@framed_checkFastPlanPrivilege fp _ _ _ _ E2) as F2.
  pose proof (frame_trans F1 F2) as F.
  destruct (isSome err); [discriminate|].
  destruct (IsTableDual fp); [discriminate|].
  rewrite HL in H; simpl in H. unfold getCtx, ret in H.
  fold (sv ctx2) in H.
  rewrite (frame_autocommit F), (frame_intxn F) in H.
  destruct (negb (IsAutocommit (sv ctx)) || InTxn (sv ctx));
    inversion H; subst; simpl; auto.
Qed.

Lemma C6_for_update_flags_witness :
  exists p ctx',
    TryFastPlan Sample.collaborators 2
      (NSelect (Sample.selectStar Sample.t1 (Sample.eq_ (Sample.col "id") (Sample.int 5))
                                  SelectLockForUpdate))
      Sample.sessionInTxn = Returned (Some (PlanPointGet p)) ctx' /\
    Lock p = true /\ IsForUpdate p = true.
Proof.
  destruct (TryFastPlan Sample.collaborators 2
              (NSelect (Sample.selectStar Sample.t1
                          (Sample.eq_ (Sample.col "id") (Sample.int 5))
                          SelectLockForUpdate))
              Sample.sessionInTxn) as [[[p| | | |]|] c| |] eqn:E;
    try (vm_compute in E; discriminate).
  exists p, c. split; [reflexivity|].
  exact (@C6_for_update_flags Sample.collaborators 2
           (Sample.selectStar Sample.t1 (Sample.eq_ (Sample.col "id") (Sample.int 5))
                              SelectLockForUpdate)
           Sample.sessionInTxn p c eq_refl E).
Defined.

(** ** Fuel: two levels of [TryFastPlan] are enough *)

Section Fuel.

Variable X : Externals.

Lemma tryWhereIn2BatchPointGet_notIn : forall tryFast x ctx,
  isPatternIn (Where x) = false ->
  tryWhereIn2BatchPointGet tryFast x ctx = Returned None ctx.
Proof.
  intros tryFast x ctx H. unfold tryWhereIn2BatchPointGet.
  destruct (_ || _); [reflexivity|].
  destruct (Where x) as [[]|]; try reflexivity; discriminate.
Qed.

Lemma trySelect_notIn : forall f g x ctx,
  isPatternIn (Where x) = false ->
  trySelect X f x ctx = trySelect X g x ctx.
Proof.
  intros f g x ctx H. unfold trySelect, bind.
  now rewrite !tryWhereIn2BatchPointGet_notIn.
Qed.

Lemma rowEqualities_notIn : forall ls rs w,
  rowEqualities ls rs = Some w -> isPatternIn (Some w) = false.
Proof.
  assert (G : forall l e, isPatternIn (Some e) = false ->
              isPatternIn (Some (fold_left
                (fun where_ lr =>
                   BinaryOperationExpr opcode.LogicAnd where_
                     (equality (fst lr) (snd lr))) l e)) = false).
  { induction l as [|a l IH]; intros e He; simpl; [assumption|]. now apply IH. }
  intros [|l0 ls] [|r0 rs] w H; try discriminate. simpl in H.
  inversion H; subst; clear H. now apply G.
Qed.

Lemma rowCandidate_notIn : forall ls row w,
  rowCandidate ls row = Some w -> isPatternIn (Some w) = false.
Proof.
  intros ls row w H. destruct row; try discriminate. simpl in H.
  destruct (negb _); [discriminate|]. eapply rowEqualities_notIn; eauto.
Qed.

Lemma columnCandidate_notIn : forall l row w,
  columnCandidate l row = Some w -> isPatternIn (Some w) = false.
Proof. intros l row w H; inversion H; reflexivity. Qed.

Lemma batchChildren_ext : forall f g candidate selStmt rows props children ctx,
  (forall row w, candidate row = Some w -> isPatternIn (Some w) = false) ->
  (forall w c, isPatternIn (Some w) = false ->
               f (NSelect (reusedStmt selStmt w)) c = g (NSelect (reusedStmt selStmt w)) c) ->
  batchChildren f candidate selStmt rows props children ctx
  = batchChildren g candidate selStmt rows props children ctx.
Proof.
  intros f g candidate selStmt rows; induction rows as [|row rest IH];
    intros props children ctx Hc Hfg; simpl; [reflexivity|].
  destruct (candidate row) as [w|] eqn:E; [|reflexivity].
  unfold bind. rewrite (Hfg w ctx (Hc _ _ E)).
  destruct (g _ ctx) as [[[p| | | |]|] c| |]; try reflexivity.
  now apply IH.
Qed.

Lemma tryWhereIn2BatchPointGet_ext : forall f g selStmt ctx,
  (forall w c, isPatternIn (Some w) = false ->
               f (NSelect (reusedStmt selStmt w)) c = g (NSelect (reusedStmt selStmt w)) c) ->
  tryWhereIn2BatchPointGet f selStmt ctx = tryWhereIn2BatchPointGet g selStmt ctx.
Proof.
  intros f g selStmt ctx Hfg. unfold tryWhereIn2BatchPointGet.
  destruct (_ || _); [reflexivity|].
  destruct (Where selStmt) as [[| | | |inExpr inList inNot| | |]|]; try reflexivity.
  destruct (_ || _); [reflexivity|].
  destruct inExpr as [| | | | |leftValues| |]; try reflexivity.
  - unfold bind. rewrite (batchChildren_ext f g); auto.
    intros; eapply columnCandidate_notIn; eauto.
  - destruct (Nat.ltb _ _); [reflexivity|].
    unfold bind. rewrite (batchChildren_ext f g); auto.
    intros; eapply rowCandidate_notIn; eauto.
Qed.

(** Every level of fuel beyond the second is idle. *)
Lemma TryFastPlan_fuel : forall n node ctx,
  TryFastPlan X (S (S n)) node ctx = TryFastPlan X 2 node ctx.
Proof.
  intros n node ctx. destruct node; try reflexivity.
  simpl. unfold trySelect, bind.
  rewrite (tryWhereIn2BatchPointGet_ext (TryFastPlan X (S n)) (TryFastPlan X 1)).
  - reflexivity.
  - intros w c Hw. simpl. apply trySelect_notIn. assumption.
Qed.

End Fuel.

Lemma fueled_ret : forall A (a : A), fueled (ret a).
Proof. intros A a ctx; discriminate. Qed.

Lemma fueled_panic : forall A, fueled (@panic A).
Proof. intros A ctx; discriminate. Qed.

Lemma fueled_getCtx : fueled getCtx.
Proof. intros ctx; discriminate. Qed.

Lemma fueled_bind : forall A B (m : M A) (f : A -> M B),
  fueled m -> (forall a, fueled (f a)) -> fueled (bind m f).
Proof.
  intros A B m f Hm Hf ctx. unfold bind.
  destruct (m ctx) as [a c| |] eqn:E; try discriminate.
  - apply Hf.
  - exfalso; eapply Hm; eauto.
Qed.

Lemma fueled_newPointGetPlan : forall sch db tbl, fueled (newPointGetPlan sch db tbl).
Proof. intros sch db tbl ctx; discriminate. Qed.

Lemma fueled_requestVerifications : forall pm table kinds,
  fueled (requestVerifications pm table kinds).
Proof.
  intros pm table kinds; induction kinds as [|kd rest IH]; intros ctx; simpl.
  - discriminate.
  - destruct (pm _); [apply IH | discriminate].
Qed.

Lemma fueled_checkFastPlanPrivilege : forall fp kinds,
  fueled (checkFastPlanPrivilege fp kinds).
Proof.
  intros fp kinds ctx. unfold checkFastPlanPrivilege.
  destruct (GetPrivilegeManager ctx); [apply fueled_requestVerifications | discriminate].
Qed.

Lemma fueled_findHandleCol : forall p, fueled (findHandleCol p).
Proof.
  intros p ctx. unfold findHandleCol.
  destruct (if PKIsHandle (TblInfo p) then _ else _) as [[c|]|]; try discriminate.
  destruct (schema p); discriminate.
Qed.

Ltac fueled_step :=
  match goal with
  | |- fueled (ret _) => apply fueled_ret
  | |- fueled panic => apply fueled_panic
  | |- fueled getCtx => apply fueled_getCtx
  | |- fueled (newPointGetPlan _ _ _) => apply fueled_newPointGetPlan
  | |- fueled (bind _ _) => apply fueled_bind; [|intro]
  | |- fueled (checkFastPlanPrivilege _ _) => apply fueled_checkFastPlanPrivilege
  | |- fueled (findHandleCol _) => apply fueled_findHandleCol
  | |- fueled (let '(_, _) := ?x in _) => destruct x
  | |- fueled (match ?x with _ => _ end) => destruct x
  | |- fueled (if ?x then _ else _) => destruct x
  | H : _ |- _ => solve [apply H]
  end.

Section Termination.

Variable X : Externals.

Lemma fueled_handlePlan : forall sch db tbl hp ft, fueled (handlePlan X sch db tbl hp ft).
Proof. intros; unfold handlePlan; repeat fueled_step. Qed.

Lemma fueled_indexPlan : forall indices pairs tblName tbl tblAlias db fields,
  fueled (indexPlan indices pairs tblName tbl tblAlias db fields).
Proof.
  induction indices as [|idxInfo rest IH]; intros; simpl; repeat fueled_step.
Qed.

Lemma fueled_tryPointGetPlan : forall selStmt, fueled (tryPointGetPlan X selStmt).
Proof.
  intros selStmt ctx. rewrite tryPointGetPlan_unfold.
  destruct (preamble _ _ _) as [[[[tblName tblAlias] tbl] pairs]|]; [|discriminate].
  unfold accessPath. destruct (takesHandlePath tbl pairs).
  - destruct (buildSchemaFromFields _ _ _ _ _); [|discriminate].
    destruct (snd _); [apply fueled_handlePlan | discriminate].
  - apply fueled_indexPlan.
Qed.

Lemma fueled_tryUpdatePointPlan : forall x, fueled (tryUpdatePointPlan X x).
Proof.
  intro x; unfold tryUpdatePointPlan.
  apply fueled_bind; [apply fueled_tryPointGetPlan|]. intro; repeat fueled_step.
Qed.

Lemma fueled_tryDeletePointPlan : forall x, fueled (tryDeletePointPlan X x).
Proof.
  intro x; unfold tryDeletePointPlan. destruct (IsMultiTable x); [apply fueled_ret|].
  apply fueled_bind; [apply fueled_tryPointGetPlan|]. intro; repeat fueled_step.
Qed.

Lemma fueled_trySelect_notIn : forall f x,
  isPatternIn (Where x) = false -> fueled (trySelect X f x).
Proof.
  intros f x H ctx. unfold trySelect, bind.
  rewrite tryWhereIn2BatchPointGet_notIn by assumption.
  destruct (tryPointGetPlan X x ctx) as [[fp|] c| |] eqn:E; try discriminate.
  - destruct (checkFastPlanPrivilege fp [mysql.SelectPriv] c) as [e c2| |] eqn:E2;
      try discriminate.
    + destruct (isSome e); [discriminate|]. destruct (IsTableDual fp); [discriminate|].
      destruct (isLockForUpdate _); [|discriminate].
      unfold getCtx. destruct (_ || _); discriminate.
    + exfalso; eapply fueled_checkFastPlanPrivilege; eauto.
  - exfalso; eapply fueled_tryPointGetPlan; eauto.
Qed.

Lemma fueled_batchChildren : forall f candidate selStmt rows props children,
  (forall row w, candidate row = Some w -> isPatternIn (Some w) = false) ->
  (forall w, isPatternIn (Some w) = false -> fueled (f (NSelect (reusedStmt selStmt w)))) ->
  fueled (batchChildren f candidate selStmt rows props children).
Proof.
  intros f candidate selStmt rows; induction rows as [|row rest IH];
    intros props children Hc Hf; simpl; [apply fueled_ret|].
  destruct (candidate row) as [w|] eqn:E; [|apply fueled_ret].
  apply fueled_bind; [apply Hf; eauto|].
  intros [[p| | | |]|]; first [apply fueled_ret | apply fueled_panic | now apply IH].
Qed.

Lemma fueled_tryWhereIn2BatchPointGet : forall f selStmt,
  (forall w, isPatternIn (Some w) = false -> fueled (f (NSelect (reusedStmt selStmt w)))) ->
  fueled (tryWhereIn2BatchPointGet f selStmt).
Proof.
  intros f selStmt Hf. unfold tryWhereIn2BatchPointGet.
  destruct (_ || _); [apply fueled_ret|].
  destruct (Where selStmt) as [[| | | |inExpr inList inNot| | |]|]; try apply fueled_ret.
  destruct (_ || _); [apply fueled_ret|].
  destruct inExpr as [| | | | |leftValues| |]; try apply fueled_ret.
  - apply fueled_bind.
    + apply fueled_batchChildren; auto. intros; eapply columnCandidate_notIn; eauto.
    + intro; repeat fueled_step.
  - destruct (Nat.ltb _ _); [apply fueled_ret|].
    apply fueled_bind.
    + apply fueled_batchChildren; auto. intros; eapply rowCandidate_notIn; eauto.
    + intro; repeat fueled_step.
Qed.

(** With two levels of fuel, and hence with any more, [TryFastPlan] runs
    to completion: it returns or panics. *)
Lemma TryFastPlan_runs : forall n node, fueled (TryFastPlan X (S (S n)) node).
Proof.
  intros n node ctx. rewrite TryFastPlan_fuel.
  destruct node; simpl.
  - unfold trySelect. apply fueled_bind.
    + apply fueled_tryWhereIn2BatchPointGet. intros w Hw. simpl.
      now apply fueled_trySelect_notIn.
    + intros [fp|]; [apply fueled_ret|].
      apply fueled_bind; [apply fueled_tryPointGetPlan|]. intro; repeat fueled_step.
  - apply fueled_tryUpdatePointPlan.
  - apply fueled_tryDeletePointPlan.
  - discriminate.
Qed.

End Termination.

(** ** The planner on the sample statements *)

Example select_by_handle :
  summarize (TryFastPlan Sample.collaborators 2
               (NSelect (Sample.selectById SelectLockNone)) Sample.session)
  = PointGet 5 [] false.
Proof. reflexivity. Qed.

Example select_overflowing_handle :
  summarize (TryFastPlan Sample.collaborators 2 (NSelect Sample.selectByTooBig)
                         Sample.session)
  = EmptyResult.
Proof. reflexivity. Qed.

Example select_truncated_handle :
  summarize (TryFastPlan Sample.collaborators 2 (NSelect Sample.selectByString)
                         Sample.session)
  = PointGet 0 [] false.
Proof. reflexivity. Qed.

Example select_by_index_swapped :
  summarize (TryFastPlan Sample.collaborators 2 (NSelect Sample.selectBA) Sample.session)
  = PointGet 0 [6; 5] false.
Proof. reflexivity. Qed.

Example select_in_rows :
  summarize (TryFastPlan Sample.collaborators 2
               (NSelect (Sample.selectStar Sample.tu
                           (PatternInExpr (RowExpr [Sample.col "b"; Sample.col "a"])
                                          [RowExpr [Sample.int 1; Sample.int 2];
                                           RowExpr [Sample.int 3; Sample.int 4]] false)
                           SelectLockNone))
               Sample.session)
  = Union 2.
Proof. reflexivity. Qed.

Example select_in_with_null_falls_back :
  summarize (TryFastPlan Sample.collaborators 2
               (NSelect (Sample.selectStar Sample.t1
                           (PatternInExpr (Sample.col "id") [Sample.int 3; Sample.null] false)
                           SelectLockNone))
               Sample.session)
  = Fallback.
Proof. reflexivity. Qed.

Example select_for_update_autocommit :
  summarize (TryFastPlan Sample.collaborators 2
               (NSelect (Sample.selectById SelectLockForUpdate)) Sample.session)
  = PointGet 5 [] false.
Proof. reflexivity. Qed.

Example select_for_update_in_transaction :
  summarize (TryFastPlan Sample.collaborators 2
               (NSelect (Sample.selectById SelectLockForUpdate)) Sample.sessionInTxn)
  = PointGet 5 [] true.
Proof. reflexivity. Qed.

Example update_appends_hidden_handle :
  summarize (TryFastPlan Sample.collaborators 2 (NUpdate Sample.updateByC)
                         Sample.sessionPessimistic)
  = Mutation [3] 4 true.
Proof. reflexivity. Qed.

Example delete_uses_primary_key :
  summarize (TryFastPlan Sample.collaborators 2 (NDelete Sample.deleteById) Sample.session)
  = Mutation [0] 3 false.
Proof. reflexivity. Qed.

Example select_denied :
  summarize (TryFastPlan Sample.collaborators 2
               (NSelect (Sample.selectById SelectLockNone)) Sample.sessionDenied)
  = Fallback.
Proof. reflexivity. Qed.

(** ** C8: excluded tables and prefix indexes *)

Lemma getIndexValues_noPrefix : forall idxInfo pairs r,
  getIndexValues idxInfo pairs = Some r -> HasPrefixIndex idxInfo = false.
Proof.
  intros idxInfo pairs r H. unfold getIndexValues in H.
  destruct (negb _); [discriminate|].
  destruct (HasPrefixIndex idxInfo); [discriminate|reflexivity].
Qed.

(** C8.  When the table of the statement has partitioning metadata, or a
    column that is generated or not public, [tryPointGetPlan] returns nil
    and leaves the session as it was, whatever the WHERE clause; and no
    plan that [tryPointGetPlan] returns is keyed by an index with a
    prefix length. *)
Theorem C8_barred_tables_and_prefix_indexes : forall X selStmt ctx,
  (tableBarred selStmt = true -> tryPointGetPlan X selStmt ctx = Returned None ctx) /\
  keyedByPrefixIndex (tryPointGetPlan X selStmt ctx) = false.
Proof.
  intros X selStmt ctx. split.
  - intro H. rewrite tryPointGetPlan_unfold.
    unfold tableBarred in H. unfold preamble.
    destruct (isSome (Having selStmt)); [reflexivity|].
    destruct (limitRejects _ _ _); [reflexivity|].
    destruct (getSingleTableNameAndAlias (From selStmt)) as [[tblName|] tblAlias];
      [|reflexivity].
    destruct (tnTableInfo tblName) as [tbl|]; [|reflexivity].
    destruct (isSome (GetPartitionInfo tbl)); [reflexivity|].
    simpl in H. now rewrite H.
  - destruct (tryPointGetPlan X selStmt ctx) as [[p|] ctx'| |] eqn:E; try reflexivity.
    simpl. destruct (tryPointGetPlan_some _ _ _ E)
      as (tn & al & tbl & pairs & _ & _ & _ & _ & _ & _ & _ & [[_ Hi]|[_ Hi]]).
    + now rewrite Hi.
    + destruct Hi as (idx & vs & ps & _ & _ & _ & Hg & Hi & _).
      rewrite Hi. eapply getIndexValues_noPrefix; eauto.
Qed.

Lemma C8_barred_tables_and_prefix_indexes_witness :
  tryPointGetPlan Sample.collaborators Sample.selectPartitioned Sample.session
  = Returned None Sample.session.
Proof.
  exact (proj1 (C8_barred_tables_and_prefix_indexes Sample.collaborators
                  Sample.selectPartitioned Sample.session) eq_refl).
Defined.

(** ** C2: the type assertion of the batch path *)

(** The three ways one turn of the loop over the IN list can go. *)
Lemma batchChildren_nil : forall f candidate x row rest props children w ctx c,
  candidate row = Some w ->
  f (NSelect (reusedStmt x w)) ctx = Returned None c ->
  batchChildren f candidate x (row :: rest) props children ctx = Returned None c.
Proof.
  intros f candidate x row rest props children w ctx c Hc Hf.
  simpl. rewrite Hc. unfold bind. now rewrite Hf.
Qed.

Lemma batchChildren_next : forall f candidate x row rest props children w ctx fp c,
  candidate row = Some w ->
  f (NSelect (reusedStmt x w)) ctx = Returned (Some (PlanPointGet fp)) c ->
  batchChildren f candidate x (row :: rest) props children ctx
  = batchChildren f candidate x rest (props ++ [mkPhysicalProperty 1])
                  (children ++ [fp]) c.
Proof.
  intros f candidate x row rest props children w ctx fp c Hc Hf.
  simpl. rewrite Hc. unfold bind. now rewrite Hf.
Qed.

Lemma batchChildren_table_dual : forall f candidate x row rest props children w ctx sch c,
  candidate row = Some w ->
  f (NSelect (reusedStmt x w)) ctx = Returned (Some (PlanTableDual sch)) c ->
  batchChildren f candidate x (row :: rest) props children ctx = Panicked.
Proof.
  intros f candidate x row rest props children w ctx sch c Hc Hf.
  simpl. rewrite Hc. unfold bind. now rewrite Hf.
Qed.

(** In any session and with any collaborators: when the first candidate
    of a column IN list gets an empty-result lookup and the privilege is
    granted, the batch path panics. *)
Lemma batch_table_dual_panics : forall X n x ctx cn row rest fp c1 c2,
  OrderBy x = None -> GroupBy x = None -> stmtLimit x = None -> Having x = None ->
  WindowSpecs x = [] -> LockTp x = SelectLockNone ->
  Where x = Some (PatternInExpr (ColumnNameExpr cn) (row :: rest) false) ->
  tryPointGetPlan X (reusedStmt x (equality (ColumnNameExpr cn) row)) ctx
  = Returned (Some fp) c1 ->
  checkFastPlanPrivilege fp [mysql.SelectPriv] c1 = Returned None c2 ->
  IsTableDual fp = true ->
  TryFastPlan X (S (S n)) (NSelect x) ctx = Panicked.
Proof.
  intros X n x ctx cn row rest fp c1 c2 Ho Hg Hl Hh Hw Hlock Hin H1 H2 Hd.
  rewrite TryFastPlan_fuel. simpl.
  unfold trySelect at 1. unfold bind at 1. unfold tryWhereIn2BatchPointGet.
  rewrite Ho, Hg, Hl, Hh, Hw, Hlock, Hin. simpl.
  unfold bind at 1. unfold bind at 1. unfold columnCandidate.
  unfold trySelect, bind.
  rewrite tryWhereIn2BatchPointGet_notIn by reflexivity.
  rewrite H1, H2. simpl. rewrite Hd. reflexivity.
Qed.

(** C2.  [select * from t1 where id in (9223372036854775808)]: the only
    candidate overflows the key type, [TryFastPlan] answers it with a
    table-dual plan, and the type assertion of the batch path, which wants
    a point-get plan, panics. *)
Theorem C2_batch_table_dual_panics : forall n,
  TryFastPlan Sample.collaborators (S (S n)) (NSelect Sample.selectInOverflow)
              Sample.session = Panicked.
Proof. intro n. rewrite TryFastPlan_fuel. vm_compute. reflexivity. Qed.

(** ** C5: a candidate without a fast plan *)

Lemma isSome_false : forall A (o : option A), isSome o = false -> o = None.
Proof. intros A [a|] H; [discriminate|reflexivity]. Qed.

Lemma onBatchPath_guard : forall x,
  onBatchPath x <->
  isSome (OrderBy x) || isSome (GroupBy x) || isSome (stmtLimit x) || isSome (Having x)
  || Nat.ltb 0 (length (WindowSpecs x)) || negb (isLockNone (LockTp x)) = false.
Proof.
  intro x. unfold onBatchPath. split.
  - intros (H1 & H2 & H3 & H4 & H5 & H6). now rewrite H1, H2, H3, H4, H5, H6.
  - intro H. repeat (apply orb_false_iff in H; destruct H as [H ?]).
    repeat (split; [now apply isSome_false|]). split.
    + destruct (WindowSpecs x); [reflexivity|discriminate].
    + destruct (LockTp x); try discriminate; reflexivity.
Qed.

Lemma rowCandidate_nil : forall row, rowCandidate [] row = None.
Proof.
  intros [| | | | |rs| |]; try reflexivity. simpl.
  destruct (negb _); reflexivity.
Qed.

(** On the batch path, [tryWhereIn2BatchPointGet] runs its loop over the
    IN list and builds the union over what the loop collects. *)
Lemma tryWhereIn2BatchPointGet_loop : forall f x inExpr inList ctx,
  onBatchPath x -> Where x = Some (PatternInExpr inExpr inList false) ->
  inList <> [] ->
  tryWhereIn2BatchPointGet f x ctx
  = bind (batchChildren f (candidateOf inExpr) x inList [] []) unionOver ctx.
Proof.
  intros f x inExpr inList ctx Hon Hw Hne. unfold tryWhereIn2BatchPointGet.
  apply onBatchPath_guard in Hon. rewrite Hon, Hw. simpl.
  destruct inList as [|row rest]; [contradiction|]. simpl Nat.ltb. cbv iota.
  destruct inExpr as [|cn| | | |leftValues| |]; try reflexivity.
  destruct leftValues as [|l ls]; [|reflexivity].
  simpl. unfold bind. simpl. rewrite rowCandidate_nil. reflexivity.
Qed.

(** Off the batch path it declines at once. *)
Lemma tryWhereIn2BatchPointGet_cases : forall f x ctx,
  tryWhereIn2BatchPointGet f x ctx = Returned None ctx \/
  exists inExpr inList,
    onBatchPath x /\ Where x = Some (PatternInExpr inExpr inList false) /\
    inList <> [] /\
    tryWhereIn2BatchPointGet f x ctx
    = bind (batchChildren f (candidateOf inExpr) x inList [] []) unionOver ctx.
Proof.
  intros f x ctx.
  destruct (isSome (OrderBy x) || isSome (GroupBy x) || isSome (stmtLimit x)
            || isSome (Having x) || Nat.ltb 0 (length (WindowSpecs x))
            || negb (isLockNone (LockTp x))) eqn:Eg.
  - left. unfold tryWhereIn2BatchPointGet. now rewrite Eg.
  - apply onBatchPath_guard in Eg.
    destruct (Where x) as [[| | | |inExpr inList inNot| | |]|] eqn:Ew;
      try (left; unfold tryWhereIn2BatchPointGet;
           rewrite (proj1 (onBatchPath_guard x) Eg), Ew; reflexivity).
    destruct inNot;
      [left; unfold tryWhereIn2BatchPointGet;
       rewrite (proj1 (onBatchPath_guard x) Eg), Ew; reflexivity|].
    destruct inList as [|row rest];
      [left; unfold tryWhereIn2BatchPointGet;
       rewrite (proj1 (onBatchPath_guard x) Eg), Ew; reflexivity|].
    right. exists inExpr, (row :: rest). split; [exact Eg|]. split; [reflexivity|].
    split; [discriminate|]. apply tryWhereIn2BatchPointGet_loop; auto. discriminate.
Qed.

(** Elements that are all answered with point-get plans only lengthen
    what the loop has collected. *)
Lemma batchChildren_prefix : forall f x inExpr before rest props children ctx ps c,
  planned f x inExpr before ctx = Some (ps, c) ->
  batchChildren f (candidateOf inExpr) x (before ++ rest) props children ctx
  = batchChildren f (candidateOf inExpr) x rest
      (props ++ repeat (mkPhysicalProperty 1) (length before)) (children ++ ps) c.
Proof.
  intros f x inExpr before rest; induction before as [|row before IH];
    intros props children ctx ps c H; simpl in H.
  - inversion H; subst. simpl. now rewrite !app_nil_r.
  - simpl. destruct (candidateOf inExpr row) as [w|]; [|discriminate].
    unfold bind.
    destruct (f (NSelect (reusedStmt x w)) ctx) as [[[p| | | |]|] c1| |];
      try discriminate.
    destruct (planned f x inExpr before c1) as [[ps' c']|] eqn:Ep; [|discriminate].
    inversion H; subst. rewrite (IH _ _ _ _ _ Ep), <- !app_assoc. reflexivity.
Qed.

Lemma planned_length : forall f x inExpr rows ctx ps c,
  planned f x inExpr rows ctx = Some (ps, c) -> length ps = length rows.
Proof.
  intros f x inExpr rows; induction rows as [|row rows IH]; intros ctx ps c H;
    simpl in H.
  - inversion H; reflexivity.
  - destruct (candidateOf inExpr row) as [w|]; [|discriminate].
    destruct (f (NSelect (reusedStmt x w)) ctx) as [[[p| | | |]|] c1| |];
      try discriminate.
    destruct (planned f x inExpr rows c1) as [[ps' c']|] eqn:Ep; [|discriminate].
    inversion H; subst. simpl. now rewrite (IH _ _ _ Ep).
Qed.

(** The loop returns children only when every element was answered with a
    point-get plan. *)
Lemma batchChildren_planned : forall f x inExpr rows props children ctx props' children' ctx',
  batchChildren f (candidateOf inExpr) x rows props children ctx
  = Returned (Some (props', children')) ctx' ->
  exists ps,
    planned f x inExpr rows ctx = Some (ps, ctx') /\
    children' = children ++ ps /\
    props' = props ++ repeat (mkPhysicalProperty 1) (length rows).
Proof.
  intros f x inExpr rows; induction rows as [|row rows IH];
    intros props children ctx props' children' ctx' H; simpl in H.
  - inversion H; subst. exists []. simpl. now rewrite !app_nil_r.
  - simpl. destruct (candidateOf inExpr row) as [w|]; [|discriminate].
    unfold bind in H.
    destruct (f (NSelect (reusedStmt x w)) ctx) as [[[p| | | |]|] c1| |];
      try discriminate.
    destruct (IH _ _ _ _ _ _ H) as (ps & -> & -> & ->).
    exists (p :: ps). rewrite <- !app_assoc. auto.
Qed.

(** C5.  On the batch path of [tryWhereIn2BatchPointGet], whatever
    function re-runs the candidates: when the elements before one have all
    been answered with point-get plans and that element has no candidate,
    or its re-run returns nil, the whole attempt returns nil, in the
    session that the failed re-run left.  And a plan, when one is
    returned, is a union with one child per element of the IN list, in
    order, each the plan of its own re-run: never a subset. *)
Theorem C5_failed_candidate_returns_nil : forall tryFast x ctx,
  (forall inExpr before row after ps c c',
     onBatchPath x ->
     Where x = Some (PatternInExpr inExpr (before ++ row :: after) false) ->
     planned tryFast x inExpr before ctx = Some (ps, c) ->
     (candidateOf inExpr row = None /\ c' = c) \/
     (exists w, candidateOf inExpr row = Some w /\
                tryFast (NSelect (reusedStmt x w)) c = Returned None c') ->
     tryWhereIn2BatchPointGet tryFast x ctx = Returned None c') /\
  (forall plan ctx',
     tryWhereIn2BatchPointGet tryFast x ctx = Returned (Some plan) ctx' ->
     exists ua inExpr inList ps,
       plan = PlanUnionAll ua /\
       Where x = Some (PatternInExpr inExpr inList false) /\
       planned tryFast x inExpr inList ctx = Some (ps, ctx') /\
       uaChildren ua = withFirstStats ps /\
       length (uaChildren ua) = length inList).
Proof.
  intros tryFast x ctx. split.
  - intros inExpr before row after ps c c' Hon Hw Hp Hfail.
    rewrite (@tryWhereIn2BatchPointGet_loop tryFast x _ _ ctx Hon Hw)
      by (destruct before; discriminate).
    unfold bind. rewrite (@batchChildren_prefix _ _ _ _ _ _ _ _ _ _ Hp). simpl.
    destruct Hfail as [[Hn ->]|(w & Hc' & Hr)].
    + rewrite Hn. reflexivity.
    + rewrite Hc'. unfold bind. rewrite Hr. reflexivity.
  - intros plan ctx' H.
    destruct (tryWhereIn2BatchPointGet_cases tryFast x ctx)
      as [Hnil|(inExpr & inList & Hon & Hw & Hne & Heq)]; [congruence|].
    rewrite Heq in H. unfold bind in H.
    destruct (batchChildren tryFast (candidateOf inExpr) x inList [] [] ctx)
      as [[[props children]|] c| |] eqn:Eb; try discriminate.
    destruct (@batchChildren_planned _ _ _ _ _ _ _ _ _ _ Eb) as (ps & Hp & Hch & _).
    simpl in Hch. subst children.
    destruct ps as [|p0 ps]; [discriminate|]. simpl in H. inversion H; subst.
    eexists; exists inExpr, inList, (p0 :: ps).
    split; [reflexivity|]. split; [exact Hw|]. split; [exact Hp|].
    split; [reflexivity|]. simpl. apply planned_length in Hp. exact Hp.
Qed.

Lemma C5_failed_candidate_returns_nil_witness :
  exists c',
    tryWhereIn2BatchPointGet (TryFastPlan Sample.collaborators 1)
                             Sample.selectInWithNull Sample.session
    = Returned None c'.
Proof.
  eexists.
  eapply (proj1 (@C5_failed_candidate_returns_nil
                   (TryFastPlan Sample.collaborators 1) Sample.selectInWithNull
                   Sample.session)
                (Sample.col "id") [Sample.int 3] Sample.null []).
  - repeat split.
  - reflexivity.
  - vm_compute. reflexivity.
  - right. eexists. split; [reflexivity|]. vm_compute. reflexivity.
Defined.

(** ** C3: the children of a batch plan *)

Section Batch.

Variable X : Externals.

Lemma buildSchemaFromFields_db : forall s1 s2 db tbl al fields,
  CurrentDB s1 = CurrentDB s2 ->
  buildSchemaFromFields s1 db tbl al fields = buildSchemaFromFields s2 db tbl al fields.
Proof.
  intros s1 s2 db tbl al fields H. unfold buildSchemaFromFields. now rewrite H.
Qed.

Lemma projection_db : forall s1 s2 x,
  CurrentDB s1 = CurrentDB s2 -> projection s1 x = projection s2 x.
Proof.
  intros s1 s2 x H. unfold projection.
  destruct (getSingleTableNameAndAlias (From x)) as [[tn|] al]; [|reflexivity].
  destruct (tnTableInfo tn); [|reflexivity]. now apply buildSchemaFromFields_db.
Qed.

Lemma preamble_table : forall s x tn al tbl pairs,
  preamble X s x = Some (tn, al, tbl, pairs) ->
  getSingleTableNameAndAlias (From x) = (Some tn, al) /\ tnTableInfo tn = Some tbl /\
  getNameValuePairs [] al (Where x) = Some pairs /\
  tableBarred x = false.
Proof.
  intros s x tn al tbl pairs H. unfold preamble in H. unfold tableBarred.
  destruct (isSome (Having x)); [discriminate|].
  destruct (limitRejects X s (stmtLimit x)); [discriminate|].
  destruct (getSingleTableNameAndAlias (From x)) as [[tn'|] al']; [|discriminate].
  destruct (tnTableInfo tn') as [tbl'|] eqn:Et; [|discriminate].
  destruct (isSome (GetPartitionInfo tbl')); [discriminate|].
  destruct (existsb columnBars (Columns tbl')); [discriminate|].
  destruct (getNameValuePairs [] al' (Where x)) as [pairs'|] eqn:Ep; [|discriminate].
  inversion H; subst. rewrite Et. repeat split; assumption.
Qed.

Lemma tryPointGetPlan_projection : forall x ctx p ctx',
  tryPointGetPlan X x ctx = Returned (Some p) ctx' ->
  projection (sv ctx) x = Some (schema p).
Proof.
  intros x ctx p ctx' H.
  destruct (tryPointGetPlan_some _ _ _ H) as (tn & al & tbl & pairs & Hp & _ & Hb & _).
  destruct (preamble_table _ _ Hp) as (Hg & Ht & _). unfold projection.
  now rewrite Hg, Ht.
Qed.

(** The batch path returns nothing or a union. *)
Lemma tryWhereIn2BatchPointGet_union : forall f x ctx pl ctx',
  tryWhereIn2BatchPointGet f x ctx = Returned (Some pl) ctx' ->
  exists ua, pl = PlanUnionAll ua.
Proof.
  intros f x ctx pl ctx' H. unfold tryWhereIn2BatchPointGet in H.
  destruct (_ || _); [discriminate|].
  destruct (Where x) as [[| | | |inExpr inList inNot| | |]|]; try discriminate.
  destruct (_ || _); [discriminate|].
  assert (G : forall cand,
    bind (batchChildren f cand x inList [] [])
      (fun built => match built with
         | None => ret None
         | Some (chReqProps, children) =>
           match children with
           | [] => panic
           | child0 :: others =>
             let '(st, child0) := statsInfo child0 in
             ret (Some (PlanUnionAll
                    (mkPhysicalUnionAll true (Scale st (Z.of_nat (length children)))
                       chReqProps (schema child0) (child0 :: others))))
           end
         end) ctx = Returned (Some pl) ctx' -> exists ua, pl = PlanUnionAll ua).
  { intros cand G. unfold bind in G.
    destruct (batchChildren _ _ _ _ _ _ _) as [[[props [|c0 cs]]|] c| |]; try discriminate.
    simpl in G. inversion G; subst. eexists; reflexivity. }
  destruct inExpr as [| | | | |leftValues| |]; try discriminate.
  - eapply G; eauto.
  - destruct (Nat.ltb _ _); [discriminate|]. eapply G; eauto.
Qed.

(** A point-get plan returned by [TryFastPlan] for a SELECT carries the
    schema projected by the statement. *)
Lemma TryFastPlan_projection : forall fuel x ctx p ctx',
  TryFastPlan X fuel (NSelect x) ctx = Returned (Some (PlanPointGet p)) ctx' ->
  projection (sv ctx) x = Some (schema p).
Proof.
  intros fuel x ctx p ctx' H. destruct fuel as [|fuel]; [discriminate|].
  simpl in H. unfold trySelect, bind in H.
  destruct (tryWhereIn2BatchPointGet (TryFastPlan X fuel) x ctx) as [[pl|] c1| |] eqn:E1;
    try discriminate.
  - destruct (tryWhereIn2BatchPointGet_union _ _ _ E1) as [ua ->]. discriminate.
  - assert (F1 : frame ctx c1).
    { eapply framed_tryWhereIn2BatchPointGet; [|exact E1].
      intro node; apply framed_TryFastPlan. }
    destruct (tryPointGetPlan X x c1) as [[fp|] c2| |] eqn:E2; try discriminate.
    pose proof (tryPointGetPlan_projection _ _ E2) as Hp.
    rewrite (projection_db (sv c1) (sv ctx) x (frame_db F1)) in Hp.
    destruct (checkFastPlanPrivilege fp [mysql.SelectPriv] c2) as [e c3| |];
      try discriminate.
    destruct (isSome e); [discriminate|]. destruct (IsTableDual fp); [discriminate|].
    destruct (isLockForUpdate (LockTp x)).
    + unfold getCtx in H. destruct (_ || _); inversion H; subst; assumption.
    + inversion H; subst; assumption.
Qed.

(** The loop over the IN list appends one plan per candidate, each the
    answer of [tryFast] to the rewritten statement in a session framed
    by the initial one. *)
Lemma batchChildren_inv : forall f candidate selStmt,
  (forall node, framed (f node)) ->
  forall rows props children ctx props' children' ctx',
  batchChildren f candidate selStmt rows props children ctx
  = Returned (Some (props', children')) ctx' ->
  exists added,
    children' = children ++ added /\ length added = length rows /\
    props' = props ++ repeat (mkPhysicalProperty 1) (length rows) /\
    Forall2 (fun row p =>
               exists w c c', candidate row = Some w /\ frame ctx c /\
                              f (NSelect (reusedStmt selStmt w)) c
                              = Returned (Some (PlanPointGet p)) c')
            rows added.
Proof.
  intros f candidate selStmt Hf rows; induction rows as [|row rest IH];
    intros props children ctx props' children' ctx' H; simpl in H.
  - inversion H; subst. exists []. rewrite !app_nil_r.
    split; [reflexivity|]. split; [reflexivity|]. split; [reflexivity|]. constructor.
  - destruct (candidate row) as [w|] eqn:Ec; [|discriminate].
    unfold bind in H.
    destruct (f (NSelect (reusedStmt selStmt w)) ctx) as [[[p| | | |]|] c1| |] eqn:E1;
      try discriminate.
    pose proof (Hf _ _ _ _ E1) as F1.
    destruct (IH _ _ _ _ _ _ H) as (added & Hch & Hlen & Hprops & Hall).
    exists (p :: added). rewrite Hch, Hprops, <- !app_assoc. simpl.
    split; [reflexivity|]. split; [now rewrite Hlen|]. split; [reflexivity|].
    constructor.
    + exists w, ctx, c1.
      split; [assumption|]. split; [apply frame_refl | assumption].
    + eapply Forall2_impl; [|exact Hall]. simpl.
      intros r q (w' & c & c' & ? & ? & ?). exists w', c, c'.
      split; [assumption|]. split; [eapply frame_trans; eauto | assumption].
Qed.

End Batch.

Section BatchPlan.

Variable X : Externals.

(** A union returned by the batch path: the WHERE clause is a positive IN
    test, and the children are the plans collected by the loop, the first
    one with its statistics filled in. *)
Lemma tryWhereIn2BatchPointGet_inv : forall f x ctx ua ctx',
  tryWhereIn2BatchPointGet f x ctx = Returned (Some (PlanUnionAll ua)) ctx' ->
  exists inExpr inList candidate props child0 others,
    Where x = Some (PatternInExpr inExpr inList false) /\
    isLockNone (LockTp x) = true /\
    batchChildren f candidate x inList [] [] ctx
    = Returned (Some (props, child0 :: others)) ctx' /\
    ua = mkPhysicalUnionAll true (Scale (mkStatsInfo 1) (Z.of_nat (S (length others))))
           props (schema child0) (withStats child0 (mkStatsInfo 1) :: others).
Proof.
  intros f x ctx ua ctx' H. unfold tryWhereIn2BatchPointGet in H.
  destruct (isLockNone (LockTp x)) eqn:EL;
    [|simpl in H; rewrite !orb_true_r in H; discriminate].
  destruct (_ || _); [discriminate|].
  destruct (Where x) as [[| | | |inExpr inList inNot| | |]|]; try discriminate.
  destruct inNot; [discriminate|]. simpl in H.
  destruct (Nat.ltb (length inList) 1); [discriminate|].
  assert (G : forall cand,
    bind (batchChildren f cand x inList [] [])
      (fun built => match built with
         | None => ret None
         | Some (chReqProps, children) =>
           match children with
           | [] => panic
           | child0 :: others =>
             let '(st, child0) := statsInfo child0 in
             ret (Some (PlanUnionAll
                    (mkPhysicalUnionAll true (Scale st (Z.of_nat (length children)))
                       chReqProps (schema child0) (child0 :: others))))
           end
         end) ctx = Returned (Some (PlanUnionAll ua)) ctx' ->
    exists props child0 others,
      batchChildren f cand x inList [] [] ctx
      = Returned (Some (props, child0 :: others)) ctx' /\
      ua = mkPhysicalUnionAll true (Scale (mkStatsInfo 1) (Z.of_nat (S (length others))))
             props (schema child0) (withStats child0 (mkStatsInfo 1) :: others)).
  { intros cand G. unfold bind in G.
    destruct (batchChildren _ _ _ _ _ _ _) as [[[props [|c0 cs]]|] c| |]; try discriminate.
    simpl in G. inversion G; subst. exists props, c0, cs. split; reflexivity. }
  destruct inExpr as [|cn| | | |leftValues| |]; try discriminate.
  - destruct (G _ H) as (props & c0 & cs & Hb & Hu).
    exists (ColumnNameExpr cn), inList, (columnCandidate (ColumnNameExpr cn)), props, c0, cs.
    repeat split; assumption.
  - destruct (Nat.ltb _ _); [discriminate|].
    destruct (G _ H) as (props & c0 & cs & Hb & Hu).
    exists (RowExpr leftValues), inList, (rowCandidate leftValues), props, c0, cs.
    repeat split; assumption.
Qed.

Lemma projection_reusedStmt : forall s x w,
  projection s (reusedStmt x w) = projection s x.
Proof. reflexivity. Qed.

End BatchPlan.

(** C3, as amended.  A batch-union plan returned by [TryFastPlan] comes
    from a positive IN test; it has one child per element of the IN list,
    equal elements included, and every child has the output schema of the
    union. *)
Theorem C3_batch_children : forall X fuel x ctx ua ctx',
  TryFastPlan X fuel (NSelect x) ctx = Returned (Some (PlanUnionAll ua)) ctx' ->
  exists inExpr inList,
    Where x = Some (PatternInExpr inExpr inList false) /\
    length (uaChildren ua) = length inList /\
    Forall (fun child => schema child = uaSchema ua) (uaChildren ua).
Proof.
  intros X fuel x ctx ua ctx' H. destruct fuel as [|fuel]; [discriminate|].
  simpl in H. unfold trySelect, bind in H.
  destruct (tryWhereIn2BatchPointGet (TryFastPlan X fuel) x ctx) as [[pl|] c1| |] eqn:E1;
    try discriminate.
  - inversion H; subst; clear H.
    destruct (tryWhereIn2BatchPointGet_inv _ _ _ E1)
      as (inExpr & inList & cand & props & c0 & cs & Hw & _ & Hb & ->).
    exists inExpr, inList. split; [assumption|].
    destruct (@batchChildren_inv (TryFastPlan X fuel) cand x
                (fun node => @framed_TryFastPlan X fuel node) _ _ _ _ _ _ _ Hb)
      as (added & Hch & Hlen & _ & Hall).
    simpl in Hch. subst added. simpl.
    split; [exact Hlen|].
    assert (Hs : Forall (fun child => projection (sv ctx) x = Some (schema child))
                        (c0 :: cs)).
    { clear - Hall. revert Hall. generalize (c0 :: cs). intros l Hall.
      induction Hall as [|row p rows ps (w & c & c' & _ & F & Hp) _ IH]; constructor.
      - apply TryFastPlan_projection in Hp.
        rewrite projection_reusedStmt in Hp.
        now rewrite (projection_db (sv c) (sv ctx) x (frame_db F)) in Hp.
      - assumption. }
    inversion Hs as [|? ? H0 Hcs]; subst.
    constructor; [reflexivity|].
    eapply Forall_impl; [|exact Hcs]. simpl. intros q Hq. congruence.
  - destruct (tryPointGetPlan X x c1) as [[fp|] c2| |]; try discriminate.
    destruct (checkFastPlanPrivilege _ _ _) as [e c3| |]; try discriminate.
    destruct (isSome e); [discriminate|]. destruct (IsTableDual fp); [discriminate|].
    destruct (isLockForUpdate _); [|discriminate].
    unfold getCtx in H. destruct (_ || _); discriminate.
Qed.

Lemma C3_batch_children_witness :
  exists ua ctx',
    TryFastPlan Sample.collaborators 2 (NSelect Sample.selectInTwice) Sample.session
    = Returned (Some (PlanUnionAll ua)) ctx' /\
    length (uaChildren ua) = 2%nat.
Proof.
  destruct (TryFastPlan Sample.collaborators 2 (NSelect Sample.selectInTwice)
                        Sample.session) as [[[| |ua| |]|] c| |] eqn:E;
    try (vm_compute in E; discriminate).
  exists ua, c. split; [reflexivity|].
  destruct (@C3_batch_children Sample.collaborators 2 Sample.selectInTwice
              Sample.session ua c E) as (inExpr & inList & Hw & Hlen & _).
  inversion Hw; subst. exact Hlen.
Defined.

(** [select * from tu where c in (1, 1)] has one distinct value tuple and
    yields a union of two children. *)
Lemma C3_counterexample :
  exists ua ctx',
    TryFastPlan Sample.collaborators 2 (NSelect Sample.selectInTwice) Sample.session
    = Returned (Some (PlanUnionAll ua)) ctx' /\
    length (uaChildren ua) = 2%nat /\
    distinctTuples [Sample.int 1; Sample.int 1] = 1%nat /\
    length (uaChildren ua) <> distinctTuples [Sample.int 1; Sample.int 1].
Proof.
  eexists; eexists. split; [vm_compute; reflexivity|].
  repeat split; try reflexivity. vm_compute. discriminate.
Qed.

(** ** C9: privilege verification *)





Lemma findHandleCol_ctx : forall p ctx r ctx',
  findHandleCol p ctx = Returned r ctx' -> ctx' = ctx.
Proof.
  intros p ctx r ctx' H. unfold findHandleCol in H.
  destruct (if PKIsHandle (TblInfo p) then _ else _) as [[c|]|]; try discriminate.
  - inversion H; reflexivity.
  - destruct (schema p); [discriminate|]. inversion H; reflexivity.
Qed.





Section Privilege.

Variable X : Externals.

Lemma getNameValuePairs_notIn : forall acc al w pairs,
  getNameValuePairs acc al w = Some pairs -> isPatternIn w = false.
Proof.
  intros acc al [e|] pairs H; [|discriminate].
  destruct e; try discriminate; reflexivity.
Qed.

(** A successful lookup is for the table of the statement, whose WHERE
    clause is not an IN test, and records that table in the session. *)
Lemma tryPointGetPlan_target : forall node ctx fp c1,
  tryPointGetPlan X (lookupOf node) ctx = Returned (Some fp) c1 ->
  targetTable node = Some (TblInfo fp) /\ c1 = recorded ctx (TblInfo fp) /\
  isPatternIn (Where (lookupOf node)) = false.
Proof.
  intros node ctx fp c1 H.
  destruct (tryPointGetPlan_some _ _ _ H)
    as (tn & al & tbl & pairs & Hp & Hc & _ & Ht & _).
  destruct (preamble_table _ _ _ Hp) as (Hg & Hi & Hn & _).
  unfold targetTable. rewrite Hg, Hi, Ht, Hc. subst tbl.
  repeat split. eapply getNameValuePairs_notIn; eauto.
Qed.




End Privilege.

Section PrivilegeRounds.

Variable X : Externals.




End PrivilegeRounds.






(** ** Looking up pairs *)

Lemma findInPairsFrom_lookup : forall name pairs n,
  0 <= n ->
  match lookup name pairs with
  | None => findInPairsFrom n name pairs = -1
  | Some nv =>
    n <= findInPairsFrom n name pairs /\
    nth (Z.to_nat (findInPairsFrom n name pairs - n)) pairs zeroPair = nv
  end.
Proof.
  unfold lookup.
  intros name pairs; induction pairs as [|nv rest IH]; intros n Hn; simpl.
  - reflexivity.
  - destruct (String.eqb (colName nv) name).
    + split; [lia|]. now rewrite Z.sub_diag.
    + specialize (IH (n + 1) ltac:(lia)).
      destruct (find _ rest) as [found|]; [|assumption].
      destruct IH as [Hle Hnth]. split; [lia|].
      replace (Z.to_nat (findInPairsFrom (n + 1) name rest - n))
        with (S (Z.to_nat (findInPairsFrom (n + 1) name rest - (n + 1)))) by lia.
      exact Hnth.
Qed.

(** [findInPairs] answers -1 exactly when no pair has the name, and
    otherwise the index of the first one. *)
Lemma findInPairs_lookup : forall name pairs,
  match lookup name pairs with
  | None => findInPairs name pairs = -1
  | Some nv => findInPairs name pairs <> -1 /\ pairAt pairs (findInPairs name pairs) = nv
  end.
Proof.
  intros name pairs. pose proof (@findInPairsFrom_lookup name pairs 0 ltac:(lia)) as H.
  unfold findInPairs, pairAt. destruct (lookup name pairs); [|assumption].
  destruct H as [Hle Hnth]. rewrite Z.sub_0_r in Hnth. split; [lia|assumption].
Qed.

Lemma lookup_In : forall name pairs nv,
  lookup name pairs = Some nv -> In nv pairs /\ colName nv = name.
Proof.
  intros name pairs nv H. unfold lookup in H. apply find_some in H.
  destruct H as [Hin He]. split; [assumption|]. now apply String.eqb_eq.
Qed.

(** A handle pair that is not null is one of the pairs and comes with the
    field type of the key column. *)
Lemma findPKHandle_found : forall tbl pairs,
  kindIsNull (k (value (fst (findPKHandle tbl pairs)))) = false ->
  In (fst (findPKHandle tbl pairs)) pairs /\
  exists ft, snd (findPKHandle tbl pairs) = Some ft.
Proof.
  intros tbl pairs. unfold findPKHandle.
  destruct (PKIsHandle tbl); simpl; [|discriminate].
  induction (Columns tbl) as [|col rest IH]; simpl; [discriminate|].
  destruct (mysql.HasPriKeyFlag _); [|assumption].
  pose proof (findInPairs_lookup (L (colName_ col)) pairs) as Hl.
  destruct (lookup (L (colName_ col)) pairs) as [nv|] eqn:El.
  - destruct Hl as [Hne Hp]. destruct (Z.eqb_spec (findInPairs (L (colName_ col)) pairs) (-1));
      [contradiction|]. simpl. intros _. rewrite Hp. split; [|eexists; reflexivity].
    now apply lookup_In in El.
  - rewrite Hl. simpl. discriminate.
Qed.

Lemma takesHandlePath_single : forall tbl pairs,
  takesHandlePath tbl pairs = true ->
  pairs = [fst (findPKHandle tbl pairs)] /\
  exists ft, snd (findPKHandle tbl pairs) = Some ft.
Proof.
  intros tbl pairs H. unfold takesHandlePath in H.
  apply andb_true_iff in H. destruct H as [Hk Hlen].
  apply negb_true_iff in Hk. apply Nat.eqb_eq in Hlen.
  destruct (findPKHandle_found _ _ Hk) as [Hin Hft]. split; [|assumption].
  destruct pairs as [|nv [|nv2 rest]]; try discriminate.
  destruct Hin as [<-|[]]. reflexivity.
Qed.

(** ** C1: the primary-key handle path *)

Lemma handlePlan_outcome : forall X sch db tbl hp ft ctx,
  handlePlan X sch db tbl hp ft ctx =
  let sc := StmtCtx (sv (recorded ctx tbl)) in
  let converted := ConvertTo X sc (value hp) ft in
  Returned (handleOutcome (freshPlan sch db tbl) hp ft converted
                          (CompareDatum X sc (fst converted) (value hp)))
           (recorded ctx tbl).
Proof.
  intros X sch db tbl hp ft ctx.
  unfold handlePlan, handleOutcome, bind, newPointGetPlan, getCtx, ret, freshPlan.
  fold (sv ctx). fold (recorded ctx tbl). cbv zeta.
  destruct (ConvertTo X _ (value hp) ft) as [intDatum [[| |msg]|]]; simpl;
    try reflexivity;
    destruct (CompareDatum X _ intDatum (value hp)) as [cmp [e|]]; simpl;
    try reflexivity; destruct (cmp =? 0); reflexivity.
Qed.

(** C1, as amended.  For a statement that passes the preliminary tests,
    whose only pair is the primary-key handle and whose field list
    resolves, [tryPointGetPlan] records the table and decides by the
    conversion of the value to the key's field type: an overflow gives the
    empty-result plan; any other error but a truncation gives nil;
    otherwise (no error, or a truncation) the converted value is compared
    with the original, and a failed comparison gives nil, a difference
    the empty-result plan, and equality the plan whose [Handle] is the
    converted value. *)
Theorem C1_handle_conversion : forall X selStmt ctx tblName tblAlias tbl pairs sch,
  preamble X (sv ctx) selStmt = Some (tblName, tblAlias, tbl, pairs) ->
  takesHandlePath tbl pairs = true ->
  buildSchemaFromFields (sv ctx) (tnSchema tblName) tbl tblAlias (Fields selStmt)
    = Some sch ->
  exists handlePair fieldType,
    pairs = [handlePair] /\
    findPKHandle tbl pairs = (handlePair, Some fieldType) /\
    let sc := StmtCtx (sv (recorded ctx tbl)) in
    let p := freshPlan sch (targetDB (sv ctx) tblName) tbl in
    let converted := ConvertTo X sc (value handlePair) fieldType in
    let compared := CompareDatum X sc (fst converted) (value handlePair) in
    let byComparison :=
      match snd compared with
      | Some _ => None
      | None =>
        if fst compared =? 0
        then Some (withHandle p (GetInt64 (fst converted))
                              (mysql.HasUnsignedFlag (Flag fieldType))
                              (param handlePair))
        else Some (withTableDual p)
      end in
    tryPointGetPlan X selStmt ctx =
    Returned
      match snd converted with
      | Some ErrOverflow => Some (withTableDual p)
      | Some ErrTruncatedWrongVal => byComparison
      | Some (ErrOther _) => None
      | None => byComparison
      end
      (recorded ctx tbl).
Proof.
  intros X selStmt ctx tblName tblAlias tbl pairs sch Hp Hh Hs.
  destruct (takesHandlePath_single _ _ Hh) as [Hone [ft Hft]].
  exists (fst (findPKHandle tbl pairs)), ft.
  split; [assumption|]. split.
  - destruct (findPKHandle tbl pairs); simpl in *; congruence.
  - rewrite tryPointGetPlan_unfold, Hp. unfold accessPath.
    rewrite Hh, Hs, Hft. rewrite handlePlan_outcome. reflexivity.
Qed.

Lemma C1_handle_conversion_witness :
  exists p,
    tryPointGetPlan Sample.collaborators (Sample.selectById SelectLockNone) Sample.session
    = Returned (Some p) (recorded Sample.session Sample.t1) /\
    Handle p = 5 /\ IsTableDual p = false.
Proof.
  edestruct (@C1_handle_conversion Sample.collaborators
               (Sample.selectById SelectLockNone) Sample.session)
    as (hp & ft & Hone & Hf & Heq);
    [vm_compute; reflexivity | vm_compute; reflexivity | vm_compute; reflexivity |].
  vm_compute in Hf. inversion Hf; subst hp ft. clear Hf Hone.
  eexists. split; [exact Heq|]. split; reflexivity.
Defined.

(** [select * from t1 where id = v], for a value [v] whose conversion
    fails with an error that is neither overflow nor truncation: a single
    pair on the primary-key handle, a field list that resolves, and no
    plan at all. *)
Lemma C1_counterexample :
  exists tblName tblAlias handlePair,
    preamble Sample.collaborators (sv Sample.session) Sample.selectByOpaque
    = Some (tblName, tblAlias, Sample.t1, [handlePair]) /\
    takesHandlePath Sample.t1 [handlePair] = true /\
    projection (sv Sample.session) Sample.selectByOpaque <> None /\
    snd (ConvertTo Sample.collaborators
           (StmtCtx (sv (recorded Sample.session Sample.t1)))
           (value handlePair) (mkFieldType TypeLonglong mysql.PriKeyFlag))
    = Some (ErrOther "cannot convert datum") /\
    tryPointGetPlan Sample.collaborators Sample.selectByOpaque Sample.session
    = Returned None (recorded Sample.session Sample.t1).
Proof.
  eexists; eexists; eexists.
  split; [vm_compute; reflexivity|].
  split; [vm_compute; reflexivity|].
  split; [vm_compute; discriminate|].
  split; vm_compute; reflexivity.
Qed.

(** ** Pairs and conjuncts *)

Lemma pairsOf_app : forall al a b,
  pairsOf al (a ++ b) =
  match pairsOf al a, pairsOf al b with
  | Some x, Some y => Some (x ++ y)
  | _, _ => None
  end.
Proof.
  intros al a b; induction a as [|c rest IH]; simpl.
  - destruct (pairsOf al b); reflexivity.
  - rewrite IH. destruct (pairOf al c); [|reflexivity].
    destruct (pairsOf al rest); [|reflexivity].
    destruct (pairsOf al b); reflexivity.
Qed.

(** [getNameValuePairs] appends the pairs of the conjuncts, in written
    order, or fails when a conjunct has none. *)
Lemma getNameValuePairsOf_conjuncts : forall al e acc,
  getNameValuePairsOf acc al e = option_map (app acc) (pairsOf al (conjuncts e)).
Proof.
  intros al e; induction e as [op l IHl r IHr| | | | | | |]; intro acc;
    try reflexivity.
  destruct op; try reflexivity.
  - simpl. rewrite IHl, pairsOf_app.
    destruct (pairsOf al (conjuncts l)) as [x|]; simpl; [|reflexivity].
    rewrite IHr. destruct (pairsOf al (conjuncts r)) as [y|]; simpl; [|reflexivity].
    now rewrite app_assoc.
  - simpl.
    destruct (match l with
              | ColumnNameExpr cn => Some (cn, valueSide r)
              | _ => match r with
                     | ColumnNameExpr cn => Some (cn, valueSide l)
                     | _ => None
                     end
              end) as [[cn [d prm]]|]; [|reflexivity].
    destruct (IsNull d); [reflexivity|].
    destruct (_ && _); reflexivity.
Qed.

Lemma pairsOf_perm : forall al cs cs',
  Permutation cs cs' ->
  match pairsOf al cs, pairsOf al cs' with
  | Some nvs, Some nvs' => Permutation nvs nvs'
  | None, None => True
  | _, _ => False
  end.
Proof.
  intros al cs cs' H; induction H as [|c l l' H IH|c d l|l l' l'' H1 IH1 H2 IH2]; simpl.
  - constructor.
  - destruct (pairOf al c); [|exact I].
    destruct (pairsOf al l), (pairsOf al l'); try assumption. now constructor.
  - destruct (pairOf al c), (pairOf al d), (pairsOf al l); try exact I. constructor.
  - destruct (pairsOf al l), (pairsOf al l'), (pairsOf al l''); try tauto.
    eapply Permutation_trans; eauto.
Qed.

(** ** Lookups are blind to the order of pairs with distinct names *)

Lemma lookup_perm : forall name nvs nvs',
  Permutation nvs nvs' -> NoDup (map colName nvs) ->
  lookup name nvs = lookup name nvs'.
Proof.
  intros name nvs nvs' H; unfold lookup.
  induction H as [|c l l' H IH|c d l|l l' l'' H1 IH1 H2 IH2]; intro Hnd; simpl.
  - reflexivity.
  - inversion Hnd; subst. now rewrite IH.
  - destruct (String.eqb_spec (colName d) name) as [Ed|], (String.eqb_spec (colName c) name)
      as [Ec|]; try reflexivity.
    inversion Hnd as [|? ? Hnotin _]; subst. exfalso; apply Hnotin.
    simpl. left. congruence.
  - rewrite IH1 by assumption. apply IH2.
    eapply Permutation_NoDup; [|exact Hnd]. now apply Permutation_map.
Qed.

Lemma findInPairs_perm : forall name nvs nvs',
  Permutation nvs nvs' -> NoDup (map colName nvs) ->
  (findInPairs name nvs =? -1) = (findInPairs name nvs' =? -1) /\
  ((findInPairs name nvs' =? -1) = false ->
   pairAt nvs (findInPairs name nvs) = pairAt nvs' (findInPairs name nvs')).
Proof.
  intros name nvs nvs' H Hnd.
  pose proof (findInPairs_lookup name nvs) as H1.
  pose proof (findInPairs_lookup name nvs') as H2.
  rewrite <- (lookup_perm name H Hnd) in H2.
  destruct (lookup name nvs) as [nv|].
  - destruct H1 as [N1 P1], H2 as [N2 P2]. split; [|congruence].
    destruct (Z.eqb_spec (findInPairs name nvs) (-1)),
             (Z.eqb_spec (findInPairs name nvs') (-1)); congruence.
  - rewrite H1, H2. split; [reflexivity|discriminate].
Qed.

Lemma findPKHandle_perm : forall tbl nvs nvs',
  Permutation nvs nvs' -> NoDup (map colName nvs) ->
  findPKHandle tbl nvs = findPKHandle tbl nvs'.
Proof.
  intros tbl nvs nvs' H Hnd. unfold findPKHandle.
  destruct (negb (PKIsHandle tbl)); [reflexivity|].
  induction (Columns tbl) as [|col rest IH]; simpl; [reflexivity|].
  destruct (mysql.HasPriKeyFlag _); [|assumption].
  destruct (findInPairs_perm (L (colName_ col)) H Hnd) as [-> Hp].
  destruct (_ =? _); [reflexivity|]. now rewrite Hp.
Qed.

Lemma getIndexValuesLoop_perm : forall nvs nvs',
  Permutation nvs nvs' -> NoDup (map colName nvs) ->
  forall cols vs ps,
  getIndexValuesLoop cols nvs vs ps = getIndexValuesLoop cols nvs' vs ps.
Proof.
  intros nvs nvs' H Hnd cols; induction cols as [|ic rest IH]; intros vs ps; simpl.
  - reflexivity.
  - destruct (findInPairs_perm (L (idxColName ic)) H Hnd) as [-> Hp].
    destruct (_ =? _); [reflexivity|]. rewrite Hp by reflexivity. apply IH.
Qed.

Lemma getIndexValues_perm : forall idxInfo nvs nvs',
  Permutation nvs nvs' -> NoDup (map colName nvs) ->
  getIndexValues idxInfo nvs = getIndexValues idxInfo nvs'.
Proof.
  intros idxInfo nvs nvs' H Hnd. unfold getIndexValues.
  rewrite (Permutation_length H), (getIndexValuesLoop_perm H Hnd). reflexivity.
Qed.

Lemma takesHandlePath_perm : forall tbl nvs nvs',
  Permutation nvs nvs' -> NoDup (map colName nvs) ->
  takesHandlePath tbl nvs = takesHandlePath tbl nvs'.
Proof.
  intros tbl nvs nvs' H Hnd. unfold takesHandlePath.
  now rewrite (findPKHandle_perm tbl H Hnd), (Permutation_length H).
Qed.

Lemma indexPlan_perm : forall nvs nvs' indices tblName tbl tblAlias db fields ctx,
  Permutation nvs nvs' -> NoDup (map colName nvs) ->
  indexPlan indices nvs tblName tbl tblAlias db fields ctx
  = indexPlan indices nvs' tblName tbl tblAlias db fields ctx.
Proof.
  intros nvs nvs' indices tblName tbl tblAlias db fields ctx H Hnd.
  induction indices as [|idxInfo rest IH]; simpl; [reflexivity|].
  destruct (negb (Unique idxInfo)); [assumption|].
  destruct (negb (isPublic (idxState idxInfo))); [assumption|].
  rewrite (getIndexValues_perm idxInfo H Hnd).
  destruct (getIndexValues idxInfo nvs'); [reflexivity|assumption].
Qed.

Lemma accessPath_perm : forall X s s' tblName tblAlias tbl nvs nvs' ctx,
  Fields s' = Fields s ->
  Permutation nvs nvs' -> NoDup (map colName nvs) ->
  accessPath X s' tblName tblAlias tbl nvs' ctx
  = accessPath X s tblName tblAlias tbl nvs ctx.
Proof.
  intros X s s' tblName tblAlias tbl nvs nvs' ctx Hf H Hnd. unfold accessPath.
  rewrite Hf, <- (takesHandlePath_perm tbl H Hnd), <- (findPKHandle_perm tbl H Hnd),
    <- (indexPlan_perm _ _ _ _ _ _ _ H Hnd).
  reflexivity.
Qed.

(** ** C4: unique indices *)

Lemma lookup_of_name : forall name nvs,
  In name (map colName nvs) -> exists nv, lookup name nvs = Some nv.
Proof.
  intros name nvs Hin. unfold lookup.
  destruct (find _ nvs) as [nv|] eqn:E; [eexists; reflexivity|].
  apply in_map_iff in Hin. destruct Hin as (nv & Hn & Hin).
  pose proof (find_none _ _ E _ Hin) as Hf. simpl in Hf.
  rewrite Hn, String.eqb_refl in Hf. discriminate.
Qed.

(** When every column of the index has a pair, the loop of
    [getIndexValues] collects the value of the first pair of each column,
    in the order of the index. *)
Lemma getIndexValuesLoop_covered : forall nvs cols vs ps,
  (forall ic, In ic cols -> In (L (idxColName ic)) (map colName nvs)) ->
  exists vs' ps',
    getIndexValuesLoop cols nvs vs ps = Some (vs ++ vs', ps ++ ps') /\
    Forall2 (fun ic v => exists nv, In nv nvs /\ colName nv = L (idxColName ic)
                                    /\ value nv = v) cols vs'.
Proof.
  intros nvs cols; induction cols as [|ic rest IH]; intros vs ps Hc; simpl.
  - exists [], []. rewrite !app_nil_r. split; [reflexivity|constructor].
  - destruct (lookup_of_name _ _ (Hc ic (or_introl eq_refl))) as [nv Hl].
    pose proof (findInPairs_lookup (L (idxColName ic)) nvs) as Hf. rewrite Hl in Hf.
    destruct Hf as [Hne Hp].
    destruct (Z.eqb_spec (findInPairs (L (idxColName ic)) nvs) (-1)); [contradiction|].
    destruct (IH (vs ++ [value (pairAt nvs (findInPairs (L (idxColName ic)) nvs))])
                 (ps ++ [param (pairAt nvs (findInPairs (L (idxColName ic)) nvs))])
                 (fun ic' H' => Hc ic' (or_intror H')))
      as (vs' & ps' & Hloop & Hall).
    rewrite Hp in *.
    exists (value nv :: vs'), (param nv :: ps'). rewrite Hloop, <- !app_assoc. simpl.
    split; [reflexivity|]. constructor; [|assumption].
    exists nv. destruct (lookup_In _ _ Hl). auto.
Qed.

Lemma getIndexValues_covered : forall idxInfo nvs,
  HasPrefixIndex idxInfo = false -> nvs <> [] ->
  Permutation (map colName nvs) (indexColumnNames idxInfo) ->
  exists vs ps,
    getIndexValues idxInfo nvs = Some (vs, ps) /\
    Forall2 (fun ic v => exists nv, In nv nvs /\ colName nv = L (idxColName ic)
                                    /\ value nv = v) (idxColumns idxInfo) vs.
Proof.
  intros idxInfo nvs Hpre Hne Hperm. unfold getIndexValues.
  pose proof (Permutation_length Hperm) as Hlen.
  unfold indexColumnNames in *. rewrite !length_map in Hlen.
  rewrite <- Hlen, Nat.eqb_refl, Hpre. simpl.
  destruct (@getIndexValuesLoop_covered nvs (idxColumns idxInfo) [] []) as (vs & ps & Hl & Hall).
  { intros ic Hin. eapply Permutation_in; [apply Permutation_sym; exact Hperm|].
    apply in_map_iff. exists ic. auto. }
  rewrite Hl. simpl.
  pose proof (Forall2_length Hall) as Hvl.
  destruct vs as [|v vs].
  - exfalso. apply Hne. apply length_zero_iff_nil. rewrite Hlen, Hvl. reflexivity.
  - simpl. exists (v :: vs), ps. auto.
Qed.

Lemma indexPlan_skip : forall before rest nvs tblName tbl tblAlias db fields ctx,
  Forall (fun idx => Unique idx = true -> isPublic (idxState idx) = true ->
                     getIndexValues idx nvs = None) before ->
  indexPlan (before ++ rest) nvs tblName tbl tblAlias db fields ctx
  = indexPlan rest nvs tblName tbl tblAlias db fields ctx.
Proof.
  intros before rest nvs tblName tbl tblAlias db fields ctx H.
  induction H as [|idx before Hidx _ IH]; simpl; [reflexivity|].
  destruct (Unique idx); simpl; [|assumption].
  destruct (isPublic (idxState idx)); simpl; [|assumption].
  now rewrite Hidx.
Qed.

Lemma pairsOf_length : forall al cs nvs,
  pairsOf al cs = Some nvs -> length nvs = length cs.
Proof.
  intros al cs; induction cs as [|c rest IH]; intros nvs H; simpl in H.
  - inversion H; reflexivity.
  - destruct (pairOf al c); [|discriminate].
    destruct (pairsOf al rest); [|discriminate].
    inversion H; subst. simpl. now rewrite (IH _ eq_refl).
Qed.

Lemma conjuncts_nonempty : forall e, conjuncts e <> [].
Proof.
  induction e as [op l IHl r IHr| | | | | | |]; try discriminate.
  destruct op; try discriminate. simpl.
  intro H. apply app_eq_nil in H. destruct H. contradiction.
Qed.

Lemma getNameValuePairs_pairsOf : forall al w nvs,
  getNameValuePairs [] al w = Some nvs ->
  exists e, w = Some e /\ pairsOf al (conjuncts e) = Some nvs /\ nvs <> [].
Proof.
  intros al [e|] nvs H; [|discriminate]. simpl in H.
  rewrite getNameValuePairsOf_conjuncts in H.
  destruct (pairsOf al (conjuncts e)) as [x|] eqn:E; [|discriminate].
  simpl in H. inversion H; subst. exists e.
  split; [reflexivity|]. split; [assumption|].
  intro Hx. subst. apply pairsOf_length in E. simpl in E.
  symmetry in E. apply length_zero_iff_nil in E. now apply conjuncts_nonempty in E.
Qed.

Lemma preamble_withWhere : forall X s selStmt w tblName tblAlias tbl nvs,
  preamble X s selStmt = Some (tblName, tblAlias, tbl, nvs) ->
  preamble X s (withWhere selStmt w) =
  match getNameValuePairs [] tblAlias w with
  | Some nvs' => Some (tblName, tblAlias, tbl, nvs')
  | None => None
  end.
Proof.
  intros X s selStmt w tblName tblAlias tbl nvs H. unfold preamble in *. simpl.
  destruct (isSome (Having selStmt)); [discriminate|].
  destruct (limitRejects X s (stmtLimit selStmt)); [discriminate|].
  destruct (getSingleTableNameAndAlias (From selStmt)) as [[tn|] al]; [|discriminate].
  destruct (tnTableInfo tn) as [t|]; [|discriminate].
  destruct (isSome (GetPartitionInfo t)); [discriminate|].
  destruct (existsb columnBars (Columns t)); [discriminate|].
  destruct (getNameValuePairs [] al (Where selStmt)); [|discriminate].
  inversion H; subst. reflexivity.
Qed.

(** C4, as amended.  Take a statement that passes the preliminary tests,
    whose pairs are not a single primary-key handle and whose field list
    resolves, and a unique, public, non-prefix index of the table whose
    distinct column names are exactly the column names of the pairs, such
    that no unique public index declared before it is covered by the
    pairs.  Then [tryPointGetPlan] returns the point-get plan keyed by
    that index, its [IndexValues] holding, for each column of the index in
    declared order, the value of the pair of that column; and the result
    is the same for every WHERE clause with the same conjuncts in another
    order. *)
Theorem C4_unique_index_match :
  forall X selStmt ctx tblName tblAlias tbl pairs sch before idxInfo after,
  preamble X (sv ctx) selStmt = Some (tblName, tblAlias, tbl, pairs) ->
  takesHandlePath tbl pairs = false ->
  buildSchemaFromFields (sv ctx) (tnSchema tblName) tbl tblAlias (Fields selStmt)
    = Some sch ->
  Indices tbl = before ++ idxInfo :: after ->
  Unique idxInfo = true ->
  isPublic (idxState idxInfo) = true ->
  HasPrefixIndex idxInfo = false ->
  Forall (fun idx => Unique idx = true -> isPublic (idxState idx) = true ->
                     getIndexValues idx pairs = None) before ->
  Permutation (map colName pairs) (indexColumnNames idxInfo) ->
  NoDup (indexColumnNames idxInfo) ->
  (exists p,
     tryPointGetPlan X selStmt ctx = Returned (Some p) (recorded ctx tbl) /\
     IndexInfo_ p = Some idxInfo /\ IsTableDual p = false /\ schema p = sch /\
     Forall2 (fun ic v => exists nv, In nv pairs /\ colName nv = L (idxColName ic)
                                     /\ value nv = v)
             (idxColumns idxInfo) (IndexValues p)) /\
  (forall w w',
     Where selStmt = Some w ->
     Permutation (conjuncts w) (conjuncts w') ->
     tryPointGetPlan X (withWhere selStmt (Some w')) ctx = tryPointGetPlan X selStmt ctx).
Proof.
  intros X selStmt ctx tblName tblAlias tbl pairs sch before idxInfo after
         Hp Hh Hs Hidx Hu Hpub Hpre Hbefore Hperm Hnd.
  destruct (preamble_table _ _ _ Hp) as (_ & _ & Hg & _).
  destruct (getNameValuePairs_pairsOf _ _ Hg) as (e & He & Hpairs & Hne).
  split.
  - destruct (getIndexValues_covered idxInfo Hpre Hne Hperm) as (vs & ps & Hv & Hall).
    rewrite tryPointGetPlan_unfold, Hp. unfold accessPath.
    rewrite Hh, Hidx, indexPlan_skip by assumption. simpl.
    rewrite Hu, Hpub, Hv. simpl. unfold bind, getCtx, newPointGetPlan, ret.
    fold (sv ctx). rewrite Hs. fold (recorded ctx tbl).
    eexists. split; [reflexivity|]. simpl. repeat split. exact Hall.
  - intros w w' Hw Hcw. rewrite Hw in He. inversion He; subst e.
    assert (Hnd' : NoDup (map colName pairs)).
    { eapply Permutation_NoDup; [apply Permutation_sym; exact Hperm | exact Hnd]. }
    pose proof (pairsOf_perm tblAlias Hcw) as Hpp. rewrite Hpairs in Hpp.
    destruct (pairsOf tblAlias (conjuncts w')) as [pairs'|] eqn:E'; [|contradiction].
    rewrite !tryPointGetPlan_unfold.
    rewrite (@preamble_withWhere X (sv ctx) selStmt (Some w') _ _ _ _ Hp), Hp.
    simpl. rewrite getNameValuePairsOf_conjuncts, E'. simpl.
    apply accessPath_perm; [reflexivity | assumption | assumption].
Qed.

Lemma C4_unique_index_match_witness :
  (exists p,
     tryPointGetPlan Sample.collaborators Sample.selectBA Sample.session
     = Returned (Some p) (recorded Sample.session Sample.tu) /\
     IndexInfo_ p = Some Sample.ab /\
     IndexValues p = [mkDatum KindInt64 6 ""; mkDatum KindInt64 5 ""]) /\
  tryPointGetPlan Sample.collaborators (withWhere Sample.selectBA (Some Sample.whereAB))
                  Sample.session
  = tryPointGetPlan Sample.collaborators Sample.selectBA Sample.session.
Proof.
  edestruct (@C4_unique_index_match Sample.collaborators Sample.selectBA Sample.session)
    with (before := @nil IndexInfo) (idxInfo := Sample.ab) (after := [Sample.ba; Sample.uc])
    as [(p & Hp & Hi & _ & _ & _) Hperm];
    [ vm_compute; reflexivity | vm_compute; reflexivity | vm_compute; reflexivity
    | reflexivity | reflexivity | reflexivity | reflexivity | constructor
    | vm_compute; apply perm_swap
    | vm_compute; repeat constructor; simpl; intuition discriminate | ].
  split.
  - exists p. split; [exact Hp|]. split; [exact Hi|].
    vm_compute in Hp. inversion Hp; subst p. reflexivity.
  - apply (Hperm Sample.whereBA Sample.whereAB eq_refl). simpl. apply perm_swap.
Defined.

(** Table [tu] has the unique indices [ab] on (a, b) and [ba] on (b, a).
    For [a = 6 and b = 5], a conjunction of two equalities on exactly the
    columns of [ba], the plan is keyed by [ab] with the values in the
    order of [ab], not by [ba] with the values in the order of [ba]. *)
Lemma C4_counterexample :
  In Sample.ba (Indices Sample.tu) /\
  Unique Sample.ba = true /\ isPublic (idxState Sample.ba) = true /\
  HasPrefixIndex Sample.ba = false /\
  indexColumnNames Sample.ba = ["b"; "a"] /\
  exists p ctx',
    tryPointGetPlan Sample.collaborators Sample.selectAB Sample.session
    = Returned (Some p) ctx' /\
    IndexInfo_ p = Some Sample.ab /\ IndexInfo_ p <> Some Sample.ba /\
    IndexValues p = [mkDatum KindInt64 6 ""; mkDatum KindInt64 5 ""] /\
    IndexValues p <> [mkDatum KindInt64 5 ""; mkDatum KindInt64 6 ""].
Proof.
  split; [simpl; auto|]. repeat (split; [reflexivity|]).
  eexists; eexists. split; [vm_compute; reflexivity|].
  repeat split; try reflexivity; simpl; discriminate.
Qed.

(** ** C7: mutation plans *)

Lemma appendTableColumns_from : forall db tbl al columns,
  appendTableColumns db tbl al columns
  = columns ++ columnsFrom (length columns) db (tblName_ tbl) al (Columns tbl).
Proof.
  intros db tbl al. unfold appendTableColumns.
  induction (Columns tbl) as [|col rest IH]; intro columns; simpl.
  - now rewrite app_nil_r.
  - rewrite IH, <- app_assoc, length_app. simpl.
    now rewrite Nat.add_1_r.
Qed.

Lemma columnsFrom_nth : forall db o al cols n m,
  nth_error (columnsFrom n db o al cols) m
  = option_map (fun col => colInfoToColumn db o al (colName_ col) col (Z.of_nat (n + m)))
               (nth_error cols m).
Proof.
  intros db o al cols; induction cols as [|col rest IH]; intros n m; simpl.
  - destruct m; reflexivity.
  - destruct m as [|m]; simpl.
    + now rewrite Nat.add_0_r.
    + rewrite IH. now rewrite Nat.add_succ_r.
Qed.

Lemma columnsFrom_length : forall db o al cols n,
  length (columnsFrom n db o al cols) = length cols.
Proof.
  intros db o al cols; induction cols as [|col rest IH]; intro n; simpl; auto.
Qed.

(** The loop of [findHandleCol] over a schema that has a column for each
    column of the table: it never indexes out of range, and it ends on the
    schema column of the last primary-key column, if there is one. *)
Lemma findHandleColLoop_ok : forall sch cols n acc,
  (forall m col, nth_error cols m = Some col ->
                 exists c, nth_error sch (n + m) = Some c) ->
  exists r, findHandleColLoop cols n sch acc = Some r /\
    ((existsb isPriKey cols = false /\ r = acc) \/
     (existsb isPriKey cols = true /\
      exists m col c, nth_error cols m = Some col /\ isPriKey col = true /\
                      nth_error sch (n + m) = Some c /\ r = Some c)).
Proof.
  intros sch cols; induction cols as [|col rest IH]; intros n acc Hs; simpl.
  - exists acc. split; [reflexivity|]. left; auto.
  - assert (Hs' : forall m col0, nth_error rest m = Some col0 ->
                   exists c, nth_error sch (S n + m) = Some c).
    { intros m col0 Hm. destruct (Hs (S m) col0 Hm) as [c Hc].
      exists c. now rewrite Nat.add_succ_r in Hc. }
    fold (isPriKey col). destruct (isPriKey col) eqn:Ek; simpl.
    + destruct (Hs 0%nat col eq_refl) as [c Hc]. rewrite Nat.add_0_r in Hc.
      rewrite Hc.
      destruct (IH (S n) (Some c) Hs') as (r & Hr & [[Hno ->]|[Hyes (m & col0 & c0 & ? & ? & ? & ->)]]).
      * exists (Some c). split; [assumption|]. right. split; [reflexivity|].
        exists 0%nat, col, c. rewrite Nat.add_0_r. auto.
      * exists (Some c0). split; [assumption|]. right. split; [reflexivity|].
        exists (S m), col0, c0. rewrite Nat.add_succ_r. auto.
    + destruct (IH (S n) acc Hs') as (r & Hr & [[Hno ->]|[Hyes (m & col0 & c0 & ? & ? & ? & ->)]]).
      * exists acc. split; [assumption|]. left; auto.
      * exists (Some c0). split; [assumption|]. right. split; [assumption|].
        exists (S m), col0, c0. rewrite Nat.add_succ_r. auto.
Qed.

Lemma buildOrderedList_schema : forall X s p q assigns acc,
  schema p = schema q ->
  buildOrderedList X s p assigns acc = buildOrderedList X s q assigns acc.
Proof.
  intros X s p q assigns; induction assigns as [|a rest IH]; intros acc H; simpl.
  - reflexivity.
  - rewrite H. destruct (FindColumn X (schema q) (asgColumn a)) as [[col|] [e|]];
      try reflexivity.
    destruct (RewriteSimpleExprWithSchema X s (asgExpr a) (schema q)) as [ex [e|]];
      try reflexivity.
    destruct (ResolveIndices X _ (schema q)) as [r [e|]]; try reflexivity.
    now apply IH.
Qed.

(** [findHandleCol] on a plan whose schema lists the columns of its
    table: no panic, and the handle column is where its [Index] says. *)
Lemma findHandleCol_wraps : forall q db o al ctx,
  schema q = columnsFrom 0 db o al (Columns (TblInfo q)) ->
  Columns (TblInfo q) <> [] ->
  exists handleCol sel,
    findHandleCol q ctx = Returned (handleCol, sel) ctx /\
    nth_error (schema sel) (Z.to_nat (Index handleCol)) = Some handleCol /\
    0 <= Index handleCol /\
    if hasHandleColumn (TblInfo q)
    then sel = q /\
         exists col, nth_error (Columns (TblInfo q)) (Z.to_nat (Index handleCol)) = Some col /\
                     isPriKey col = true /\ ID handleCol = colID col
    else sel = withSchema q (schema q ++ [handleCol]) /\
         ColName handleCol = ExtraHandleName /\ ID handleCol = ExtraHandleID.
Proof.
  intros q db o al ctx Hsch Hne.
  assert (Hsynth : hasHandleColumn (TblInfo q) = false ->
    exists handleCol sel,
      (match schema q with
       | [] => panic
       | oneCol :: _ =>
         let handleCol :=
           colInfoToColumn (DBName oneCol) (OrigTblName oneCol) (TblName oneCol)
                           ExtraHandleName NewExtraHandleColInfo (Len (schema q)) in
         ret (handleCol, withSchema q (schema q ++ [handleCol]))
       end) ctx = Returned (handleCol, sel) ctx /\
      nth_error (schema sel) (Z.to_nat (Index handleCol)) = Some handleCol /\
      0 <= Index handleCol /\
      if hasHandleColumn (TblInfo q)
      then sel = q /\
           exists col, nth_error (Columns (TblInfo q)) (Z.to_nat (Index handleCol)) = Some col /\
                       isPriKey col = true /\ ID handleCol = colID col
      else sel = withSchema q (schema q ++ [handleCol]) /\
           ColName handleCol = ExtraHandleName /\ ID handleCol = ExtraHandleID).
  { intro Hno. rewrite Hno.
    destruct (schema q) as [|oneCol others] eqn:Es.
    - exfalso. destruct (Columns (TblInfo q)); [now apply Hne|discriminate].
    - rewrite <- Es. eexists; eexists. split; [reflexivity|].
      cbn [schema withSchema Index colInfoToColumn ColName ID NewExtraHandleColInfo colID].
      unfold Len. rewrite Nat2Z.id. split; [|split; [lia|auto]].
      rewrite nth_error_app2 by lia. now rewrite Nat.sub_diag. }
  unfold findHandleCol. unfold hasHandleColumn in *.
  destruct (PKIsHandle (TblInfo q)); simpl in *; [|now apply Hsynth].
  destruct (@findHandleColLoop_ok (schema q) (Columns (TblInfo q)) 0 None)
    as (r & Hr & [[Hno ->]|[Hyes (m & col & c & Hm & Hk & Hc & ->)]]).
  { intros m col Hm. simpl. rewrite Hsch, columnsFrom_nth, Hm. simpl.
    eexists; reflexivity. }
  - rewrite Hr. now apply Hsynth.
  - rewrite Hr, Hyes. simpl in Hc.
    pose proof Hc as Hc'. rewrite Hsch, columnsFrom_nth, Hm in Hc'. simpl in Hc'.
    injection Hc' as Hcdef.
    exists c, q. split; [reflexivity|].
    assert (Hi : Index c = Z.of_nat m) by (rewrite <- Hcdef; reflexivity).
    rewrite Hi, Nat2Z.id. split; [assumption|]. split; [lia|]. split; [reflexivity|].
    exists col. repeat split; try assumption. rewrite <- Hcdef. reflexivity.
Qed.

(** A lookup for a mutation projects every column of the table. *)
Lemma tryPointGetPlan_mutation_schema : forall X refs w order limit ctx fs c1,
  tryPointGetPlan X (selectOfMutation refs w order limit) ctx = Returned (Some fs) c1 ->
  Lock fs = false /\
  exists db al, schema fs = columnsFrom 0 db (tblName_ (TblInfo fs)) al (Columns (TblInfo fs)).
Proof.
  intros X refs w order limit ctx fs c1 H.
  destruct (tryPointGetPlan_some _ _ _ H)
    as (tn & al & tbl & pairs & _ & _ & Hs & Ht & _ & Hl & _).
  split; [assumption|]. simpl in Hs. unfold buildSchemaFromFields in Hs.
  inversion Hs as [Hs']. rewrite appendTableColumns_from. simpl. subst tbl.
  eexists; eexists; reflexivity.
Qed.

Lemma withLock_unlocked : forall fs (pess : bool),
  Lock fs = false ->
  (if pess then withLock fs true (IsForUpdate fs) else fs)
  = withLock fs pess (IsForUpdate fs).
Proof.
  intros fs pess H. destruct pess; [reflexivity|].
  destruct fs; simpl in *. subst. reflexivity.
Qed.

Lemma withSchema_same : forall q, q = withSchema q (schema q).
Proof. intro q; destruct q; reflexivity. Qed.

(** The wrapper data source after the lock flag is set and the handle
    column found. *)
Lemma mutation_source : forall (pess : bool) fs db al ctx,
  Lock fs = false -> IsTableDual fs = false ->
  schema fs = columnsFrom 0 db (tblName_ (TblInfo fs)) al (Columns (TblInfo fs)) ->
  Columns (TblInfo fs) <> [] ->
  exists handleCol sel,
    findHandleCol (if pess then withLock fs true (IsForUpdate fs) else fs) ctx
    = Returned (handleCol, sel) ctx /\
    TblInfo sel = TblInfo fs /\
    wrapsLookup pess fs sel (Index handleCol).
Proof.
  intros pess fs db al ctx Hl Hd Hs Hne.
  set (q := if pess then withLock fs true (IsForUpdate fs) else fs).
  assert (Hq : schema q = schema fs /\ TblInfo q = TblInfo fs /\ Lock q = pess /\
               IsForUpdate q = IsForUpdate fs /\ pDBName q = pDBName fs /\
               IndexInfo_ q = IndexInfo_ fs /\ IndexValues q = IndexValues fs /\
               Handle q = Handle fs /\ UnsignedHandle q = UnsignedHandle fs /\
               IsTableDual q = false).
  { unfold q. destruct pess; simpl; repeat split; auto. }
  destruct Hq as (Hqs & Hqt & Hql & Hqf & Hqd & Hqi & Hqv & Hqh & Hqu & Hqe).
  destruct (@findHandleCol_wraps q db (tblName_ (TblInfo fs)) al ctx)
    as (handleCol & sel & Hf & Hn & Hpos & Hcase).
  { now rewrite Hqs, Hqt. }
  { now rewrite Hqt. }
  exists handleCol, sel. split; [exact Hf|].
  rewrite Hqt in Hcase. unfold wrapsLookup.
  pose proof (withLock_unlocked fs pess Hl) as Heta. fold q in Heta.
  destruct (hasHandleColumn (TblInfo fs)).
  - destruct Hcase as [-> Hcol].
    split; [assumption|]. split; [rewrite <- Heta; apply withSchema_same|].
    repeat (split; [assumption|]).
    exists handleCol. split; [exact Hn|]. split; [reflexivity|]. split; [assumption|].
    split; assumption.
  - destruct Hcase as [-> [Hname Hid]]. simpl.
    split; [assumption|]. split; [rewrite <- Heta; reflexivity|].
    repeat (split; [assumption|]).
    exists handleCol. split; [exact Hn|]. split; [reflexivity|]. split; [assumption|].
    rewrite Hqs. auto.
Qed.

(** C7, as amended.  When the lookup of a single-table UPDATE or DELETE
    yields a point-get plan that is not an empty result, the privileges
    are granted and (for UPDATE) the assignments resolve, the statement
    gets a mutation plan whose data source is that plan with its [Lock]
    flag equal to the pessimistic flag of the transaction and its other
    fields but the schema unchanged, and whose position descriptor spans
    the schema and records the ordinal of the handle column: the column
    of the primary key when the table has a primary-key handle column,
    and otherwise the hidden row-identity column appended to the schema.
    The table has at least one column. *)
Theorem C7_mutation_plans : forall X ctx fs c1 c2,
  IsTableDual fs = false ->
  Columns (TblInfo fs) <> [] ->
  (forall x ol,
     tryPointGetPlan X (lookupOf (NUpdate x)) ctx = Returned (Some fs) c1 ->
     checkFastPlanPrivilege fs [mysql.SelectPriv; mysql.UpdatePriv] c1 = Returned None c2 ->
     buildOrderedList X (sv c2) fs (updList x) [] = Some ol ->
     exists sel ord,
       tryUpdatePointPlan X x ctx =
       Returned (Some (PlanUpdate
                   (mkUpdate sel ol
                      [mkTblColPosInfo (tblID (TblInfo fs)) 0 (Len (schema sel)) ord])))
                c2 /\
       wrapsLookup (TxnCtxIsPessimistic (sv ctx)) fs sel ord) /\
  (forall x,
     IsMultiTable x = false ->
     tryPointGetPlan X (lookupOf (NDelete x)) ctx = Returned (Some fs) c1 ->
     checkFastPlanPrivilege fs [mysql.SelectPriv; mysql.DeletePriv] c1 = Returned None c2 ->
     exists sel ord,
       tryDeletePointPlan X x ctx =
       Returned (Some (PlanDelete
                   (mkDelete sel
                      [mkTblColPosInfo (tblID (TblInfo fs)) 0 (Len (schema sel)) ord])))
                c2 /\
       wrapsLookup (TxnCtxIsPessimistic (sv ctx)) fs sel ord).
Proof.
  intros X ctx fs c1 c2 Hd Hne. split.
  - intros x ol H1 H2 Ho. simpl in H1.
    destruct (tryPointGetPlan_mutation_schema _ _ _ _ _ _ H1) as (Hl & db & al & Hs).
    pose proof (frame_trans (@framed_tryPointGetPlan X _ _ _ _ H1)
                            (@framed_checkFastPlanPrivilege _ _ _ _ _ H2)) as F.
    destruct (@mutation_source (TxnCtxIsPessimistic (sv ctx)) fs db al c2 Hl Hd Hs Hne)
      as (handleCol & sel & Hf & Ht & Hw).
    exists sel, (Index handleCol). split; [|exact Hw].
    unfold tryUpdatePointPlan, bind. rewrite H1, H2. simpl. rewrite Hd.
    unfold getCtx. fold (sv c2). rewrite (frame_pessimistic F).
    rewrite (@buildOrderedList_schema X (sv c2) _ fs) by (destruct (TxnCtxIsPessimistic _); reflexivity).
    rewrite Ho, Hf, Ht. reflexivity.
  - intros x Hm H1 H2. simpl in H1.
    destruct (tryPointGetPlan_mutation_schema _ _ _ _ _ _ H1) as (Hl & db & al & Hs).
    pose proof (frame_trans (@framed_tryPointGetPlan X _ _ _ _ H1)
                            (@framed_checkFastPlanPrivilege _ _ _ _ _ H2)) as F.
    destruct (@mutation_source (TxnCtxIsPessimistic (sv ctx)) fs db al c2 Hl Hd Hs Hne)
      as (handleCol & sel & Hf & Ht & Hw).
    exists sel, (Index handleCol). split; [|exact Hw].
    unfold tryDeletePointPlan, bind. rewrite Hm, H1, H2. simpl. rewrite Hd.
    unfold getCtx. fold (sv c2). rewrite (frame_pessimistic F).
    rewrite Hf, Ht. reflexivity.
Qed.

Lemma C7_mutation_plans_witness :
  (exists sel ol ord c,
     tryUpdatePointPlan Sample.collaborators Sample.updateByC Sample.sessionPessimistic
     = Returned (Some (PlanUpdate
                   (mkUpdate sel ol [mkTblColPosInfo 42 0 (Len (schema sel)) ord]))) c /\
     Lock sel = true /\ 0 <= ord) /\
  (exists sel ord c,
     tryDeletePointPlan Sample.collaborators Sample.deleteById Sample.session
     = Returned (Some (PlanDelete
                   (mkDelete sel [mkTblColPosInfo 41 0 (Len (schema sel)) ord]))) c /\
     Lock sel = false /\ 0 <= ord).
Proof.
  split.
  - edestruct (@C7_mutation_plans Sample.collaborators Sample.sessionPessimistic)
      as [HU _].
    3: { edestruct (HU Sample.updateByC)
           as (sel & ord & Hplan & _ & Hl & _ & _ & _ & _ & _ & _ & _ & _ & hc & _ & _ & Hpos & _);
           [vm_compute; reflexivity | vm_compute; reflexivity | vm_compute; reflexivity |].
         exists sel. eexists. exists ord. eexists.
         split; [exact Hplan|]. split; [exact Hl | exact Hpos]. }
    + reflexivity.
    + discriminate.
  - edestruct (@C7_mutation_plans Sample.collaborators Sample.session) as [_ HD].
    3: { edestruct (HD Sample.deleteById)
           as (sel & ord & Hplan & _ & Hl & _ & _ & _ & _ & _ & _ & _ & _ & hc & _ & _ & Hpos & _);
           [reflexivity | vm_compute; reflexivity | vm_compute; reflexivity |].
         exists sel, ord. eexists.
         split; [exact Hplan|]. split; [exact Hl | exact Hpos]. }
    + reflexivity.
    + discriminate.
Defined.

(** A WHERE clause that qualifies does not always end in a mutation plan:
    [update t1 set c3 = 7 where id = 9223372036854775808] has a lookup
    plan, the empty result, and gets a bare table-dual plan;
    [update t1 set nosuch = 7 where id = 5] has a lookup plan and gets
    nothing, its assignment naming no column; and [update t1 set c3 = 7
    where id = 5] gets nothing from a manager that denies. *)
Lemma C7_counterexample :
  ((exists fp c,
      tryPointGetPlan Sample.collaborators (lookupOf (NUpdate Sample.updateByTooBig))
                      Sample.session = Returned (Some fp) c) /\
   (exists c,
      TryFastPlan Sample.collaborators 2 (NUpdate Sample.updateByTooBig) Sample.session
      = Returned (Some (PlanTableDual None)) c) /\
   (forall u c,
      TryFastPlan Sample.collaborators 2 (NUpdate Sample.updateByTooBig) Sample.session
      <> Returned (Some (PlanUpdate u)) c)) /\
  ((exists fp c,
      tryPointGetPlan Sample.collaborators (lookupOf (NUpdate Sample.updateNoSuchColumn))
                      Sample.session = Returned (Some fp) c) /\
   (exists c,
      TryFastPlan Sample.collaborators 2 (NUpdate Sample.updateNoSuchColumn)
                  Sample.session = Returned None c)) /\
  ((exists fp c,
      tryPointGetPlan Sample.collaborators (lookupOf (NUpdate Sample.updateById))
                      Sample.sessionDenied = Returned (Some fp) c) /\
   (exists c,
      TryFastPlan Sample.collaborators 2 (NUpdate Sample.updateById)
                  Sample.sessionDenied = Returned None c)).
Proof.
  split; [|split].
  - split; [eexists; eexists; vm_compute; reflexivity|].
    split; [eexists; vm_compute; reflexivity|].
    intros u c H. vm_compute in H. discriminate H.
  - split; [eexists; eexists; vm_compute; reflexivity|].
    eexists; vm_compute; reflexivity.
  - split; [eexists; eexists; vm_compute; reflexivity|].
    eexists; vm_compute; reflexivity.
Qed.

(** ** C10: what planning writes in the session *)

Section SessionWrites.

Variable X : Externals.

Lemma requestVerifications_vars : forall pm table kinds ctx e ctx',
  requestVerifications pm table kinds ctx = Returned e ctx' ->
  GetSessionVars ctx' = GetSessionVars ctx.
Proof.
  intros pm table kinds; induction kinds as [|kd rest IH]; intros ctx e ctx' H;
    simpl in H.
  - now inversion H.
  - destruct (pm _).
    + now rewrite (IH _ _ _ H).
    + now inversion H.
Qed.

Lemma checkFastPlanPrivilege_vars : forall fp kinds ctx e ctx',
  checkFastPlanPrivilege fp kinds ctx = Returned e ctx' ->
  GetSessionVars ctx' = GetSessionVars ctx.
Proof.
  intros fp kinds ctx e ctx' H. unfold checkFastPlanPrivilege in H.
  destruct (GetPrivilegeManager ctx).
  - eapply requestVerifications_vars; eauto.
  - now inversion H.
Qed.

Lemma listsTable_vars : forall node c c',
  GetSessionVars c' = GetSessionVars c -> listsTable node c -> listsTable node c'.
Proof.
  intros node c c' H (tbl & Ht & Hl). exists tbl. unfold sv in *. now rewrite H.
Qed.

Lemma listsTable_tables : forall node c c',
  Tables (StmtCtx (sv c')) = Tables (StmtCtx (sv c)) ->
  listsTable node c -> listsTable node c'.
Proof.
  intros node c c' H (tbl & Ht & Hl). exists tbl. now rewrite H.
Qed.

Lemma listsTable_recorded : forall node ctx tbl,
  targetTable node = Some tbl -> listsTable node (recorded ctx tbl).
Proof. intros node ctx tbl H. exists tbl. split; [assumption|reflexivity]. Qed.

Lemma writesTable_refl : forall A node c, @writesTable A node c None c.
Proof. intros A node c. split; [now left|]. intro H; now contradiction H. Qed.

Lemma writesTable_lists : forall A node c (r : option A) c',
  listsTable node c' -> writesTable node c r c'.
Proof. intros A node c r c' H. split; [now right|]. now intros _. Qed.

Lemma writesTable_weaken : forall A B node c (r : option A) (r' : option B) c',
  writesTable node c r c' -> (r' <> None -> r <> None) -> writesTable node c r' c'.
Proof.
  intros A B node c r r' c' [H1 H2] Hr. split; [assumption|]. intro Hn. auto.
Qed.

(** Two steps in a row. *)
Lemma writesTable_then : forall A B node c (r1 : option A) c1 (r2 : option B) c2,
  writesTable node c r1 c1 -> writesTable node c1 r2 c2 ->
  (r2 <> None -> r1 <> None) ->
  writesTable node c r2 c2.
Proof.
  intros A B node c r1 c1 r2 c2 [H1 H1'] [H2 H2'] Hr. split.
  - destruct H2 as [H2|H2]; [|now right].
    destruct H1 as [H1|H1]; [left; congruence|].
    right. eapply listsTable_tables; eauto.
  - intro Hn. destruct H2 as [H2|H2]; [|assumption].
    eapply listsTable_tables; [exact H2|]. apply H1'. now apply Hr.
Qed.

Lemma tryPointGetPlan_tables : forall node ctx r c',
  tryPointGetPlan X (lookupOf node) ctx = Returned r c' ->
  writesTable node ctx r c'.
Proof.
  intros node ctx r c' H. rewrite tryPointGetPlan_unfold in H.
  destruct (preamble X (sv ctx) (lookupOf node)) as [[[[tn al] tbl] pairs]|] eqn:Ep.
  - destruct (preamble_table _ _ _ Ep) as (Hg & Hi & _).
    assert (Ht : targetTable node = Some tbl) by (unfold targetTable; now rewrite Hg).
    unfold accessPath in H. destruct (takesHandlePath tbl pairs).
    + destruct (buildSchemaFromFields _ _ _ _ _);
        [|inversion H; subst; apply writesTable_refl].
      destruct (snd (findPKHandle tbl pairs)); [|discriminate].
      apply handlePlan_inv in H. destruct H as [-> _].
      apply writesTable_lists. now apply listsTable_recorded.
    + apply indexPlan_inv in H.
      destruct H as [[-> ->]|(p & idx & vs & ps & -> & -> & _)].
      * apply writesTable_refl.
      * apply writesTable_lists. now apply listsTable_recorded.
  - inversion H; subst. apply writesTable_refl.
Qed.

(** After a lookup that found a plan and the privilege check on it, the
    table list still holds the entry that the lookup wrote. *)
Lemma lookup_checked : forall node ctx fp c1 kinds e c2,
  tryPointGetPlan X (lookupOf node) ctx = Returned (Some fp) c1 ->
  checkFastPlanPrivilege fp kinds c1 = Returned e c2 ->
  listsTable node c2.
Proof.
  intros node ctx fp c1 kinds e c2 H1 H2.
  apply (@listsTable_vars node c1 c2 (@checkFastPlanPrivilege_vars _ _ _ _ _ H2)).
  apply (proj2 (@tryPointGetPlan_tables node _ _ _ H1)). discriminate.
Qed.

Lemma trySelect_tables : forall f x ctx r c',
  isPatternIn (Where x) = false ->
  trySelect X f x ctx = Returned r c' ->
  writesTable (NSelect x) ctx r c'.
Proof.
  intros f x ctx r c' Hn H. unfold trySelect, bind in H.
  rewrite tryWhereIn2BatchPointGet_notIn in H by assumption.
  destruct (tryPointGetPlan X x ctx) as [[fp|] c1| |] eqn:E1; try discriminate.
  - destruct (checkFastPlanPrivilege fp [mysql.SelectPriv] c1) as [e c2| |] eqn:E2;
      try discriminate.
    pose proof (@lookup_checked (NSelect x) _ _ _ _ _ _ E1 E2) as Hl.
    assert (c' = c2).
    { destruct (isSome e); [now inversion H|].
      destruct (IsTableDual fp); [now inversion H|].
      destruct (isLockForUpdate _); [|now inversion H].
      unfold getCtx in H. destruct (_ || _); now inversion H. }
    subst c'. now apply writesTable_lists.
  - inversion H; subst.
    eapply writesTable_weaken; [exact (@tryPointGetPlan_tables (NSelect x) _ _ _ E1)|].
    intro Hnone; now contradiction Hnone.
Qed.

Lemma tryUpdatePointPlan_tables : forall x ctx r c',
  tryUpdatePointPlan X x ctx = Returned r c' ->
  writesTable (NUpdate x) ctx r c'.
Proof.
  intros x ctx r c' H. unfold tryUpdatePointPlan, bind in H.
  destruct (tryPointGetPlan X _ ctx) as [[fp|] c1| |] eqn:E1; try discriminate.
  - destruct (checkFastPlanPrivilege fp _ c1) as [e c2| |] eqn:E2; try discriminate.
    pose proof (@lookup_checked (NUpdate x) _ _ _ _ _ _ E1 E2) as Hl.
    assert (c' = c2).
    { destruct (isSome e); [now inversion H|].
      destruct (IsTableDual fp); [now inversion H|].
      unfold getCtx in H. destruct (buildOrderedList _ _ _ _ _); [|now inversion H].
      destruct (findHandleCol _ c2) as [[hc fs] c3| |] eqn:E3; try discriminate.
      apply findHandleCol_ctx in E3. now inversion H; subst. }
    subst c'. now apply writesTable_lists.
  - inversion H; subst.
    eapply writesTable_weaken; [exact (@tryPointGetPlan_tables (NUpdate x) _ _ _ E1)|].
    intro Hn; now contradiction Hn.
Qed.

Lemma tryDeletePointPlan_tables : forall x ctx r c',
  tryDeletePointPlan X x ctx = Returned r c' ->
  writesTable (NDelete x) ctx r c'.
Proof.
  intros x ctx r c' H. unfold tryDeletePointPlan in H.
  destruct (IsMultiTable x); [inversion H; subst; apply writesTable_refl|].
  unfold bind in H.
  destruct (tryPointGetPlan X _ ctx) as [[fp|] c1| |] eqn:E1; try discriminate.
  - destruct (checkFastPlanPrivilege fp _ c1) as [e c2| |] eqn:E2; try discriminate.
    pose proof (@lookup_checked (NDelete x) _ _ _ _ _ _ E1 E2) as Hl.
    assert (c' = c2).
    { destruct (isSome e); [now inversion H|].
      destruct (IsTableDual fp); [now inversion H|].
      unfold getCtx in H.
      destruct (findHandleCol _ c2) as [[hc fs] c3| |] eqn:E3; try discriminate.
      apply findHandleCol_ctx in E3. now inversion H; subst. }
    subst c'. now apply writesTable_lists.
  - inversion H; subst.
    eapply writesTable_weaken; [exact (@tryPointGetPlan_tables (NDelete x) _ _ _ E1)|].
    intro Hn; now contradiction Hn.
Qed.

(** The loop over the IN list: every re-run is for the table of the
    statement. *)
Lemma batchChildren_tables : forall f candidate x,
  (forall w c r c', f (NSelect (reusedStmt x w)) c = Returned r c' ->
                    writesTable (NSelect x) c r c') ->
  forall rows props children ctx r c',
  batchChildren f candidate x rows props children ctx = Returned r c' ->
  (Tables (StmtCtx (sv c')) = Tables (StmtCtx (sv ctx)) \/ listsTable (NSelect x) c') /\
  (r <> None -> rows <> [] -> listsTable (NSelect x) c').
Proof.
  intros f candidate x Hf rows; induction rows as [|row rows IH];
    intros props children ctx r c' H; simpl in H.
  - inversion H; subst. split; [now left|]. intros _ Hne. now contradiction Hne.
  - destruct (candidate row) as [w|].
    + unfold bind in H.
      destruct (f (NSelect (reusedStmt x w)) ctx) as [[plan|] c1| |] eqn:E1;
        try discriminate.
      * destruct (Hf _ _ _ _ E1) as [_ Hl1].
        assert (L1 : listsTable (NSelect x) c1) by (apply Hl1; discriminate).
        destruct plan as [p| | | |]; try discriminate.
        destruct (IH _ _ _ _ _ H) as [[Hs|Hs] _].
        -- assert (listsTable (NSelect x) c') by (eapply listsTable_tables; eauto).
           split; [now right|]. auto.
        -- split; [now right|]. auto.
      * inversion H; subst. destruct (Hf _ _ _ _ E1) as [Hs _].
        split; [exact Hs|]. intro Hn; now contradiction Hn.
    + inversion H; subst. split; [now left|]. intro Hn; now contradiction Hn.
Qed.

Lemma tryWhereIn2BatchPointGet_tables : forall f x,
  (forall w c r c', f (NSelect (reusedStmt x w)) c = Returned r c' ->
                    writesTable (NSelect x) c r c') ->
  forall ctx r c',
  tryWhereIn2BatchPointGet f x ctx = Returned r c' ->
  writesTable (NSelect x) ctx r c'.
Proof.
  intros f x Hf ctx r c' H.
  destruct (tryWhereIn2BatchPointGet_cases f x ctx)
    as [Hnil|(inExpr & inList & _ & _ & Hne & Heq)].
  - rewrite Hnil in H. inversion H; subst. apply writesTable_refl.
  - rewrite Heq in H. unfold bind in H.
    destruct (batchChildren f (candidateOf inExpr) x inList [] [] ctx)
      as [[[props children]|] c0| |] eqn:Eb; try discriminate.
    + destruct (@batchChildren_tables _ _ _ Hf _ _ _ _ _ _ Eb) as [Hs Hl].
      simpl in H. destruct children as [|ch0 chs]; [discriminate|].
      simpl in H. inversion H; subst. split; [exact Hs|].
      intros _. apply Hl; [discriminate|assumption].
    + destruct (@batchChildren_tables _ _ _ Hf _ _ _ _ _ _ Eb) as [Hs _].
      simpl in H. inversion H; subst. split; [exact Hs|].
      intro Hn; now contradiction Hn.
Qed.

Lemma TryFastPlan_tables : forall fuel node ctx r c',
  TryFastPlan X fuel node ctx = Returned r c' -> writesTable node ctx r c'.
Proof.
  induction fuel as [|fuel IH]; intros node ctx r c' H; [discriminate|].
  destruct node as [x|x|x|]; simpl in H.
  - destruct (isPatternIn (Where x)) eqn:Ein.
    + unfold trySelect, bind in H.
      destruct (tryWhereIn2BatchPointGet (TryFastPlan X fuel) x ctx)
        as [batch c1| |] eqn:E1; try discriminate.
      assert (Hb : writesTable (NSelect x) ctx batch c1).
      { eapply tryWhereIn2BatchPointGet_tables; [|exact E1].
        intros w c r0 c0 H0. exact (IH _ _ _ _ H0). }
      destruct batch as [pl|]; [inversion H; subst; exact Hb|].
      destruct (tryPointGetPlan X x c1) as [[fp|] c2| |] eqn:E2; try discriminate.
      * destruct (tryPointGetPlan_target X (NSelect x) _ E2) as (_ & _ & Hn).
        simpl in Hn. congruence.
      * inversion H; subst.
        eapply writesTable_weaken;
          [eapply writesTable_then;
           [exact Hb | exact (@tryPointGetPlan_tables (NSelect x) _ _ _ E2) | auto]|].
        intro Hnone; now contradiction Hnone.
    + eapply trySelect_tables; eauto.
  - now apply tryUpdatePointPlan_tables.
  - now apply tryDeletePointPlan_tables.
  - inversion H; subst. apply writesTable_refl.
Qed.

End SessionWrites.

(** C10, as amended.  A run of [TryFastPlan] that returns leaves the
    current database, the active roles and the autocommit, open-transaction
    and pessimistic flags of the session unchanged.  It does write the
    session: the table list of the statement context is either as it was,
    or has been overwritten with a single entry that names the table of
    the statement; and it has been overwritten whenever a plan is
    returned. *)
Theorem C10_session_frame : forall X fuel node ctx r ctx',
  TryFastPlan X fuel node ctx = Returned r ctx' ->
  CurrentDB (sv ctx') = CurrentDB (sv ctx) /\
  ActiveRoles (sv ctx') = ActiveRoles (sv ctx) /\
  IsAutocommit (sv ctx') = IsAutocommit (sv ctx) /\
  InTxn (sv ctx') = InTxn (sv ctx) /\
  TxnCtxIsPessimistic (sv ctx') = TxnCtxIsPessimistic (sv ctx) /\
  (Tables (StmtCtx (sv ctx')) = Tables (StmtCtx (sv ctx)) \/
   exists tbl, targetTable node = Some tbl /\
               map Table (Tables (StmtCtx (sv ctx'))) = [L (tblName_ tbl)]) /\
  (r <> None ->
   exists tbl, targetTable node = Some tbl /\
               map Table (Tables (StmtCtx (sv ctx'))) = [L (tblName_ tbl)]).
Proof.
  intros X fuel node ctx r ctx' H.
  destruct (@framed_TryFastPlan X fuel node ctx r ctx' H) as [H1 H2 H3 H4 H5 _ _ _].
  destruct (@TryFastPlan_tables X fuel node ctx r ctx' H) as [Hs Hl].
  split; [assumption|]. split; [assumption|]. split; [assumption|].
  split; [assumption|]. split; [assumption|]. split; assumption.
Qed.

Lemma C10_session_frame_witness :
  exists r ctx',
    TryFastPlan Sample.collaborators 2 (NSelect (Sample.selectById SelectLockNone))
                Sample.session = Returned r ctx' /\
    IsAutocommit (sv ctx') = true /\ InTxn (sv ctx') = false /\
    map Table (Tables (StmtCtx (sv ctx'))) = ["t1"].
Proof.
  destruct (TryFastPlan Sample.collaborators 2 (NSelect (Sample.selectById SelectLockNone))
                        Sample.session) as [r c| |] eqn:E;
    try (vm_compute in E; discriminate).
  exists r, c. split; [reflexivity|].
  destruct (@C10_session_frame Sample.collaborators 2 _ Sample.session r c E)
    as (_ & _ & Ha & Hi & _ & _ & Hl).
  split; [exact Ha|]. split; [exact Hi|].
  destruct Hl as (tbl & Ht & Hl).
  - vm_compute in E. inversion E. discriminate.
  - vm_compute in Ht. inversion Ht; subst tbl. exact Hl.
Defined.

(** The session after planning [select * from t1 where id = 5] differs
    from the session before: the statement context lists table [t1]. *)
Lemma C10_counterexample :
  exists r ctx',
    TryFastPlan Sample.collaborators 2 (NSelect (Sample.selectById SelectLockNone))
                Sample.session = Returned r ctx' /\
    GetSessionVars ctx' <> GetSessionVars Sample.session /\
    Tables (StmtCtx (sv ctx')) = [mkTableEntry "test" "t1"].
Proof.
  eexists; eexists. split; [vm_compute; reflexivity|].
  split; [intro H; discriminate H | reflexivity].
Qed.

(** * Further properties of the planner *)

(** ** [findInPairs] *)

Lemma findInPairsFrom_first : forall name pairs n,
  0 <= n ->
  let r := findInPairsFrom n name pairs in
  (r = -1 /\ forall nv, In nv pairs -> colName nv <> name) \/
  (n <= r < n + Z.of_nat (length pairs) /\
   (exists nv, nth_error pairs (Z.to_nat (r - n)) = Some nv /\ colName nv = name) /\
   forall j nv, (j < Z.to_nat (r - n))%nat -> nth_error pairs j = Some nv ->
                colName nv <> name).
Proof.
  intros name pairs; induction pairs as [|nv rest IH]; intros n Hn; simpl.
  - left. split; [reflexivity|]. intros ? [].
  - destruct (String.eqb_spec (colName nv) name) as [E|E].
    + right. split; [lia|]. rewrite Z.sub_diag. simpl. split.
      * exists nv; auto.
      * intros j ? Hj; lia.
    + destruct (IH (n + 1) ltac:(lia)) as [[Hr Hall]|[Hr [[found [Hf Hc]] Hfirst]]].
      * left. split; [assumption|]. intros x [<-|Hx]; auto.
      * right. split; [lia|].
        replace (Z.to_nat (findInPairsFrom (n + 1) name rest - n))
          with (S (Z.to_nat (findInPairsFrom (n + 1) name rest - (n + 1)))) by lia.
        simpl. split; [exists found; auto|].
        intros [|j] x Hj Hx; simpl in Hx.
        -- inversion Hx; subst; assumption.
        -- apply (Hfirst j x); [lia|assumption].
Qed.

(** X1.  [findInPairs] answers -1 exactly when no pair has the column
    name; otherwise it answers an index inside the slice, the pair there
    has the name, and no pair before it has. *)
Theorem findInPairs_first_match : forall name pairs,
  (findInPairs name pairs = -1 /\ forall nv, In nv pairs -> colName nv <> name) \/
  (0 <= findInPairs name pairs < Z.of_nat (length pairs) /\
   (exists nv, nth_error pairs (Z.to_nat (findInPairs name pairs)) = Some nv
               /\ colName nv = name) /\
   forall j nv, (j < Z.to_nat (findInPairs name pairs))%nat ->
                nth_error pairs j = Some nv -> colName nv <> name).
Proof.
  intros name pairs.
  pose proof (@findInPairsFrom_first name pairs 0 ltac:(lia)) as H.
  unfold findInPairs. cbv zeta in H. rewrite Z.sub_0_r in H.
  destruct H as [H|[Hr H]]; [left; assumption|right].
  split; [lia|assumption].
Qed.

(** ** [getNameValuePairs] *)

Lemma pairsOf_Forall2 : forall al cs nvs,
  pairsOf al cs = Some nvs <-> Forall2 (fun c nv => pairOf al c = Some nv) cs nvs.
Proof.
  intros al cs; induction cs as [|c rest IH]; intros nvs; simpl.
  - split; intro H.
    + inversion H; constructor.
    + inversion H; reflexivity.
  - split; intro H.
    + destruct (pairOf al c) as [nv|] eqn:E; [|discriminate].
      destruct (pairsOf al rest) as [r|] eqn:Er; [|discriminate].
      inversion H; subst. constructor; [assumption|]. now apply IH.
    + inversion H as [|? nv ? r Hc Hr]; subst. rewrite Hc.
      apply IH in Hr. now rewrite Hr.
Qed.

Lemma pairOf_sound : forall al c nv,
  pairOf al c = Some nv ->
  IsNull (value nv) = false /\
  (forall m, param nv = Some m -> value nv = pmDatum m) /\
  exists l r cn,
    c = BinaryOperationExpr opcode.EQ l r /\
    (l = ColumnNameExpr cn \/ r = ColumnNameExpr cn) /\
    colName nv = L (cnName cn) /\
    (L (cnTable cn) = "" \/ L (cnTable cn) = L al).
Proof.
  intros al c nv H. destruct c as [op l r| | | | | | |]; try discriminate.
  destruct op; try discriminate. simpl in H.
  match type of H with
  | context [match ?side with Some _ => _ | None => _ end] =>
    destruct side as [[cn [d prm]]|] eqn:Es; [|discriminate]
  end.
  assert (Hside : (forall m, prm = Some m -> d = pmDatum m) /\
                  (l = ColumnNameExpr cn \/ r = ColumnNameExpr cn)).
  { destruct l; destruct r; try discriminate; simpl in Es; inversion Es; subst;
      (split; [intros m Hm; try discriminate; inversion Hm; reflexivity|]);
      auto. }
  destruct Hside as (Hv & Hcol).
  destruct (IsNull d) eqn:En; [discriminate|].
  assert (Hq : L (cnTable cn) = "" \/ L (cnTable cn) = L al).
  { destruct (String.eqb_spec (L (cnTable cn)) ""); [now left|].
    destruct (String.eqb_spec (L (cnTable cn)) (L al)); [now right|].
    simpl in H. discriminate. }
  assert (Hnv : nv = mkNameValuePair (L (cnName cn)) d prm).
  { destruct (_ && _); [discriminate|]. now inversion H. }
  subst nv. simpl. split; [assumption|]. split.
  - exact Hv.
  - exists l, r, cn. auto.
Qed.

(** X2.  [getNameValuePairs] succeeds exactly when every conjunct of the
    tree of ANDs has a pair, and then returns the pairs it was given
    followed by one pair per conjunct, in written order.  A pair comes
    only from an equality between a column, unqualified or qualified by
    the table alias, and a value that is not NULL; its name is the
    lower-case column name, and its parameter marker, if any, holds its
    value. *)
Theorem getNameValuePairs_extracts : forall acc al e,
  (forall res,
     getNameValuePairs acc al (Some e) = Some res <->
     exists nvs, Forall2 (fun c nv => pairOf al c = Some nv) (conjuncts e) nvs /\
                 res = acc ++ nvs) /\
  (forall c nv,
     pairOf al c = Some nv ->
     IsNull (value nv) = false /\
     (forall m, param nv = Some m -> value nv = pmDatum m) /\
     exists l r cn,
       c = BinaryOperationExpr opcode.EQ l r /\
       (l = ColumnNameExpr cn \/ r = ColumnNameExpr cn) /\
       colName nv = L (cnName cn) /\
       (L (cnTable cn) = "" \/ L (cnTable cn) = L al)).
Proof.
  intros acc al e. split.
  - intro res. simpl. rewrite getNameValuePairsOf_conjuncts. split.
    + destruct (pairsOf al (conjuncts e)) as [nvs|] eqn:E; [|discriminate].
      simpl. intro H; inversion H; subst. exists nvs. split; [|reflexivity].
      now apply pairsOf_Forall2.
    + intros (nvs & Hall & ->). apply pairsOf_Forall2 in Hall. now rewrite Hall.
  - apply pairOf_sound.
Qed.

(** ** [getIndexValues] *)

Lemma getIndexValuesLoop_sound : forall nvs cols vs ps vs' ps',
  getIndexValuesLoop cols nvs vs ps = Some (vs', ps') ->
  exists av ap,
    vs' = vs ++ av /\ ps' = ps ++ ap /\
    length av = length cols /\ length ap = length cols /\
    Forall2 (fun ic vp => exists nv, lookup (L (idxColName ic)) nvs = Some nv /\
                                     value nv = fst vp /\ param nv = snd vp)
            cols (combine av ap).
Proof.
  intros nvs cols; induction cols as [|ic rest IH]; intros vs ps vs' ps' H; simpl in H.
  - inversion H; subst. exists [], []. rewrite !app_nil_r. repeat split; constructor.
  - pose proof (findInPairs_lookup (L (idxColName ic)) nvs) as Hl.
    destruct (lookup (L (idxColName ic)) nvs) as [nv|] eqn:El.
    + destruct Hl as [Hne Hp].
      destruct (Z.eqb_spec (findInPairs (L (idxColName ic)) nvs) (-1)); [contradiction|].
      rewrite Hp in H.
      destruct (IH _ _ _ _ H) as (av & ap & -> & -> & Hla & Hlp & Hall).
      exists (value nv :: av), (param nv :: ap). rewrite <- !app_assoc. simpl.
      split; [reflexivity|]. split; [reflexivity|].
      split; [now rewrite Hla|]. split; [now rewrite Hlp|].
      constructor; [|assumption]. exists nv. auto.
    + rewrite Hl in H. discriminate.
Qed.

(** What the guards of [getIndexValues] leave to its loop. *)
Lemma getIndexValues_loop : forall idxInfo nvs vs ps,
  getIndexValues idxInfo nvs = Some (vs, ps) ->
  HasPrefixIndex idxInfo = false /\
  length (idxColumns idxInfo) = length nvs /\ vs <> [] /\
  getIndexValuesLoop (idxColumns idxInfo) nvs [] [] = Some (vs, ps).
Proof.
  intros idxInfo nvs vs ps H. unfold getIndexValues in H.
  destruct (Nat.eqb_spec (length (idxColumns idxInfo)) (length nvs)) as [Hlen|];
    [|discriminate]. simpl in H.
  destruct (HasPrefixIndex idxInfo); [discriminate|].
  destruct (getIndexValuesLoop (idxColumns idxInfo) nvs [] []) as [[vs' ps']|];
    [|discriminate].
  destruct vs' as [|v vs']; [discriminate|]. simpl in H. inversion H; subst.
  split; [reflexivity|]. split; [assumption|]. split; [discriminate|reflexivity].
Qed.

(** X3.  When [getIndexValues] returns values, the index has no prefix
    column and as many columns as there are pairs; there is one value and
    one parameter slot per index column, in the order of the index, taken
    together from the first pair that has the name of the column; and the
    values are not empty. *)
Theorem getIndexValues_sound : forall idxInfo nvs vs ps,
  getIndexValues idxInfo nvs = Some (vs, ps) ->
  HasPrefixIndex idxInfo = false /\
  length (idxColumns idxInfo) = length nvs /\
  length vs = length (idxColumns idxInfo) /\
  length ps = length (idxColumns idxInfo) /\
  vs <> [] /\
  Forall2 (fun ic vp => exists nv, lookup (L (idxColName ic)) nvs = Some nv /\
                                   value nv = fst vp /\ param nv = snd vp)
          (idxColumns idxInfo) (combine vs ps).
Proof.
  intros idxInfo nvs vs ps H.
  destruct (getIndexValues_loop _ _ H) as (Hpre & Hlen & Hne & El).
  destruct (getIndexValuesLoop_sound _ _ _ _ El) as (av & ap & Hv & Hp & Hla & Hlp & Hall).
  simpl in Hv, Hp. subst av ap.
  split; [assumption|]. split; [assumption|]. split; [assumption|].
  split; [assumption|]. split; assumption.
Qed.

Lemma getIndexValues_sound_witness :
  length (idxColumns Sample.ab) = 2%nat /\
  HasPrefixIndex Sample.ab = false.
Proof.
  destruct (@getIndexValues_sound Sample.ab
              [mkNameValuePair "b" (mkDatum KindInt64 5 "") None;
               mkNameValuePair "a" (mkDatum KindInt64 6 "") None]
              [mkDatum KindInt64 6 ""; mkDatum KindInt64 5 ""] [None; None] eq_refl)
    as (Hp & Hl & _).
  split; [exact Hl | exact Hp].
Defined.

(** X4.  An index whose column names are distinct is matched only by
    pairs whose names are exactly those of the index, each once: a pair
    list that repeats a column name, or names a column outside the index,
    gets no values. *)
Theorem getIndexValues_names : forall idxInfo nvs r,
  NoDup (indexColumnNames idxInfo) ->
  getIndexValues idxInfo nvs = Some r ->
  Permutation (map colName nvs) (indexColumnNames idxInfo) /\
  NoDup (map colName nvs).
Proof.
  intros idxInfo nvs [vs ps] Hnd H.
  destruct (getIndexValues_loop _ _ H) as (_ & Hlen & _ & El).
  destruct (getIndexValuesLoop_sound _ _ _ _ El) as (av & ap & Hv & Hp & _ & _ & Hall).
  simpl in Hv, Hp. subst av ap.
  assert (Hperm : Permutation (indexColumnNames idxInfo) (map colName nvs)).
  { apply NoDup_Permutation_bis; [assumption| |].
    - unfold indexColumnNames. rewrite !length_map. lia.
    - unfold indexColumnNames. intros name Hin.
      apply in_map_iff in Hin. destruct Hin as (ic & <- & Hic).
      clear - Hall Hic. revert Hic. induction Hall as [|x vp cols l (nv & Hl & _) _ IH].
      + intros [].
      + intros [<-|Hin]; [|now apply IH].
        apply lookup_In in Hl. destruct Hl as [Hin <-]. now apply in_map. }
  split; [now apply Permutation_sym|].
  eapply Permutation_NoDup; eauto.
Qed.

Lemma getIndexValues_names_witness :
  NoDup (map colName [mkNameValuePair "b" (mkDatum KindInt64 5 "") None;
                      mkNameValuePair "a" (mkDatum KindInt64 6 "") None]).
Proof.
  refine (proj2 (@getIndexValues_names Sample.ab
                   [mkNameValuePair "b" (mkDatum KindInt64 5 "") None;
                    mkNameValuePair "a" (mkDatum KindInt64 6 "") None]
                   ([mkDatum KindInt64 6 ""; mkDatum KindInt64 5 ""], [None; None])
                   _ eq_refl)).
  vm_compute. repeat constructor; simpl; intuition discriminate.
Defined.

(** ** [buildSchemaFromFields] *)

Lemma buildSchemaFields_columns : forall db tbl al (P : Column -> nat -> Prop),
  (forall col n, In col (Columns tbl) -> forall asName,
     P (colInfoToColumn db (tblName_ tbl) al asName col (Z.of_nat n)) n) ->
  forall fields acc sch,
  (forall n c, nth_error acc n = Some c -> P c n) ->
  buildSchemaFields db tbl al fields acc = Some sch ->
  forall n c, nth_error sch n = Some c -> P c n.
Proof.
  intros db tbl al P HP fields; induction fields as [|field rest IH];
    intros acc sch Hacc H; simpl in H.
  - inversion H; subst. assumption.
  - destruct (WildCard field) as [wc|].
    + destruct (_ && _); [discriminate|].
      eapply IH; [|exact H].
      intros n c Hn. rewrite appendTableColumns_from in Hn.
      destruct (Nat.lt_ge_cases n (length acc)) as [Hlt|Hge].
      * rewrite nth_error_app1 in Hn by assumption. now apply Hacc.
      * rewrite nth_error_app2 in Hn by assumption.
        rewrite columnsFrom_nth in Hn.
        destruct (nth_error (Columns tbl) (n - length acc)) as [col|] eqn:Ec;
          [|discriminate].
        simpl in Hn. inversion Hn; subst c.
        replace (length acc + (n - length acc))%nat with n by lia.
        apply HP. eapply nth_error_In; eauto.
    + destruct (fieldExpr field) as [[| cn | | | | | |]|]; try discriminate.
      destruct (_ && _); [discriminate|].
      destruct (findCol tbl cn) as [col|] eqn:Ef; [|discriminate].
      eapply IH; [|exact H].
      intros n c Hn.
      destruct (Nat.lt_ge_cases n (length acc)) as [Hlt|Hge].
      * rewrite nth_error_app1 in Hn by assumption. now apply Hacc.
      * rewrite nth_error_app2 in Hn by assumption.
        destruct (n - length acc)%nat as [|m] eqn:Em; simpl in Hn.
        -- inversion Hn; subst c. replace (length acc) with n by lia.
           apply HP. unfold findCol in Ef. apply find_some in Ef. tauto.
        -- destruct m; discriminate.
Qed.

(** X5.  In every schema that [buildSchemaFromFields] returns, a column
    carries its own position as [Index], the alias and the name of the
    table, the database of the statement (the current database when the
    statement names none), and the identifier, offset and type of a
    column of the table. *)
Theorem buildSchemaFromFields_columns : forall s db tbl al fields sch,
  buildSchemaFromFields s db tbl al fields = Some sch ->
  forall n c, nth_error sch n = Some c ->
    Index c = Z.of_nat n /\ TblName c = al /\ OrigTblName c = tblName_ tbl /\
    DBName c = (if String.eqb (L db) "" then NewCIStr (CurrentDB s) else db) /\
    exists col, In col (Columns tbl) /\ ID c = colID col /\
                RetType c = colFieldType col /\ UniqueID c = colOffset col.
Proof.
  intros s db tbl al fields sch H.
  set (db' := if String.eqb (L db) "" then NewCIStr (CurrentDB s) else db) in *.
  set (P := fun (c : Column) (n : nat) =>
              Index c = Z.of_nat n /\ TblName c = al /\ OrigTblName c = tblName_ tbl /\
              DBName c = db' /\
              exists col, In col (Columns tbl) /\ ID c = colID col /\
                          RetType c = colFieldType col /\ UniqueID c = colOffset col).
  assert (HP : forall col n, In col (Columns tbl) -> forall asName,
                 P (colInfoToColumn db' (tblName_ tbl) al asName col (Z.of_nat n)) n).
  { intros col n Hin asName. unfold P. simpl. repeat split. exists col. auto. }
  unfold buildSchemaFromFields in H. fold db' in H.
  destruct fields as [|field rest].
  - inversion H; subst sch. intros n c Hn. change (P c n).
    rewrite appendTableColumns_from in Hn. simpl in Hn.
    rewrite columnsFrom_nth in Hn.
    destruct (nth_error (Columns tbl) n) as [col|] eqn:Ec; [|discriminate].
    simpl in Hn. inversion Hn; subst c. apply HP. eapply nth_error_In; eauto.
  - intros n c Hn. change (P c n).
    apply (@buildSchemaFields_columns db' tbl al P HP (field :: rest) [] sch);
      try assumption.
    intros m c' Hm. destruct m; discriminate.
Qed.

Lemma buildSchemaFromFields_columns_witness :
  exists c, nth_error (columnsFrom 0 (NewCIStr "test") (NewCIStr "t1") (NewCIStr "t1")
                                   (Columns Sample.t1)) 2 = Some c /\
            Index c = 2.
Proof.
  eexists. split; [reflexivity|].
  refine (proj1 (@buildSchemaFromFields_columns (Sample.vars true false false) emptyCIStr
                   Sample.t1 (NewCIStr "t1") [Sample.star] _ eq_refl 2%nat _ eq_refl)).
Defined.

(** ** [findPKHandle] and the handle path *)

Lemma findPKHandleIn_first_key : forall cols pairs,
  kindIsNull (k (value (fst (findPKHandleIn cols pairs)))) = false ->
  exists before col after,
    cols = before ++ col :: after /\
    Forall (fun c => isPriKey c = false) before /\ isPriKey col = true /\
    lookup (L (colName_ col)) pairs = Some (fst (findPKHandleIn cols pairs)) /\
    snd (findPKHandleIn cols pairs) = Some (colFieldType col).
Proof.
  intros cols pairs; induction cols as [|col rest IH]; simpl; [discriminate|].
  fold (isPriKey col). destruct (isPriKey col) eqn:Ek.
  - pose proof (findInPairs_lookup (L (colName_ col)) pairs) as Hl.
    destruct (lookup (L (colName_ col)) pairs) as [nv|] eqn:El.
    + destruct Hl as [Hne Hp].
      destruct (Z.eqb_spec (findInPairs (L (colName_ col)) pairs) (-1)); [contradiction|].
      simpl. intros _. exists [], col, rest. rewrite Hp. repeat split; auto.
    + rewrite Hl. simpl. discriminate.
  - intro H. destruct (IH H) as (before & c & after & -> & Hb & Hc & Hl & Hf).
    exists (col :: before), c, after. repeat split; auto.
Qed.


(** X6.  [findPKHandle] answers a pair that is not null only for a table
    whose primary key is the handle, and the pair is then the first pair
    named like the first column of the table that has the primary-key
    flag, returned with the field type of that column; when that column
    has no pair the answer is null, whatever the later columns are. *)
Theorem findPKHandle_first_key : forall tbl pairs,
  kindIsNull (k (value (fst (findPKHandle tbl pairs)))) = false ->
  PKIsHandle tbl = true /\
  exists before col after,
    Columns tbl = before ++ col :: after /\
    Forall (fun c => isPriKey c = false) before /\ isPriKey col = true /\
    lookup (L (colName_ col)) pairs = Some (fst (findPKHandle tbl pairs)) /\
    snd (findPKHandle tbl pairs) = Some (colFieldType col).
Proof.
  intros tbl pairs. unfold findPKHandle.
  destruct (PKIsHandle tbl); simpl; [|discriminate].
  intro H. split; [reflexivity|]. now apply findPKHandleIn_first_key.
Qed.

Lemma findPKHandle_first_key_witness :
  PKIsHandle Sample.t1 = true /\
  snd (findPKHandle Sample.t1 [mkNameValuePair "id" (mkDatum KindInt64 5 "") None])
  = Some (mkFieldType TypeLonglong mysql.PriKeyFlag).
Proof.
  destruct (@findPKHandle_first_key Sample.t1
              [mkNameValuePair "id" (mkDatum KindInt64 5 "") None] eq_refl)
    as (Hpk & _).
  split; [exact Hpk | reflexivity].
Defined.

(** ** The shape of a point-get plan *)

Lemma handlePlan_shape : forall X sch db tbl hp ft ctx p ctx',
  handlePlan X sch db tbl hp ft ctx = Returned (Some p) ctx' ->
  IndexInfo_ p = None /\ IndexValues p = [] /\ IndexValueParams p = [] /\
  ((IsTableDual p = true /\ Handle p = 0 /\ HandleParam p = None) \/
   (IsTableDual p = false /\ HandleParam p = param hp /\
    UnsignedHandle p = mysql.HasUnsignedFlag (Flag ft) /\
    let sc := StmtCtx (sv ctx') in
    Handle p = GetInt64 (fst (ConvertTo X sc (value hp) ft)) /\
    CompareDatum X sc (fst (ConvertTo X sc (value hp) ft)) (value hp) = (0, None))).
Proof.
  intros X sch db tbl hp ft ctx p ctx' H. rewrite handlePlan_outcome in H.
  cbv zeta in H.
  remember (StmtCtx (sv (recorded ctx tbl))) as sc eqn:Hsc.
  remember (ConvertTo X sc (value hp) ft) as cv eqn:Hcv.
  remember (CompareDatum X sc (fst cv) (value hp)) as cd eqn:Hcd.
  injection H as Ho Hc. subst ctx'. cbv zeta. rewrite <- Hsc, <- Hcv, <- Hcd.
  clear Hsc Hcv Hcd. unfold handleOutcome in Ho.
  assert (G : match snd cd with
              | Some _ => None
              | None =>
                if fst cd =? 0
                then Some (withHandle (freshPlan sch db tbl) (GetInt64 (fst cv))
                                      (mysql.HasUnsignedFlag (Flag ft)) (param hp))
                else Some (withTableDual (freshPlan sch db tbl))
              end = Some p ->
              IndexInfo_ p = None /\ IndexValues p = [] /\ IndexValueParams p = [] /\
              ((IsTableDual p = true /\ Handle p = 0 /\ HandleParam p = None) \/
               (IsTableDual p = false /\ HandleParam p = param hp /\
                UnsignedHandle p = mysql.HasUnsignedFlag (Flag ft) /\
                Handle p = GetInt64 (fst cv) /\ cd = (0, None)))).
  { destruct cd as [cmp [e|]]; simpl; [discriminate|].
    destruct (Z.eqb_spec cmp 0) as [->|]; intro G; injection G as <-; simpl.
    - repeat split. right. repeat split.
    - repeat split. left. repeat split. }
  destruct (snd cv) as [[| |msg]|]; try (now apply G); try discriminate.
  injection Ho as <-. simpl. repeat split. left. repeat split.
Qed.

Lemma indexPlan_shape : forall indices pairs tblName tbl tblAlias db fields ctx p ctx',
  indexPlan indices pairs tblName tbl tblAlias db fields ctx = Returned (Some p) ctx' ->
  exists idxInfo,
    In idxInfo indices /\ Unique idxInfo = true /\ isPublic (idxState idxInfo) = true /\
    getIndexValues idxInfo pairs = Some (IndexValues p, IndexValueParams p) /\
    IndexInfo_ p = Some idxInfo /\ IsTableDual p = false /\
    Handle p = 0 /\ HandleParam p = None /\ UnsignedHandle p = false.
Proof.
  induction indices as [|idxInfo rest IH]; intros pairs tblName tbl tblAlias db fields
    ctx p ctx' H; simpl in H; [discriminate|].
  assert (Hrest : indexPlan rest pairs tblName tbl tblAlias db fields ctx
                  = Returned (Some p) ctx' ->
                  exists idx,
                    In idx (idxInfo :: rest) /\ Unique idx = true /\
                    isPublic (idxState idx) = true /\
                    getIndexValues idx pairs = Some (IndexValues p, IndexValueParams p) /\
                    IndexInfo_ p = Some idx /\ IsTableDual p = false /\
                    Handle p = 0 /\ HandleParam p = None /\ UnsignedHandle p = false).
  { intro H0. destruct (IH _ _ _ _ _ _ _ _ _ H0) as (idx & Hin & Hrest).
    exists idx. split; [now right|assumption]. }
  destruct (Unique idxInfo) eqn:EU; simpl in H; [|now apply Hrest].
  destruct (isPublic (idxState idxInfo)) eqn:EP; simpl in H; [|now apply Hrest].
  destruct (getIndexValues idxInfo pairs) as [[vs ps]|] eqn:EG; [|now apply Hrest].
  unfold bind, getCtx, ret, newPointGetPlan in H.
  destruct (buildSchemaFromFields _ _ _ _ _); [|discriminate].
  inversion H; subst. exists idxInfo. simpl. repeat split; auto.
Qed.



(** ** The plans of [TryFastPlan] *)

(** A point-get plan that [TryFastPlan] returns for a SELECT is not an
    empty result, and it is unlocked unless the statement asks for a lock. *)
Lemma TryFastPlan_pointGet : forall X fuel x ctx p ctx',
  TryFastPlan X fuel (NSelect x) ctx = Returned (Some (PlanPointGet p)) ctx' ->
  IsTableDual p = false /\
  (isLockForUpdate (LockTp x) = false -> Lock p = false /\ IsForUpdate p = false).
Proof.
  intros X fuel x ctx p ctx' H. destruct fuel as [|fuel]; [discriminate|].
  simpl in H. unfold trySelect, bind in H.
  destruct (tryWhereIn2BatchPointGet (TryFastPlan X fuel) x ctx) as [[pl|] c1| |] eqn:E1;
    try discriminate.
  - destruct (tryWhereIn2BatchPointGet_union _ _ _ E1) as [ua ->]. discriminate.
  - destruct (tryPointGetPlan X x c1) as [[fp|] c2| |] eqn:E2; try discriminate.
    destruct (tryPointGetPlan_some _ _ _ E2)
      as (tn & al & tbl & pairs & _ & _ & _ & _ & _ & Hl & Hf & _).
    destruct (checkFastPlanPrivilege fp [mysql.SelectPriv] c2) as [e c3| |];
      try discriminate.
    destruct (isSome e); [discriminate|].
    destruct (IsTableDual fp) eqn:Ed; [discriminate|].
    destruct (isLockForUpdate (LockTp x)).
    + unfold getCtx in H. destruct (_ || _); inversion H; subst; simpl;
        (split; [assumption|discriminate]).
    + inversion H; subst. auto.
Qed.

(** X8.  A union returned by [TryFastPlan] comes from a statement without
    ORDER BY, GROUP BY, LIMIT, HAVING, window or lock clause; it is marked
    as a point-get union, has at least one child, asks each child for one
    row, counts as many rows as it has children, and every child is an
    unlocked point-get plan that is not an empty result. *)
Theorem batch_union_shape : forall X fuel x ctx ua ctx',
  TryFastPlan X fuel (NSelect x) ctx = Returned (Some (PlanUnionAll ua)) ctx' ->
  (OrderBy x = None /\ GroupBy x = None /\ stmtLimit x = None /\ Having x = None /\
   WindowSpecs x = [] /\ LockTp x = SelectLockNone) /\
  IsPointGetUnion ua = true /\
  uaChildren ua <> [] /\
  uaChildReqProps ua = repeat (mkPhysicalProperty 1) (length (uaChildren ua)) /\
  RowCount (uaStats ua) = Z.of_nat (length (uaChildren ua)) /\
  Forall (fun child => IsTableDual child = false /\ Lock child = false /\
                       IsForUpdate child = false)
         (uaChildren ua).
Proof.
  intros X fuel x ctx ua ctx' H. destruct fuel as [|fuel]; [discriminate|].
  simpl in H. unfold trySelect, bind in H.
  destruct (tryWhereIn2BatchPointGet (TryFastPlan X fuel) x ctx) as [[pl|] c1| |] eqn:E1;
    try discriminate.
  - inversion H; subst; clear H. split.
    + unfold tryWhereIn2BatchPointGet in E1.
      destruct (OrderBy x); [discriminate|]. destruct (GroupBy x); [discriminate|].
      destruct (stmtLimit x); [discriminate|]. destruct (Having x); [discriminate|].
      destruct (WindowSpecs x); [|discriminate].
      destruct (LockTp x); try discriminate. repeat split.
    + destruct (tryWhereIn2BatchPointGet_inv _ _ _ E1)
        as (inExpr & inList & cand & props & c0 & cs & Hw & _ & Hb & ->).
      destruct (@batchChildren_inv (TryFastPlan X fuel) cand x
                  (fun node => @framed_TryFastPlan X fuel node) _ _ _ _ _ _ _ Hb)
        as (added & Hch & Hlen & Hprops & Hall).
      simpl in Hch, Hprops. subst added props. simpl.
      split; [reflexivity|]. split; [discriminate|].
      split; [now rewrite <- Hlen|]. split; [lia|].
      assert (Hs : Forall (fun child => IsTableDual child = false /\ Lock child = false /\
                                        IsForUpdate child = false) (c0 :: cs)).
      { clear - Hall. revert Hall. generalize (c0 :: cs). intros l Hall.
        induction Hall as [|row p rows ps (w & c & c' & _ & _ & Hp) _ IH]; constructor.
        - destruct (TryFastPlan_pointGet _ _ _ _ Hp) as [Hd Hl].
          destruct (Hl eq_refl). auto.
        - assumption. }
      inversion Hs as [|? ? H0 Hcs]; subst. constructor; [|assumption].
      simpl. exact H0.
  - destruct (tryPointGetPlan X x c1) as [[fp|] c2| |]; try discriminate.
    destruct (checkFastPlanPrivilege _ _ _) as [e c3| |]; try discriminate.
    destruct (isSome e); [discriminate|]. destruct (IsTableDual fp); [discriminate|].
    destruct (isLockForUpdate _); [|discriminate].
    unfold getCtx in H. destruct (_ || _); discriminate.
Qed.

Lemma batch_union_shape_witness :
  exists ua ctx',
    TryFastPlan Sample.collaborators 2 (NSelect Sample.selectInTwice) Sample.session
    = Returned (Some (PlanUnionAll ua)) ctx' /\
    IsPointGetUnion ua = true /\ uaChildren ua <> [].
Proof.
  destruct (TryFastPlan Sample.collaborators 2 (NSelect Sample.selectInTwice)
                        Sample.session) as [[[| |ua| |]|] c| |] eqn:E;
    try (vm_compute in E; discriminate).
  exists ua, c. split; [reflexivity|].
  destruct (@batch_union_shape Sample.collaborators 2 Sample.selectInTwice
              Sample.session ua c E) as (_ & Hu & Hne & _).
  split; assumption.
Defined.

(** X9.  [TryFastPlan] gives a SELECT a point-get plan, an empty-result
    plan carrying the schema, or a union; an UPDATE an update plan or an
    empty-result plan without schema; a DELETE a delete plan or an
    empty-result plan without schema; and any other statement nothing. *)
Theorem TryFastPlan_plan_fits : forall X fuel node ctx plan ctx',
  TryFastPlan X fuel node ctx = Returned (Some plan) ctx' ->
  planFits node plan = true.
Proof.
  intros X fuel node ctx plan ctx' H. destruct fuel as [|fuel]; [discriminate|].
  destruct node as [x|x|x|]; simpl in H.
  - unfold trySelect, bind in H.
    destruct (tryWhereIn2BatchPointGet (TryFastPlan X fuel) x ctx) as [[pl|] c1| |] eqn:E1;
      try discriminate.
    + inversion H; subst.
      destruct (tryWhereIn2BatchPointGet_union _ _ _ E1) as [ua ->]. reflexivity.
    + destruct (tryPointGetPlan X x c1) as [[fp|] c2| |]; try discriminate.
      destruct (checkFastPlanPrivilege _ _ _) as [e c3| |]; try discriminate.
      destruct (isSome e); [discriminate|].
      destruct (IsTableDual fp); [inversion H; reflexivity|].
      destruct (isLockForUpdate _).
      * unfold getCtx in H. destruct (_ || _); inversion H; reflexivity.
      * inversion H; reflexivity.
  - unfold tryUpdatePointPlan, bind in H.
    destruct (tryPointGetPlan X _ ctx) as [[fp|] c1| |]; try discriminate.
    destruct (checkFastPlanPrivilege _ _ _) as [e c2| |]; try discriminate.
    destruct (isSome e); [discriminate|].
    destruct (IsTableDual fp); [inversion H; reflexivity|].
    unfold getCtx in H. destruct (buildOrderedList _ _ _ _ _); [|discriminate].
    destruct (findHandleCol _ _) as [[hc fs] c3| |]; try discriminate.
    inversion H; reflexivity.
  - unfold tryDeletePointPlan in H. destruct (IsMultiTable x); [discriminate|].
    unfold bind in H.
    destruct (tryPointGetPlan X _ ctx) as [[fp|] c1| |]; try discriminate.
    destruct (checkFastPlanPrivilege _ _ _) as [e c2| |]; try discriminate.
    destruct (isSome e); [discriminate|].
    destruct (IsTableDual fp); [inversion H; reflexivity|].
    unfold getCtx in H.
    destruct (findHandleCol _ _) as [[hc fs] c3| |]; try discriminate.
    inversion H; reflexivity.
  - discriminate.
Qed.

Lemma TryFastPlan_plan_fits_witness :
  exists plan ctx',
    TryFastPlan Sample.collaborators 2 (NUpdate Sample.updateById) Sample.session
    = Returned (Some plan) ctx' /\
    planFits (NUpdate Sample.updateById) plan = true.
Proof.
  destruct (TryFastPlan Sample.collaborators 2 (NUpdate Sample.updateById) Sample.session)
    as [[plan|] c| |] eqn:E; try (vm_compute in E; discriminate).
  exists plan, c. split; [reflexivity|].
  exact (@TryFastPlan_plan_fits Sample.collaborators 2 _ Sample.session plan c E).
Defined.

(** ** Where the fast path can panic *)

Lemma indexPlan_no_panic : forall indices pairs tblName tbl tblAlias db fields ctx,
  indexPlan indices pairs tblName tbl tblAlias db fields ctx <> Panicked.
Proof.
  induction indices as [|idxInfo rest IH]; intros; simpl; [discriminate|].
  destruct (negb (Unique idxInfo)); [apply IH|].
  destruct (negb (isPublic (idxState idxInfo))); [apply IH|].
  destruct (getIndexValues idxInfo pairs) as [[vs ps]|]; [|apply IH].
  unfold bind, getCtx, ret, newPointGetPlan.
  destruct (buildSchemaFromFields _ _ _ _ _); discriminate.
Qed.

(** [tryPointGetPlan] never panics: on the handle path the field type of
    the key is always at hand. *)
Lemma tryPointGetPlan_no_panic : forall X selStmt ctx,
  tryPointGetPlan X selStmt ctx <> Panicked.
Proof.
  intros X selStmt ctx. rewrite tryPointGetPlan_unfold.
  destruct (preamble _ _ _) as [[[[tn al] tbl] pairs]|]; [|discriminate].
  unfold accessPath. destruct (takesHandlePath tbl pairs) eqn:Eh.
  - destruct (buildSchemaFromFields _ _ _ _ _); [|discriminate].
    destruct (takesHandlePath_single _ _ Eh) as [_ [ft ->]].
    rewrite handlePlan_outcome. discriminate.
  - apply indexPlan_no_panic.
Qed.

Lemma checkFastPlanPrivilege_returns : forall fp kinds ctx,
  exists e ctx', checkFastPlanPrivilege fp kinds ctx = Returned e ctx'.
Proof.
  intros fp kinds ctx. unfold checkFastPlanPrivilege.
  destruct (GetPrivilegeManager ctx) as [pm|]; [|eexists; eexists; reflexivity].
  generalize (L (tblName_ (TblInfo fp))). intro table. revert ctx.
  induction kinds as [|kd rest IH]; intro ctx; simpl.
  - eexists; eexists; reflexivity.
  - destruct (pm _); [apply IH | eexists; eexists; reflexivity].
Qed.

(** A SELECT whose WHERE clause is not an IN test never panics, and the
    plan it gets is a point-get plan or an empty result. *)
Lemma trySelect_notIn_outcome : forall X f x ctx,
  isPatternIn (Where x) = false ->
  trySelect X f x ctx <> Panicked /\
  forall plan ctx', trySelect X f x ctx = Returned (Some plan) ctx' ->
    (exists p, plan = PlanPointGet p) \/ (exists sch, plan = PlanTableDual sch).
Proof.
  intros X f x ctx Hn. unfold trySelect, bind.
  rewrite tryWhereIn2BatchPointGet_notIn by assumption.
  pose proof (@tryPointGetPlan_no_panic X x ctx) as Hnp.
  destruct (tryPointGetPlan X x ctx) as [[fp|] c1| |]; try contradiction;
    try (split; [discriminate|intros; discriminate]).
  destruct (checkFastPlanPrivilege_returns fp [mysql.SelectPriv] c1) as (e & c2 & ->).
  destruct (isSome e); [split; [discriminate|intros; discriminate]|].
  destruct (IsTableDual fp).
  - split; [discriminate|]. intros plan ctx' H; inversion H. right; eauto.
  - destruct (isLockForUpdate _).
    + unfold getCtx. destruct (_ || _); (split; [discriminate|]);
        intros plan ctx' H; inversion H; left; eauto.
    + split; [discriminate|]. intros plan ctx' H; inversion H; left; eauto.
Qed.

Lemma candidateOf_notIn : forall inExpr row w,
  candidateOf inExpr row = Some w -> isPatternIn (Some w) = false.
Proof.
  intros inExpr row w H. destruct inExpr; try discriminate; simpl in H.
  - eapply columnCandidate_notIn; eauto.
  - eapply rowCandidate_notIn; eauto.
Qed.

(** The loop panics exactly when, the elements before it all answered
    with point-get plans, the re-run of one element panics or is answered
    with a plan that is not a point-get plan. *)
Lemma batchChildren_panics : forall f x inExpr rows props children ctx,
  batchChildren f (candidateOf inExpr) x rows props children ctx = Panicked <->
  exists before row after w ps c,
    rows = before ++ row :: after /\
    planned f x inExpr before ctx = Some (ps, c) /\
    candidateOf inExpr row = Some w /\
    (f (NSelect (reusedStmt x w)) c = Panicked \/
     exists plan c', f (NSelect (reusedStmt x w)) c = Returned (Some plan) c' /\
                     forall p, plan <> PlanPointGet p).
Proof.
  intros f x inExpr rows props children ctx. split.
  - revert props children ctx. induction rows as [|row rows IH];
      intros props children ctx H; simpl in H; [discriminate|].
    destruct (candidateOf inExpr row) as [w|] eqn:Ec; [|discriminate].
    unfold bind in H.
    destruct (f (NSelect (reusedStmt x w)) ctx) as [[plan|] c1| |] eqn:E1;
      try discriminate.
    + destruct plan as [p| | | |];
        try (exists [], row, rows, w, [], ctx; split; [reflexivity|];
             split; [reflexivity|]; split; [exact Ec|]; right;
             eexists; eexists; split; [exact E1|]; intros; discriminate).
      destruct (IH _ _ _ H) as (before & r & after & w' & ps & c & -> & Hp & Hc & Hcase).
      exists (row :: before), r, after, w', (p :: ps), c.
      split; [reflexivity|]. split; [simpl; now rewrite Ec, E1, Hp|].
      split; assumption.
    + exists [], row, rows, w, [], ctx. split; [reflexivity|].
      split; [reflexivity|]. split; [exact Ec|]. now left.
  - intros (before & row & after & w & ps & c & -> & Hp & Hc & Hcase).
    rewrite (@batchChildren_prefix _ _ _ _ _ _ _ _ _ _ Hp). simpl. rewrite Hc.
    unfold bind. destruct Hcase as [->|(plan & c' & -> & Hnot)]; [reflexivity|].
    destruct plan as [p| | | |]; try reflexivity. now contradiction (Hnot p).
Qed.

(** A SELECT panics exactly when its batch attempt does. *)
Lemma trySelect_panics : forall X f x ctx,
  trySelect X f x ctx = Panicked <-> tryWhereIn2BatchPointGet f x ctx = Panicked.
Proof.
  intros X f x ctx. unfold trySelect, bind.
  destruct (tryWhereIn2BatchPointGet f x ctx) as [[pl|] c1| |];
    try (split; [discriminate|discriminate]); [|split; reflexivity].
  split; [|discriminate]. intro H. exfalso.
  pose proof (@tryPointGetPlan_no_panic X x c1) as Hnp.
  destruct (tryPointGetPlan X x c1) as [[fp|] c2| |]; try discriminate;
    try contradiction.
  destruct (checkFastPlanPrivilege_returns fp [mysql.SelectPriv] c2) as (e & c3 & Hchk).
  rewrite Hchk in H. destruct (isSome e); [discriminate|].
  destruct (IsTableDual fp); [discriminate|].
  destruct (isLockForUpdate _); [|discriminate].
  unfold getCtx in H. destruct (_ || _); discriminate.
Qed.

(** X10.  Where [TryFastPlan] panics.  A SELECT panics exactly when it is
    on the batch path with a positive IN test and, the elements before it
    all answered with point-get plans, the re-run of one element of the
    IN list is answered with the empty-result plan.  An UPDATE or DELETE
    panics only on a table without columns.  Any other statement, the
    lookup [tryPointGetPlan] and the check [checkFastPlanPrivilege] never
    panic. *)
Theorem TryFastPlan_panics_only : forall X fuel ctx,
  (forall x,
     TryFastPlan X (S fuel) (NSelect x) ctx = Panicked <->
     exists inExpr before row after w ps c sch c',
       onBatchPath x /\
       Where x = Some (PatternInExpr inExpr (before ++ row :: after) false) /\
       planned (TryFastPlan X fuel) x inExpr before ctx = Some (ps, c) /\
       candidateOf inExpr row = Some w /\
       TryFastPlan X fuel (NSelect (reusedStmt x w)) c
       = Returned (Some (PlanTableDual sch)) c') /\
  (forall node,
     isMutation node = true -> TryFastPlan X (S fuel) node ctx = Panicked ->
     exists tbl, targetTable node = Some tbl /\ Columns tbl = []) /\
  TryFastPlan X (S fuel) NOther ctx <> Panicked /\
  (forall node, TryFastPlan X 0 node ctx <> Panicked) /\
  (forall selStmt, tryPointGetPlan X selStmt ctx <> Panicked) /\
  (forall fp kinds, checkFastPlanPrivilege fp kinds ctx <> Panicked).
Proof.
  intros X fuel ctx. split; [|split; [|split; [|split; [|split]]]].
  - intro x. simpl. rewrite trySelect_panics. split.
    + intro H.
      destruct (tryWhereIn2BatchPointGet_cases (TryFastPlan X fuel) x ctx)
        as [Hnil|(inExpr & inList & Hon & Hw & Hne & Heq)]; [congruence|].
      rewrite Heq in H. unfold bind in H.
      destruct (batchChildren (TryFastPlan X fuel) (candidateOf inExpr) x inList [] [] ctx)
        as [[[props children]|] c0| |] eqn:Eb; try discriminate.
      * exfalso. destruct (@batchChildren_planned _ _ _ _ _ _ _ _ _ _ Eb)
          as (ps & Hp & Hch & _).
        apply planned_length in Hp. simpl in Hch. subst children.
        destruct ps as [|p0 ps]; [|discriminate].
        destruct inList; [now contradiction Hne|discriminate].
      * apply batchChildren_panics in Eb.
        destruct Eb as (before & row & after & w & ps & c & -> & Hp & Hc & Hcase).
        pose proof (candidateOf_notIn _ _ Hc) as Hnot.
        destruct fuel as [|fuel'].
        -- destruct Hcase as [Hcase|(plan & c' & Hcase & _)]; discriminate.
        -- destruct (@trySelect_notIn_outcome X (TryFastPlan X fuel')
                       (reusedStmt x w) c Hnot) as [Hnp Hshape].
           destruct Hcase as [Hcase|(plan & c' & Hcase & Hnp')];
             [now contradiction Hnp|].
           destruct (Hshape _ _ Hcase) as [[p ->]|[sch ->]];
             [now contradiction (Hnp' p)|].
           exists inExpr, before, row, after, w, ps, c, sch, c'.
           split; [exact Hon|]. split; [exact Hw|]. split; [exact Hp|].
           split; [exact Hc|exact Hcase].
    + intros (inExpr & before & row & after & w & ps & c & sch & c' &
              Hon & Hw & Hp & Hc & Hd).
      rewrite (@tryWhereIn2BatchPointGet_loop (TryFastPlan X fuel) x _ _ ctx Hon Hw)
        by (destruct before; discriminate).
      unfold bind.
      assert (Hb : batchChildren (TryFastPlan X fuel) (candidateOf inExpr) x
                                 (before ++ row :: after) [] [] ctx = Panicked).
      { apply batchChildren_panics.
        exists before, row, after, w, ps, c. split; [reflexivity|].
        split; [exact Hp|]. split; [exact Hc|]. right.
        exists (PlanTableDual sch), c'. split; [exact Hd|]. intros; discriminate. }
      now rewrite Hb.
  - intros node Hm H.
    assert (Hmut : forall fp c1 c2 q,
              tryPointGetPlan X (lookupOf node) ctx = Returned (Some fp) c1 ->
              schema q = schema fp -> TblInfo q = TblInfo fp ->
              findHandleCol q c2 = Panicked ->
              exists tbl, targetTable node = Some tbl /\ Columns tbl = []).
    { intros fp c1 c2 q E1 Hs Ht Hp.
      destruct (tryPointGetPlan_target X node _ E1) as (Htt & _ & _).
      exists (TblInfo fp). split; [assumption|].
      assert (Hsch : exists db al,
                schema fp
                = columnsFrom 0 db (tblName_ (TblInfo fp)) al (Columns (TblInfo fp))).
      { destruct node as [x|x|x|]; try discriminate; simpl in E1;
          exact (proj2 (tryPointGetPlan_mutation_schema _ _ _ _ _ _ E1)). }
      destruct Hsch as (db & al & Hsch).
      destruct (Columns (TblInfo fp)) as [|col cols] eqn:Ec; [reflexivity|]. exfalso.
      destruct (@findHandleCol_wraps q db (tblName_ (TblInfo fp)) al c2)
        as (hc & sel & Hf & _).
      - rewrite Hs, Ht, Ec. exact Hsch.
      - rewrite Ht, Ec. discriminate.
      - rewrite Hf in Hp. discriminate. }
    destruct node as [x|x|x|]; try discriminate; simpl in H.
    + unfold tryUpdatePointPlan, bind in H.
      pose proof (@tryPointGetPlan_no_panic X (lookupOf (NUpdate x)) ctx) as Hnp.
      simpl in Hnp.
      destruct (tryPointGetPlan X _ ctx) as [[fp|] c1| |] eqn:E1; try discriminate;
        try contradiction.
      destruct (checkFastPlanPrivilege_returns fp [mysql.SelectPriv; mysql.UpdatePriv] c1)
        as (e & c2 & Hchk). rewrite Hchk in H.
      destruct (isSome e); [discriminate|]. destruct (IsTableDual fp); [discriminate|].
      unfold getCtx in H. destruct (buildOrderedList _ _ _ _ _); [|discriminate].
      destruct (findHandleCol _ c2) as [[hc fs] c3| |] eqn:Ef; try discriminate.
      eapply (Hmut fp c1 c2); [reflexivity | | | exact Ef];
        destruct (TxnCtxIsPessimistic _); reflexivity.
    + unfold tryDeletePointPlan in H. destruct (IsMultiTable x); [discriminate|].
      unfold bind in H.
      pose proof (@tryPointGetPlan_no_panic X (lookupOf (NDelete x)) ctx) as Hnp.
      simpl in Hnp.
      destruct (tryPointGetPlan X _ ctx) as [[fp|] c1| |] eqn:E1; try discriminate;
        try contradiction.
      destruct (checkFastPlanPrivilege_returns fp [mysql.SelectPriv; mysql.DeletePriv] c1)
        as (e & c2 & Hchk). rewrite Hchk in H.
      destruct (isSome e); [discriminate|]. destruct (IsTableDual fp); [discriminate|].
      unfold getCtx in H.
      destruct (findHandleCol _ c2) as [[hc fs] c3| |] eqn:Ef; try discriminate.
      eapply (Hmut fp c1 c2); [reflexivity | | | exact Ef];
        destruct (TxnCtxIsPessimistic _); reflexivity.
  - discriminate.
  - intro node. discriminate.
  - intro selStmt. apply tryPointGetPlan_no_panic.
  - intros fp kinds. destruct (checkFastPlanPrivilege_returns fp kinds ctx) as (e & c & ->).
    discriminate.
Qed.

Lemma TryFastPlan_panics_only_witness :
  exists inExpr before row after w ps c sch c',
    onBatchPath Sample.selectInOverflow /\
    Where Sample.selectInOverflow
    = Some (PatternInExpr inExpr (before ++ row :: after) false) /\
    planned (TryFastPlan Sample.collaborators 1) Sample.selectInOverflow inExpr before
            Sample.session = Some (ps, c) /\
    candidateOf inExpr row = Some w /\
    TryFastPlan Sample.collaborators 1 (NSelect (reusedStmt Sample.selectInOverflow w)) c
    = Returned (Some (PlanTableDual sch)) c'.
Proof.
  apply (proj1 (proj1 (@TryFastPlan_panics_only Sample.collaborators 1 Sample.session)
                      Sample.selectInOverflow)).
  vm_compute. reflexivity.
Defined.

(** ** Privilege checks stop at the first denial *)

Lemma requestVerifications_stops : forall pm table kinds ctx e ctx',
  requestVerifications pm table kinds ctx = Returned (Some e) ctx' ->
  exists before kd after,
    kinds = before ++ kd :: after /\
    forallb pm (map (requestFor ctx table) before) = true /\
    pm (requestFor ctx table kd) = false /\
    e = ErrOther "privilege check fail" /\
    ctx' = mkContext (GetSessionVars ctx) (GetPrivilegeManager ctx)
             (requests ctx ++ map (requestFor ctx table) (before ++ [kd])).
Proof.
  intros pm table kinds; induction kinds as [|k rest IH]; intros ctx e ctx' H;
    simpl in H; [discriminate|].
  fold (sv ctx) in H. fold (requestFor ctx table k) in H.
  destruct (pm (requestFor ctx table k)) eqn:Ek.
  - destruct (IH _ _ _ H) as (before & kd & after & -> & Hb & Hd & -> & ->).
    exists (k :: before), kd, after. split; [reflexivity|].
    unfold requestFor, sv in *. simpl in *. rewrite Ek, Hb.
    split; [reflexivity|]. split; [exact Hd|]. split; [reflexivity|].
    rewrite <- app_assoc. reflexivity.
  - inversion H; subst. exists [], k, rest. simpl.
    split; [reflexivity|]. split; [reflexivity|]. split; [exact Ek|].
    split; reflexivity.
Qed.

(** X11.  When [checkFastPlanPrivilege] fails, the kinds asked are a prefix
    of the kinds wanted: every kind before the last one asked was granted,
    the last one was denied, the kinds after it are never put to the
    manager, and the error is "privilege check fail".  The session
    variables are untouched. *)
Theorem checkFastPlanPrivilege_stops : forall fp kinds ctx e ctx',
  checkFastPlanPrivilege fp kinds ctx = Returned (Some e) ctx' ->
  exists pm before kd after,
    GetPrivilegeManager ctx = Some pm /\
    kinds = before ++ kd :: after /\
    forallb pm (map (requestFor ctx (L (tblName_ (TblInfo fp)))) before) = true /\
    pm (requestFor ctx (L (tblName_ (TblInfo fp))) kd) = false /\
    e = ErrOther "privilege check fail" /\
    requests ctx'
    = requests ctx ++ map (requestFor ctx (L (tblName_ (TblInfo fp)))) (before ++ [kd]) /\
    GetSessionVars ctx' = GetSessionVars ctx.
Proof.
  intros fp kinds ctx e ctx' H. unfold checkFastPlanPrivilege in H.
  destruct (GetPrivilegeManager ctx) as [pm|] eqn:Epm; [|discriminate].
  destruct (requestVerifications_stops _ _ _ _ H)
    as (before & kd & after & Hk & Hb & Hd & He & ->).
  exists pm, before, kd, after. simpl. auto 10.
Qed.

Lemma checkFastPlanPrivilege_stops_witness :
  exists pm before kd after,
    GetPrivilegeManager sessionReadOnly = Some pm /\
    [mysql.SelectPriv; mysql.UpdatePriv; mysql.DeletePriv] = before ++ kd :: after /\
    forallb pm (map (requestFor sessionReadOnly (L (tblName_ Sample.t1))) before) = true /\
    pm (requestFor sessionReadOnly (L (tblName_ Sample.t1)) kd) = false /\
    ErrOther "privilege check fail" = ErrOther "privilege check fail" /\
    requests (logRequest
                (logRequest sessionReadOnly
                   (requestFor sessionReadOnly (L (tblName_ Sample.t1)) mysql.SelectPriv))
                (requestFor sessionReadOnly (L (tblName_ Sample.t1)) mysql.UpdatePriv))
    = requests sessionReadOnly
      ++ map (requestFor sessionReadOnly (L (tblName_ Sample.t1))) (before ++ [kd]) /\
    GetSessionVars
      (logRequest
         (logRequest sessionReadOnly
            (requestFor sessionReadOnly (L (tblName_ Sample.t1)) mysql.SelectPriv))
         (requestFor sessionReadOnly (L (tblName_ Sample.t1)) mysql.UpdatePriv))
    = GetSessionVars sessionReadOnly.
Proof.
  apply (@checkFastPlanPrivilege_stops
           (freshPlan [] (NewCIStr "test") Sample.t1)
           [mysql.SelectPriv; mysql.UpdatePriv; mysql.DeletePriv] sessionReadOnly).
  reflexivity.
Defined.

(** ** Values and parameter markers of an index plan *)

Lemma Forall2_In_r : forall A B (P : A -> B -> Prop) xs ys y,
  Forall2 P xs ys -> In y ys -> exists x, In x xs /\ P x y.
Proof.
  intros A B P xs ys y H; induction H as [|x y' xs ys Hxy _ IH]; intro Hin.
  - contradiction.
  - destruct Hin as [->|Hin].
    + exists x. split; [now left|assumption].
    + destruct (IH Hin) as (x' & Hx & Hp). exists x'. split; [now right|assumption].
Qed.

Lemma Forall2_combine : forall A B C (P : A -> B * C -> Prop) (Q : B -> C -> Prop),
  (forall a b c, P a (b, c) -> Q b c) ->
  forall xs bs cs,
  length bs = length xs -> length cs = length xs ->
  Forall2 P xs (combine bs cs) -> Forall2 Q bs cs.
Proof.
  intros A B C P Q HPQ xs; induction xs as [|x xs IH]; intros bs cs Hb Hc H.
  - destruct bs; [|discriminate]. destruct cs; [|discriminate]. constructor.
  - destruct bs as [|b bs]; [discriminate|]. destruct cs as [|c cs]; [discriminate|].
    simpl in *. inversion H; subst. constructor.
    + eapply HPQ; eauto.
    + apply IH; auto.
Qed.

(** Every pair that [getNameValuePairs] collects from a WHERE clause has a
    value that is not NULL, and a parameter marker, if any, that holds
    that value. *)
Lemma getNameValuePairs_values : forall al w nvs nv,
  getNameValuePairs [] al w = Some nvs -> In nv nvs ->
  IsNull (value nv) = false /\ forall m, param nv = Some m -> value nv = pmDatum m.
Proof.
  intros al w nvs nv H Hin.
  destruct (getNameValuePairs_pairsOf _ _ H) as (e & _ & Hp & _).
  apply pairsOf_Forall2 in Hp.
  destruct (@Forall2_In_r _ _ _ _ _ _ Hp Hin) as (c & _ & Hc).
  destruct (pairOf_sound _ _ Hc) as (Hn & Hm & _). auto.
Qed.

(** X13.  In a plan of [tryPointGetPlan] the index values and the
    parameter slots go in step: there is one slot per value, no value is
    NULL, and a slot that refers to a parameter marker refers to the
    marker that holds the value beside it.  The handle parameter, when
    set, likewise belongs to a pair of the WHERE clause. *)
Theorem tryPointGetPlan_params : forall X selStmt ctx p ctx',
  tryPointGetPlan X selStmt ctx = Returned (Some p) ctx' ->
  Forall2 (fun v prm => IsNull v = false /\ forall m, prm = Some m -> v = pmDatum m)
          (IndexValues p) (IndexValueParams p) /\
  forall m, HandleParam p = Some m ->
    exists al pairs nv,
      getNameValuePairs [] al (Where selStmt) = Some pairs /\ pairs = [nv] /\
      param nv = Some m /\ value nv = pmDatum m /\ IsNull (value nv) = false.
Proof.
  intros X selStmt ctx p ctx' H.
  destruct (tryPointGetPlan_some _ _ _ H)
    as (tn & al & tbl & pairs & Hp & _ & _ & Ht & _).
  destruct (preamble_table _ _ _ Hp) as (_ & _ & Hpairs & _).
  rewrite tryPointGetPlan_unfold, Hp in H. unfold accessPath in H.
  destruct (takesHandlePath tbl pairs) eqn:Eh.
  - destruct (buildSchemaFromFields _ _ _ _ _) as [sch|]; [|discriminate].
    destruct (takesHandlePath_single _ _ Eh) as [Hone _].
    destruct (snd (findPKHandle tbl pairs)) as [ft|] eqn:Ef; [|discriminate].
    destruct (handlePlan_shape _ _ _ _ _ _ _ H) as (_ & -> & -> & Hcase).
    split; [constructor|]. intros m Hm.
    destruct Hcase as [(_ & _ & Hnone)|(_ & Hprm & _)]; [congruence|].
    remember (fst (findPKHandle tbl pairs)) as nv eqn:Hnv.
    exists al, pairs, nv.
    assert (Hin : In nv pairs) by (rewrite Hone; now left).
    destruct (getNameValuePairs_values _ _ _ Hpairs Hin) as (Hnn & Hv).
    split; [assumption|]. split; [assumption|].
    assert (Hpm : param nv = Some m) by congruence.
    split; [assumption|]. split; [now apply Hv|assumption].
  - destruct (indexPlan_shape _ _ _ _ _ _ _ _ H)
      as (idx & _ & _ & _ & Hg & _ & _ & _ & Hprm & _).
    split; [|intros m Hm; congruence].
    unfold getIndexValues in Hg.
    destruct (Nat.eqb _ _); [|discriminate]. simpl in Hg.
    destruct (HasPrefixIndex idx); [discriminate|].
    destruct (getIndexValuesLoop (idxColumns idx) pairs [] []) as [[vs ps]|] eqn:El;
      [|discriminate].
    destruct (getIndexValuesLoop_sound _ _ _ _ El) as (av & ap & -> & -> & Hla & Hlp & Hall).
    simpl in Hg. destruct av; [discriminate|]. injection Hg as <- <-.
    eapply Forall2_combine; [|exact Hla|exact Hlp|exact Hall].
    intros ic v prm (nv & Hl & Hv & Hm). simpl in Hv, Hm. subst v prm.
    apply lookup_In in Hl. destruct Hl as [Hin _].
    exact (getNameValuePairs_values _ _ _ Hpairs Hin).
Qed.

Lemma tryPointGetPlan_params_witness :
  exists p ctx',
    tryPointGetPlan Sample.collaborators Sample.selectBA Sample.session
    = Returned (Some p) ctx' /\
    Forall2 (fun v prm => IsNull v = false /\ forall m, prm = Some m -> v = pmDatum m)
            (IndexValues p) (IndexValueParams p).
Proof.
  destruct (tryPointGetPlan Sample.collaborators Sample.selectBA Sample.session)
    as [[p|] c| |] eqn:E; try (vm_compute in E; discriminate).
  exists p, c. split; [reflexivity|].
  exact (proj1 (@tryPointGetPlan_params Sample.collaborators Sample.selectBA
                  Sample.session p c E)).
Defined.

(** ** The explain output of an index plan *)

Lemma string_app_assoc : forall a b c : string,
  ((a ++ b) ++ c)%string = (a ++ b ++ c)%string.
Proof.
  intros a b c; induction a as [|ch a IH]; simpl; [reflexivity|now rewrite IH].
Qed.

Lemma string_app_nil_r : forall a : string, (a ++ "")%string = a.
Proof. induction a as [|ch a IH]; simpl; [reflexivity|now rewrite IH]. Qed.

(** The loop over the index columns, which writes a space after every
    column whose position is not the last, joins the names with spaces. *)
Lemma explainIndexColumns_concat : forall cols n total buffer,
  total = n + Z.of_nat (length cols) ->
  explainIndexColumns cols n total buffer
  = (buffer ++ String.concat " " (map (fun c => O (idxColName c)) cols))%string.
Proof.
  induction cols as [|col rest IH]; intros n total buffer Ht; simpl.
  - now rewrite string_app_nil_r.
  - destruct rest as [|col' rest'].
    + simpl in *. destruct (Z.ltb_spec n (total - 1)); [lia|reflexivity].
    + rewrite IH by (simpl length in *; lia).
      destruct (Z.ltb_spec n (total - 1)); [|simpl length in *; lia].
      rewrite !string_app_assoc. reflexivity.
Qed.

(** X14.  For a plan keyed by an index, [ExplainInfo] is the table name,
    then the names of the index columns in the spelling of the schema,
    separated by single spaces with none after the last, then the lock
    mark if the plan locks. *)
Theorem ExplainInfo_index : forall p idxInfo,
  IndexInfo_ p = Some idxInfo ->
  ExplainInfo p
  = ("table:" ++ O (tblName_ (TblInfo p)) ++ ", index:"
     ++ String.concat " " (map (fun c => O (idxColName c)) (idxColumns idxInfo))
     ++ (if Lock p then ", lock" else ""))%string.
Proof.
  intros p idxInfo H. unfold ExplainInfo. rewrite H.
  rewrite explainIndexColumns_concat by lia.
  destruct (Lock p); simpl; rewrite ?string_app_assoc, ?string_app_nil_r; reflexivity.
Qed.

Lemma ExplainInfo_index_witness :
  ExplainInfo (mkPointGetPlan "Point_Get" None [] (NewCIStr "test") Sample.tu
                 (Some Sample.ba) 0 None [] [] false false true false)
  = "table:tu, index:b a, lock".
Proof.
  rewrite (@ExplainInfo_index
             (mkPointGetPlan "Point_Get" None [] (NewCIStr "test") Sample.tu
                (Some Sample.ba) 0 None [] [] false false true false)
             Sample.ba eq_refl).
  reflexivity.
Defined.

(** ** The assignments of an update plan *)

Lemma buildOrderedList_step : forall X s p assign rest acc,
  buildOrderedList X s p (assign :: rest) acc
  = match assignmentOf X s (schema p) assign with
    | Some r => buildOrderedList X s p rest (acc ++ [r])
    | None => None
    end.
Proof.
  intros X s p assign rest acc. simpl. unfold assignmentOf.
  destruct (FindColumn X (schema p) (asgColumn assign)) as [[col|] [e|]]; try reflexivity.
  destruct (RewriteSimpleExprWithSchema X s (asgExpr assign) (schema p)) as [expr [e|]];
    try reflexivity.
  destruct (ResolveIndices X _ (schema p)) as [resolved [e|]]; reflexivity.
Qed.

(** X15.  [buildOrderedList] is all or nothing and keeps the order: it
    returns a list exactly when every assignment of the statement yields
    an assignment of the plan, and the list is then the one it was given
    followed by one assignment per assignment of the statement, in
    written order; so an empty list of assignments gives an empty list,
    not a failure. *)
Theorem buildOrderedList_each : forall X s p assigns acc,
  (forall res,
     buildOrderedList X s p assigns acc = Some res <->
     exists ol,
       Forall2 (fun a r => assignmentOf X s (schema p) a = Some r) assigns ol /\
       res = acc ++ ol) /\
  (forall res, buildOrderedList X s p assigns acc = Some res ->
               length res = (length acc + length assigns)%nat) /\
  (buildOrderedList X s p assigns acc = None <->
   exists a, In a assigns /\ assignmentOf X s (schema p) a = None).
Proof.
  intros X s p assigns; induction assigns as [|a rest IH]; intro acc.
  - split; [|split].
    + intro res; simpl; split.
      * intro H; inversion H; subst. exists []. rewrite app_nil_r. split; constructor.
      * intros (ol & Hall & ->). inversion Hall. now rewrite app_nil_r.
    + intros res H; inversion H; simpl; lia.
    + simpl; split; [discriminate|]. intros (a & [] & _).
  - rewrite buildOrderedList_step.
    destruct (assignmentOf X s (schema p) a) as [r|] eqn:Ea.
    + destruct (IH (acc ++ [r])) as (IH1 & IH2 & IH3). split; [|split].
      * intro res. rewrite IH1. split.
        -- intros (ol & Hall & ->). exists (r :: ol).
           split; [now constructor|]. now rewrite <- app_assoc.
        -- intros (ol & Hall & ->). inversion Hall as [|? r' ? ol' Hr Hrest]; subst.
           exists ol'. rewrite Ea in Hr; inversion Hr; subst.
           split; [assumption|]. now rewrite <- app_assoc.
      * intros res H. rewrite (IH2 _ H), length_app. simpl. lia.
      * rewrite IH3. split.
        -- intros (a' & Hin & Hn). exists a'. split; [now right|assumption].
        -- intros (a' & [<-|Hin] & Hn); [congruence|]. exists a'. auto.
    + split; [|split].
      * intro res; split; [discriminate|].
        intros (ol & Hall & _). inversion Hall; subst. congruence.
      * discriminate.
      * split; [|reflexivity]. intros _. exists a. split; [now left|assumption].
Qed.

(** ** The depth of the recursion *)

(** X12.  [TryFastPlan] calls itself through [tryWhereIn2BatchPointGet],
    once per candidate, and a candidate never brings it back there: the
    rewritten WHERE clause is an equality or a conjunction of equalities,
    not an IN test.  So two levels always finish, more levels change
    nothing, and a statement whose WHERE clause is not an IN test needs
    one. *)
Theorem TryFastPlan_depth : forall X n node ctx,
  TryFastPlan X (S (S n)) node ctx <> OutOfFuel /\
  TryFastPlan X (S (S n)) node ctx = TryFastPlan X 2 node ctx /\
  (isPatternIn (Where (lookupOf node)) = false ->
   TryFastPlan X 1 node ctx = TryFastPlan X 2 node ctx) /\
  forall f x row w c,
    (exists l, columnCandidate l row = Some w) \/
    (exists ls, rowCandidate ls row = Some w) ->
    tryWhereIn2BatchPointGet f (reusedStmt x w) c = Returned None c.
Proof.
  intros X n node ctx. split; [apply TryFastPlan_runs|].
  split; [apply TryFastPlan_fuel|]. split.
  - intro Hn. destruct node as [x|x|x|]; try reflexivity.
    simpl in *. unfold trySelect, bind.
    rewrite !tryWhereIn2BatchPointGet_notIn by assumption. reflexivity.
  - intros f x row w c Hw. apply tryWhereIn2BatchPointGet_notIn.
    destruct Hw as [[l Hw]|[ls Hw]].
    + eapply columnCandidate_notIn; eauto.
    + eapply rowCandidate_notIn; eauto.
Qed.
